(** * TingaTalk backend: call-session state machine and billing timers

    A shallow embedding of the call-control part of [src/server.js]
    (HTTP billing endpoints, Socket.IO call handlers, the two periodic
    sweeps) and of the lock and ledger operations of the scalability
    module ([src/unnamed/part_005]).

    Conventions of the embedding:
    - the four in-process [Map]s keep JavaScript's insertion order, so they
      are association lists with unique keys ([JsMap]);
    - a handler runs to completion; what it awaits from a collaborator
      (an FCM send result) is an input of the handler, and the Firestore
      user documents it reads are part of the state;
    - [Date.now()] is an input ([now]); interval handles are numbers and
      the live intervals of the Node timer queue are part of the state;
    - coin rates are the rationals 1/5 and 1 (JavaScript's 0.2 and 1.0),
      durations and balances are integers;
    - log lines are left out; every emitted socket message, HTTP response,
      Firestore call-record write and ledger request is kept in the output
      trace of the handler. *)

From Stdlib Require Import ZArith QArith Qround String Ascii List Bool Lia.
From Stdlib Require Import DecimalString Floats Uint63.
From Stdlib Require Import Permutation Sorted DecimalPos DecimalZ.
Import ListNotations.

Local Open Scope string_scope.
Local Open Scope Z_scope.

(** ** JavaScript [Map] with string keys *)

Module JsMap.
Section WithValue.
Context {V : Type}.

Definition t : Type := list (string * V).

Definition empty : t := [].

Fixpoint get (k : string) (m : t) : option V :=
    match m with
    | [] => None
    | (k', v) :: rest => if String.eqb k k' then Some v else get k rest
    end.

Definition has (k : string) (m : t) : bool :=
    match get k m with Some _ => true | None => false end.

  (** [Map.prototype.set]: an existing key keeps its position. *)
Fixpoint set (k : string) (v : V) (m : t) : t :=
    match m with
    | [] => [(k, v)]
    | (k', v') :: rest =>
        if String.eqb k k' then (k', v) :: rest else (k', v') :: set k v rest
    end.

Fixpoint delete (k : string) (m : t) : t :=
    match m with
    | [] => []
    | (k', v') :: rest =>
        if String.eqb k k' then delete k rest else (k', v') :: delete k rest
    end.

Definition size (m : t) : nat := List.length m.

Definition entries (m : t) : list (string * V) := m.

Definition keys (m : t) : list string := List.map fst m.
End WithValue.
Arguments t V : clear implicits.
End JsMap.

(** ** Data model *)

(** The status strings of [userStatus] entries; ['fcm_reachable'] only
    ever appears as the resolved status inside [initiate_call]. *)
Module StatusName.
Inductive t : Set :=
  | available | unavailable | busy | ringing | disconnected | fcm_reachable.

Definition eqb (a b : t) : bool :=
    match a, b with
    | available, available | unavailable, unavailable | busy, busy
    | ringing, ringing | disconnected, disconnected
    | fcm_reachable, fcm_reachable => true
    | _, _ => false
    end.

Definition to_string (a : t) : string :=
    match a with
    | available => "available" | unavailable => "unavailable"
    | busy => "busy" | ringing => "ringing"
    | disconnected => "disconnected" | fcm_reachable => "fcm_reachable"
    end.
End StatusName.

(** The [status] strings written on call objects. *)
Module CallStatus.
Inductive t : Set :=
  | initiated | ringing | pending_fcm | failed | accepted
  | declined | ended | cancelled | timeout | disconnected.

Definition eqb (a b : t) : bool :=
    match a, b with
    | initiated, initiated | ringing, ringing | pending_fcm, pending_fcm
    | failed, failed | accepted, accepted | declined, declined
    | ended, ended | cancelled, cancelled | timeout, timeout
    | disconnected, disconnected => true
    | _, _ => false
    end.
End CallStatus.

(** [userStatus] values. *)
Module UserStatus.
Record t : Type := mk {
    status : StatusName.t;
    currentCallId : option string;
    lastStatusChange : Z;
    userPreference : option bool
  }.
End UserStatus.

(** [connectedUsers] values. *)
Module Conn.
Record t : Type := mk {
    socketId : string;
    userType : string;
    connectedAt : Z;
    isOnline : bool
  }.
End Conn.

(** [activeCalls] values: the call object built by [initiate_call] and
    mutated in place by the later handlers.  [callerName] and the
    timestamps no handler reads back are left out.  Entries restored by
    [recoverCallTimersFromRedis], which carry no [status] and no
    [participants], are outside the model. *)
Module Call.
Record t : Type := mk {
  callId : string;
  roomName : string;
  callerId : string;
  recipientId : string;
  callType : string;
  status : CallStatus.t;
  createdAt : Z;
  participants : list string;
  acceptedAt : option Z;
  endedAt : option Z;
  endedBy : option string;
  recipientOnline : option bool
}.

Definition with_status (st : CallStatus.t) (c : t) : t :=
  mk (callId c) (roomName c) (callerId c) (recipientId c) (callType c) st
     (createdAt c) (participants c) (acceptedAt c) (endedAt c) (endedBy c)
     (recipientOnline c).

Definition with_recipientOnline (b : bool) (c : t) : t :=
  mk (callId c) (roomName c) (callerId c) (recipientId c) (callType c)
     (status c) (createdAt c) (participants c) (acceptedAt c) (endedAt c)
     (endedBy c) (Some b).

(** [call.status = 'accepted'; call.participants.push(r); call.acceptedAt = now] *)
Definition accept (r : string) (now : Z) (c : t) : t :=
  mk (callId c) (roomName c) (callerId c) (recipientId c) (callType c)
     CallStatus.accepted (createdAt c) (participants c ++ [r]) (Some now)
     (endedAt c) (endedBy c) (recipientOnline c).

(** [call.status = 'ended'; call.endedAt = now; call.endedBy = userId] *)
Definition finish (userId : string) (now : Z) (c : t) : t :=
  mk (callId c) (roomName c) (callerId c) (recipientId c) (callType c)
     CallStatus.ended (createdAt c) (participants c) (acceptedAt c)
     (Some now) (Some userId) (recipientOnline c).
End Call.

(** [callTimers] values ([roomName], which nothing reads, is left out). *)
Module Timer.
Record t : Type := mk {
    interval : nat;
    startTime : Z;
    durationSeconds : Z;
    callerId : string;
    recipientId : string;
    callType : string;
    coinRate : Q;
    lastHeartbeat : Z;
    autoStarted : bool
  }.

Definition with_durationSeconds (d : Z) (x : t) : t :=
    mk (interval x) (startTime x) d (callerId x) (recipientId x) (callType x)
       (coinRate x) (lastHeartbeat x) (autoStarted x).

Definition with_lastHeartbeat (h : Z) (x : t) : t :=
    mk (interval x) (startTime x) (durationSeconds x) (callerId x)
       (recipientId x) (callType x) (coinRate x) h (autoStarted x).
End Timer.

(** The fields of a Firestore [users] document that the call path reads
    or writes. *)
Module UserDoc.
Record t : Type := mk {
    coinBalance : option Z;
    coins : option Z;
    isAvailable : option bool;
    fcmToken : option string
  }.
End UserDoc.

(** A Redis [call_lock:<recipientId>] key: its value and its expiry. *)
Module Lock.
Record t : Type := mk { holder : string; expiresAt : Z }.
End Lock.


(** ** Output trace *)

(** Socket.IO messages ([socket.emit], [io.to(id).emit], [io.emit]). *)
Inductive Msg : Type :=
| error (message : string)
| joined (userId : string) (status : StatusName.t)
| call_failed (callId reason : string)
    (recipient_status : option StatusName.t) (is_busy : bool)
| incoming_call (callId roomName callerId recipientId callType : string)
| call_initiated (callId roomName status : string) (recipientOnline : bool)
| call_timeout (callId : string)
| call_accepted (callId roomName recipientId : string)
| call_declined (callId : string)
| call_cancelled (callId cancelledBy reason : string)
| call_ended (callId endedBy : string) (reason : option string)
| participant_disconnected (callId disconnectedUserId reason : string)
| user_disconnected (userId : string)
| user_status_changed (userId : string)
| call_pong (callId : string)
| health_pong (userId : string).

(** [fraudDetection] of [/api/calls/complete], [validation] of the legacy
    endpoint. *)
Record FraudDetection : Type := mkFraud {
  clientDuration : option Z;
  serverDuration : Z;
  differenceSeconds : Z;
  isSuspicious : bool
}.

(** The [updates] object handed to [updateCallInFirestore]. *)
Record CallUpdate : Type := mkUpdate {
  u_status : string;
  u_durationSeconds : option Z;
  u_coinsDeducted : option Q;
  u_endReason : option string;
  u_billingSource : option string;
  u_fraudDetection : option FraudDetection
}.

(** JSON bodies of the HTTP endpoints. *)
Inductive Response : Type :=
| http_error (code : Z) (err : string) (recipientStatus : option StatusName.t)
| start_call_tracking_ok (call_id : string) (coin_rate_per_second : Q)
| complete_call_ok (call_id : string) (duration_seconds : Z)
    (coins_deducted : Q) (source : string) (validation : option FraudDetection)
| calls_start_ok (callId : string) (callerBalance : Z) (coinRate : Q)
| calls_complete_ok (callId : string) (durationSeconds : Z)
    (coinsDeducted : Q) (newBalance : option Z) (source : string)
    (fraudDetection : option FraudDetection)
| calls_heartbeat_ok (callId : string) (currentDurationSeconds : Z)
    (estimatedCost : Z) (coinRate : Q).

Inductive Effect : Type :=
| emit (socketId : string) (m : Msg)
| broadcast (m : Msg)
| respond (r : Response)
| saveCallToFirestore (callId : string) (status : string)
| updateCallInFirestore (callId : string) (u : CallUpdate)
| deductRequest (userId : string) (amount : Z) (callId : string)
| sendIncomingCallNotification (userId callId : string).

(** ** Server state *)

Record State : Type := mkState {
  activeCalls : JsMap.t Call.t;
  connectedUsers : JsMap.t Conn.t;
  userStatus : JsMap.t UserStatus.t;
  callTimers : JsMap.t Timer.t;
  (** live [setInterval] handles, each with the [callId] its closure holds *)
  intervals : list (nat * string);
  nextInterval : nat;
  (** ids of the connected sockets ([io.sockets.sockets]) *)
  sockets : list string;
  (** Firestore [users] collection *)
  users : JsMap.t UserDoc.t;
  (** Redis [call_lock:*] keys *)
  callLocks : JsMap.t Lock.t
}.

Definition initialState : State :=
  mkState [] [] [] [] [] 0%nat [] [] [].

Definition with_activeCalls (m : JsMap.t Call.t) (s : State) : State :=
  mkState m (connectedUsers s) (userStatus s) (callTimers s) (intervals s)
    (nextInterval s) (sockets s) (users s) (callLocks s).

Definition with_connectedUsers (m : JsMap.t Conn.t) (s : State) : State :=
  mkState (activeCalls s) m (userStatus s) (callTimers s) (intervals s)
    (nextInterval s) (sockets s) (users s) (callLocks s).

Definition with_userStatus (m : JsMap.t UserStatus.t) (s : State) : State :=
  mkState (activeCalls s) (connectedUsers s) m (callTimers s) (intervals s)
    (nextInterval s) (sockets s) (users s) (callLocks s).

Definition with_callTimers (m : JsMap.t Timer.t) (s : State) : State :=
  mkState (activeCalls s) (connectedUsers s) (userStatus s) m (intervals s)
    (nextInterval s) (sockets s) (users s) (callLocks s).

Definition with_intervals (l : list (nat * string)) (n : nat) (s : State)
  : State :=
  mkState (activeCalls s) (connectedUsers s) (userStatus s) (callTimers s) l n
    (sockets s) (users s) (callLocks s).

Definition with_sockets (l : list string) (s : State) : State :=
  mkState (activeCalls s) (connectedUsers s) (userStatus s) (callTimers s)
    (intervals s) (nextInterval s) l (users s) (callLocks s).

Definition with_users (m : JsMap.t UserDoc.t) (s : State) : State :=
  mkState (activeCalls s) (connectedUsers s) (userStatus s) (callTimers s)
    (intervals s) (nextInterval s) (sockets s) m (callLocks s).

Definition with_callLocks (m : JsMap.t Lock.t) (s : State) : State :=
  mkState (activeCalls s) (connectedUsers s) (userStatus s) (callTimers s)
    (intervals s) (nextInterval s) (sockets s) (users s) m.

(** ** Handler monad: state plus output trace *)

Record Res (A : Type) : Type := mkRes { val : A; st : State; out : list Effect }.
Arguments mkRes {A} _ _ _.
Arguments val {A} _.
Arguments st {A} _.
Arguments out {A} _.

Definition M (A : Type) : Type := State -> Res A.

Definition ret {A : Type} (a : A) : M A := fun s => mkRes a s [].

Definition bind {A B : Type} (m : M A) (f : A -> M B) : M B :=
  fun s =>
    let r1 := m s in
    let r2 := f (val r1) (st r1) in
    mkRes (val r2) (st r2) (out r1 ++ out r2).

Declare Scope handler_scope.
Delimit Scope handler_scope with handler.
Notation "x <- c1 ;; c2" := (bind c1 (fun x => c2))
  (at level 61, c1 at next level, right associativity) : handler_scope.
Notation "c1 ;; c2" := (bind c1 (fun _ => c2))
  (at level 61, right associativity) : handler_scope.
Local Open Scope handler_scope.

Definition gets {A : Type} (f : State -> A) : M A := fun s => mkRes (f s) s [].

Definition modify (f : State -> State) : M unit := fun s => mkRes tt (f s) [].

Definition tell (e : Effect) : M unit := fun s => mkRes tt s [e].

Definition when (b : bool) (body : M unit) : M unit :=
  if b then body else ret tt.

(** [Array.prototype.forEach] / [for ... of]. *)
Fixpoint forEach {A : Type} (l : list A) (body : A -> M unit) : M unit :=
  match l with
  | [] => ret tt
  | x :: rest => body x ;; forEach rest body
  end.

(** Run a handler for its effect on the state and its trace. *)
Definition exec (m : M unit) (s : State) : State := st (m s).
Definition trace (m : M unit) (s : State) : list Effect := out (m s).

(** ** JavaScript values *)

(** [!s] for a string field of a request body: absent or empty. *)
Definition falsy (s : string) : bool := String.eqb s "".

(** [a || b] on strings. *)
Definition orStr (a b : string) : string := if falsy a then b else a.

(** [n || 0] on an optional number. *)
Definition orZero (n : option Z) : Z :=
  match n with Some z => z | None => 0 end.

Definition orZeroQ (q : option Q) : Q :=
  match q with Some x => if Qeq_bool x 0 then 0%Q else x | None => 0%Q end.

(** Template-literal rendering of [Date.now()]. *)
Definition showZ (z : Z) : string := NilZero.string_of_int (Z.to_int z).

Definition isSome {A : Type} (o : option A) : bool :=
  match o with Some _ => true | None => false end.

(** [Math.ceil(d * rate)] *)
Definition ceilCoins (d : Z) (rate : Q) : Z := Qceiling (inject_Z d * rate).

(** [parseFloat(x.toFixed(2))] on a non-negative amount. *)
Definition toFixed2 (x : Q) : Q := Qmake (Qfloor (x * 100 + (1 # 2))) 100.

(** ** Constants *)

Definition COIN_RATES_audio : Q := 1 # 5.
Definition COIN_RATES_video : Q := 1 # 1.
Definition MIN_CALL_DURATION_SECONDS : Z := 120.
Definition MIN_BALANCE_AUDIO : Q :=
  (COIN_RATES_audio * inject_Z MIN_CALL_DURATION_SECONDS)%Q.
Definition MIN_BALANCE_VIDEO : Q :=
  (COIN_RATES_video * inject_Z MIN_CALL_DURATION_SECONDS)%Q.
Definition HEARTBEAT_TIMEOUT_MS : Z := 180000.
Definition MAX_CONCURRENT_CALLS : nat := 1000.

(** [callType === 'video' ? COIN_RATES.video : COIN_RATES.audio] *)
Definition coinRateOf (callType : string) : Q :=
  if String.eqb callType "video" then COIN_RATES_video else COIN_RATES_audio.

(** ** Map wrappers and timer queue *)

Definition statusObj (st : StatusName.t) (cid : option string) (now : Z)
  : UserStatus.t :=
  UserStatus.mk st cid now None.

Definition setUserStatusSync (userId : string) (status : UserStatus.t)
  : M unit :=
  modify (fun s => with_userStatus (JsMap.set userId status (userStatus s)) s).

Definition setConnectedUserSync (userId : string) (userData : Conn.t)
  : M unit :=
  modify (fun s =>
    with_connectedUsers (JsMap.set userId userData (connectedUsers s)) s).

Definition CallStatus_to_string (c : CallStatus.t) : string :=
  match c with
  | CallStatus.initiated => "initiated" | CallStatus.ringing => "ringing"
  | CallStatus.pending_fcm => "pending_fcm" | CallStatus.failed => "failed"
  | CallStatus.accepted => "accepted" | CallStatus.declined => "declined"
  | CallStatus.ended => "ended" | CallStatus.cancelled => "cancelled"
  | CallStatus.timeout => "timeout"
  | CallStatus.disconnected => "disconnected"
  end.

Definition setActiveCallSync (callId : string) (callData : Call.t) : M unit :=
  modify (fun s =>
    with_activeCalls (JsMap.set callId callData (activeCalls s)) s) ;;
  tell (saveCallToFirestore (Call.callId callData)
          (CallStatus_to_string (Call.status callData))).

Definition deleteActiveCallSync (callId : string) : M unit :=
  modify (fun s => with_activeCalls (JsMap.delete callId (activeCalls s)) s).

Definition completeCallSync (callId : string) (updates : CallUpdate) : M unit :=
  deleteActiveCallSync callId ;;
  tell (updateCallInFirestore callId updates).

(** In-place mutation of a call object that [activeCalls] holds. *)
Definition mutateCall (callId : string) (f : Call.t -> Call.t) : M unit :=
  modify (fun s =>
    match JsMap.get callId (activeCalls s) with
    | Some c => with_activeCalls (JsMap.set callId (f c) (activeCalls s)) s
    | None => s
    end).

Definition setTimer (callId : string) (x : Timer.t) : M unit :=
  modify (fun s => with_callTimers (JsMap.set callId x (callTimers s)) s).

Definition deleteTimer (callId : string) : M unit :=
  modify (fun s => with_callTimers (JsMap.delete callId (callTimers s)) s).

(** [setInterval(() => { ... callTimers.get(callId) ... }, 1000)] *)
Definition setInterval (callId : string) : M nat :=
  fun s =>
    mkRes (nextInterval s)
      (with_intervals (intervals s ++ [(nextInterval s, callId)])
         (S (nextInterval s)) s)
      [].

Definition clearInterval (h : nat) : M unit :=
  modify (fun s =>
    with_intervals
      (List.filter (fun e => negb (Nat.eqb (fst e) h)) (intervals s))
      (nextInterval s) s).

(** The body shared by the three interval callbacks:
    [const timer = callTimers.get(callId); if (timer) timer.durationSeconds++]. *)
Definition onInterval (callId : string) : M unit :=
  timer <- gets (fun s => JsMap.get callId (callTimers s)) ;;
  match timer with
  | Some x =>
      setTimer callId
        (Timer.with_durationSeconds (Timer.durationSeconds x + 1) x)
  | None => ret tt
  end.

(** One firing of the interval with handle [h], if it is still live. *)
Definition tick (h : nat) : M unit :=
  live <- gets (fun s =>
    List.find (fun e => Nat.eqb (fst e) h) (intervals s)) ;;
  match live with
  | Some (_, callId) => onInterval callId
  | None => ret tt
  end.

(** One elapsed second: every live interval fires once. *)
Definition second : M unit :=
  live <- gets intervals ;;
  forEach live (fun e => onInterval (snd e)).

(** ** Scalability module: ledger and call lock *)

(** [data[balanceField] || 0] with
    [balanceField = data.coinBalance !== undefined ? 'coinBalance' : 'coins']. *)
Definition currentBalance (d : UserDoc.t) : Z :=
  match UserDoc.coinBalance d with
  | Some b => b
  | None => orZero (UserDoc.coins d)
  end.

Definition setBalance (b : Z) (d : UserDoc.t) : UserDoc.t :=
  match UserDoc.coinBalance d with
  | Some _ =>
      UserDoc.mk (Some b) (UserDoc.coins d) (UserDoc.isAvailable d)
        (UserDoc.fcmToken d)
  | None =>
      UserDoc.mk None (Some b) (UserDoc.isAvailable d) (UserDoc.fcmToken d)
  end.

(** [deductUserCoins(userId, amount, callId)]: the Firestore transaction.
    Returns [success]; a missing user or an insufficient balance leaves
    the ledger as it was. *)
Definition deductUserCoins (userId : string) (amount : Z) (callId : string)
  : M bool :=
  tell (deductRequest userId amount callId) ;;
  doc <- gets (fun s => JsMap.get userId (users s)) ;;
  match doc with
  | None => ret false
  | Some d =>
      if currentBalance d <? amount then ret false
      else
        modify (fun s =>
          with_users
            (JsMap.set userId (setBalance (currentBalance d - amount) d)
               (users s)) s) ;;
        ret true
  end.

(** [getUserBalance(userId)]: [data.coinBalance || data.coins || 0], or
    [null] when the document does not exist. *)
Definition balanceOf (d : UserDoc.t) : Z :=
  match UserDoc.coinBalance d with
  | Some b => if b =? 0 then orZero (UserDoc.coins d) else b
  | None => orZero (UserDoc.coins d)
  end.

Definition getUserBalance (userId : string) : M (option Z) :=
  gets (fun s => option_map balanceOf (JsMap.get userId (users s))).

(** A lock key is visible until its [EX] expiry. *)
Definition liveLock (now : Z) (recipientId : string) (s : State)
  : option Lock.t :=
  match JsMap.get recipientId (callLocks s) with
  | Some l => if now <? Lock.expiresAt l then Some l else None
  | None => None
  end.

(** [acquireCallLock]: [SET call_lock:<recipientId> callerId NX EX ttl]. *)
Definition acquireCallLock (recipientId callerId : string) (ttlSeconds : Z)
  (now : Z) : M bool :=
  cur <- gets (liveLock now recipientId) ;;
  match cur with
  | Some _ => ret false
  | None =>
      modify (fun s =>
        with_callLocks
          (JsMap.set recipientId (Lock.mk callerId (now + ttlSeconds * 1000))
             (callLocks s)) s) ;;
      ret true
  end.


Definition getCallLockHolder (recipientId : string) (now : Z) (s : State)
  : option string :=
  option_map Lock.holder (liveLock now recipientId s).

(** ** HTTP endpoints *)

Definition respond_ (r : Response) : M unit := tell (respond r).

Definition newTimer (interval : nat) (now : Z) (callerId recipientId
  callType : string) (coinRate : Q) (autoStarted : bool) : Timer.t :=
  Timer.mk interval now 0 callerId recipientId callType coinRate now
    autoStarted.

Record StartTrackingReq : Type := mkStartTrackingReq {
  st_call_id : string;
  st_caller_id : string;
  st_recipient_id : string;
  st_call_type : string;
  st_room_name : string
}.

(** [app.post('/api/start_call_tracking')] *)
Definition start_call_tracking (req : StartTrackingReq) (now : Z) : M unit :=
  if falsy (st_call_id req) || falsy (st_caller_id req)
     || falsy (st_recipient_id req) || falsy (st_call_type req)
  then respond_ (http_error 400 "Missing required fields" None)
  else
    let coinRate := coinRateOf (st_call_type req) in
    interval <- setInterval (st_call_id req) ;;
    setTimer (st_call_id req)
      (newTimer interval now (st_caller_id req) (st_recipient_id req)
         (st_call_type req) coinRate false) ;;
    respond_ (start_call_tracking_ok (st_call_id req) coinRate).

Record CompleteCallReq : Type := mkCompleteCallReq {
  cc_call_id : string;
  cc_client_duration_seconds : option Z;
  cc_client_coins_deducted : option Q
}.

(** [app.post('/api/complete_call')], the legacy endpoint. *)
Definition complete_call (req : CompleteCallReq) : M unit :=
  if falsy (cc_call_id req)
  then respond_ (http_error 400 "Missing call_id" None)
  else
    serverTimer <- gets (fun s => JsMap.get (cc_call_id req) (callTimers s)) ;;
    match serverTimer with
    | None =>
        respond_ (complete_call_ok (cc_call_id req)
          (orZero (cc_client_duration_seconds req))
          (orZeroQ (cc_client_coins_deducted req)) "client" None)
    | Some x =>
        clearInterval (Timer.interval x) ;;
        let serverDuration := Timer.durationSeconds x in
        let serverCoinsDeducted :=
          (inject_Z serverDuration * Timer.coinRate x)%Q in
        let durationDiff :=
          Z.abs (serverDuration - orZero (cc_client_duration_seconds req)) in
        let isFraudulent := durationDiff >? 5 in
        deleteTimer (cc_call_id req) ;;
        respond_ (complete_call_ok (cc_call_id req) serverDuration
          (toFixed2 serverCoinsDeducted) "server"
          (Some (mkFraud (cc_client_duration_seconds req) serverDuration
                   durationDiff isFraudulent)))
    end.

(** The recipient check shared by [/api/calls/start] and [initiate_call]:
    [recipientConnection && recipientConnection.isOnline] and the socket
    is still connected. *)
Definition hasLiveSocket (recipientId : string) (s : State) : bool :=
  match JsMap.get recipientId (connectedUsers s) with
  | Some c =>
      Conn.isOnline c
      && List.existsb (String.eqb (Conn.socketId c)) (sockets s)
  | None => false
  end.

Record CallsStartReq : Type := mkCallsStartReq {
  cs_callId : string;
  cs_callerId : string;
  cs_recipientId : string;
  cs_callType : string;
  cs_roomName : string
}.

(** [app.post('/api/calls/start')] *)
Definition calls_start (req : CallsStartReq) (now : Z) : M unit :=
  if falsy (cs_callId req) || falsy (cs_callerId req)
     || falsy (cs_recipientId req) || falsy (cs_callType req)
  then respond_ (http_error 400
         "Missing required fields: callId, callerId, recipientId, callType"
         None)
  else
    recipientStatus <-
      gets (fun s => JsMap.get (cs_recipientId req) (userStatus s)) ;;
    hasConnection <- gets (hasLiveSocket (cs_recipientId req)) ;;
    let actualStatus :=
      if hasConnection then
        match recipientStatus with
        | Some x => UserStatus.status x
        | None => StatusName.available
        end
      else StatusName.unavailable in
    if negb (StatusName.eqb actualStatus StatusName.available)
    then respond_ (http_error 400 "Recipient is not available"
                     (Some actualStatus))
    else
      callerBalance <- getUserBalance (cs_callerId req) ;;
      let requiredBalance :=
        if String.eqb (cs_callType req) "video"
        then MIN_BALANCE_VIDEO else MIN_BALANCE_AUDIO in
      match callerBalance with
      | None => respond_ (http_error 404 "Caller not found" None)
      | Some bal =>
          if negb (Qle_bool requiredBalance (inject_Z bal))
          then respond_ (http_error 400 "Insufficient balance" None)
          else
            let coinRate := coinRateOf (cs_callType req) in
            tell (saveCallToFirestore (cs_callId req) "initiated") ;;
            interval <- setInterval (cs_callId req) ;;
            setTimer (cs_callId req)
              (newTimer interval now (cs_callerId req) (cs_recipientId req)
                 (cs_callType req) coinRate false) ;;
            respond_ (calls_start_ok (cs_callId req) bal coinRate)
      end.

Record CallsCompleteReq : Type := mkCallsCompleteReq {
  cp_callId : string;
  cp_call_id : string;
  cp_callerId : string;
  cp_caller_id : string;
  cp_recipientId : string;
  cp_recipient_id : string;
  cp_endReason : option string;
  cp_client_duration_seconds : option Z;
  cp_client_coins_deducted : option Q
}.

Definition finalCallId (req : CallsCompleteReq) : string :=
  orStr (cp_callId req) (cp_call_id req).

Definition finalCallerId (req : CallsCompleteReq) : string :=
  orStr (cp_callerId req) (cp_caller_id req).

(** [endReason || 'User ended call'] *)
Definition endReasonOr (r : option string) : string :=
  match r with
  | Some x => orStr x "User ended call"
  | None => "User ended call"
  end.

(** The [fraudDetection] object of [/api/calls/complete]. *)
Definition fraudCheck (serverDuration : Z) (client_duration_seconds : option Z)
  : option FraudDetection :=
  match client_duration_seconds with
  | Some c =>
      let durationDiff := Z.abs (serverDuration - c) in
      Some (mkFraud (Some c) serverDuration durationDiff (durationDiff >? 5))
  | None => None
  end.

(** [app.post('/api/calls/complete')] *)
Definition calls_complete (req : CallsCompleteReq) (now : Z) : M unit :=
  if falsy (finalCallId req)
  then respond_ (http_error 400 "Missing required field: callId" None)
  else
    serverTimer <- gets (fun s => JsMap.get (finalCallId req) (callTimers s)) ;;
    match serverTimer with
    | None =>
        match cp_client_duration_seconds req with
        | Some c =>
            tell (updateCallInFirestore (finalCallId req)
              (mkUpdate "completed" (Some c)
                 (Some (orZeroQ (cp_client_coins_deducted req)))
                 (Some (endReasonOr (cp_endReason req)))
                 (Some "client_fallback") None)) ;;
            respond_ (calls_complete_ok (finalCallId req) c
              (orZeroQ (cp_client_coins_deducted req)) None
              "client_fallback" None)
        | None =>
            respond_ (calls_complete_ok (finalCallId req) 0 0%Q None
              "already_completed" None)
        end
    | Some x =>
        clearInterval (Timer.interval x) ;;
        let serverDuration := Timer.durationSeconds x in
        let coinsDeducted := ceilCoins serverDuration (Timer.coinRate x) in
        let fraudDetection :=
          fraudCheck serverDuration (cp_client_duration_seconds req) in
        let payer := orStr (finalCallerId req) (Timer.callerId x) in
        deductUserCoins payer coinsDeducted (finalCallId req) ;;
        newBalance <- getUserBalance payer ;;
        tell (updateCallInFirestore (finalCallId req)
          (mkUpdate "completed" (Some serverDuration)
             (Some (inject_Z coinsDeducted))
             (Some (endReasonOr (cp_endReason req))) (Some "server")
             fraudDetection)) ;;
        deleteTimer (finalCallId req) ;;
        setUserStatusSync (Timer.callerId x)
          (statusObj StatusName.available None now) ;;
        setUserStatusSync (Timer.recipientId x)
          (statusObj StatusName.available None now) ;;
        respond_ (calls_complete_ok (finalCallId req) serverDuration
          (inject_Z coinsDeducted) newBalance "server" fraudDetection)
    end.

(** [app.post('/api/calls/heartbeat')] *)
Definition calls_heartbeat (callId userId callerId : string) (now : Z)
  : M unit :=
  if falsy callId || falsy (orStr userId callerId)
  then respond_ (http_error 400
         "Missing required fields: callId, userId (or callerId)" None)
  else
    serverTimer <- gets (fun s => JsMap.get callId (callTimers s)) ;;
    match serverTimer with
    | None => respond_ (http_error 404 "Call not found" None)
    | Some x =>
        let currentDuration := Timer.durationSeconds x in
        let estimatedCoins := ceilCoins currentDuration (Timer.coinRate x) in
        setTimer callId (Timer.with_lastHeartbeat now x) ;;
        respond_ (calls_heartbeat_ok callId currentDuration estimatedCoins
                    (Timer.coinRate x))
    end.

(** ** Socket.IO handlers *)

(** [io.on('connection')]: the socket enters [io.sockets.sockets]. *)
Definition connection (socketId : string) : M unit :=
  modify (fun s => with_sockets (sockets s ++ [socketId]) s).

Definition dropSocket (socketId : string) : M unit :=
  modify (fun s =>
    with_sockets
      (List.filter (fun x => negb (String.eqb x socketId)) (sockets s)) s).

(** [socket.on('join')] with an object payload.  The old socket of a
    reconnecting user is closed ([oldSocket.disconnect(true)]); its own
    [disconnect] event is a later, separate event. *)
Definition join (userId userType : string) (socketId : string) (now : Z)
  : M unit :=
  if falsy userId then tell (emit socketId (error "User ID is required"))
  else
    existingUser <- gets (fun s => JsMap.get userId (connectedUsers s)) ;;
    match existingUser with
    | Some c =>
        when (negb (String.eqb (Conn.socketId c) socketId))
          (dropSocket (Conn.socketId c))
    | None => ret tt
    end ;;
    setConnectedUserSync userId
      (Conn.mk socketId (orStr userType "unknown") now true) ;;
    currentStatus <- gets (fun s => JsMap.get userId (userStatus s)) ;;
    let reload :=
      match currentStatus with
      | None => true
      | Some x =>
          StatusName.eqb (UserStatus.status x) StatusName.unavailable
          || StatusName.eqb (UserStatus.status x) StatusName.disconnected
      end in
    when reload
      (userDoc <- gets (fun s => JsMap.get userId (users s)) ;;
       let savedPreference :=
         match userDoc with
         | Some d =>
             match UserDoc.isAvailable d with
             | Some false => false
             | _ => true
             end
         | None => true
         end in
       setUserStatusSync userId
         (UserStatus.mk
            (if savedPreference then StatusName.available
             else StatusName.unavailable)
            None now (Some savedPreference))) ;;
    userStatusObj <- gets (fun s => JsMap.get userId (userStatus s)) ;;
    match userStatusObj with
    | Some x => tell (emit socketId (joined userId (UserStatus.status x)))
    | None => ret tt
    end.

Record InitiateData : Type := mkInitiateData {
  i_callerId : string;
  i_recipientId : string;
  i_callType : option string;
  i_callId : string;
  i_roomName : string;
  i_callerName : option string
}.

(** [callType = 'video'] destructuring default. *)
Definition callTypeOf (data : InitiateData) : string :=
  match i_callType data with Some x => x | None => "video" end.

(** The locals of [initiate_call] that survive its first [await]. *)
Record InitiateLocals : Type := mkInitiateLocals {
  l_actualStatus : StatusName.t;
  l_hasConnection : bool
}.

(** The closure of the ring-timeout [setTimeout] callbacks. *)
Record RingTimeout : Type := mkRingTimeout {
  rt_callId : string;
  rt_recipientId : string;
  rt_recipientSocketId : string;
  rt_callerSocket : string
}.

(** [callId || `call_${Date.now()}`] of the two [call_failed] payloads. *)
Definition failedCallId (data : InitiateData) (now : Z) : string :=
  orStr (i_callId data) ("call_" ++ showZ now).

(** [initiate_call] up to and including the explicit busy/ringing check,
    all of it synchronous.  [None]: the handler has returned. *)
Definition initiate_guard (data : InitiateData) (socket : string) (now : Z)
  : M (option InitiateLocals) :=
  if falsy (i_callerId data) || falsy (i_recipientId data)
  then
    tell (emit socket (error "Caller ID and Recipient ID are required")) ;;
    ret None
  else
    recipientStatus <-
      gets (fun s => JsMap.get (i_recipientId data) (userStatus s)) ;;
    hasConnection <- gets (hasLiveSocket (i_recipientId data)) ;;
    when (hasConnection && negb (isSome recipientStatus))
      (setUserStatusSync (i_recipientId data)
         (statusObj StatusName.available None now)) ;;
    let actualStatus :=
      if hasConnection then
        match recipientStatus with
        | Some x => UserStatus.status x
        | None => StatusName.available
        end
      else StatusName.unavailable in
    match recipientStatus with
    | Some x =>
        if StatusName.eqb (UserStatus.status x) StatusName.busy
           || StatusName.eqb (UserStatus.status x) StatusName.ringing
        then
          tell (emit socket
            (call_failed (failedCallId data now)
               (if StatusName.eqb (UserStatus.status x) StatusName.busy
                then "User is busy on another call"
                else "User is receiving another call")
               (Some (UserStatus.status x)) true)) ;;
          ret None
        else ret (Some (mkInitiateLocals actualStatus hasConnection))
    | None => ret (Some (mkInitiateLocals actualStatus hasConnection))
    end.

(** The status [initiate_call] resolves after the Firestore look-up of a
    recipient without a live socket. *)
Definition resolveOffline (recipientId : string) (loc : InitiateLocals)
  (s : State) : StatusName.t :=
  if l_hasConnection loc then l_actualStatus loc
  else
    match JsMap.get recipientId (users s) with
    | Some d =>
        let hasToggleOn :=
          match UserDoc.isAvailable d with Some true => true | _ => false end in
        let hasFcmToken :=
          match UserDoc.fcmToken d with
          | Some tok => negb (falsy tok)
          | None => false
          end in
        if hasToggleOn && hasFcmToken then StatusName.fcm_reachable
        else StatusName.unavailable
    | None => StatusName.unavailable
    end.

Inductive Scheduled : Type :=
| ringTimeout (delayMs : Z) (c : RingTimeout)
| fcmTimeout (delayMs : Z) (c : RingTimeout).

(** The branch of [initiate_call] for a recipient without an online
    [connectedUsers] entry: push notification or failure. *)
Definition initiate_push (finalCallId finalRoomName recipientId socket : string)
  (actualStatus : StatusName.t) (fcmSent : bool) : M (option Scheduled) :=
  if StatusName.eqb actualStatus StatusName.fcm_reachable then
    tell (sendIncomingCallNotification recipientId finalCallId) ;;
    if fcmSent then
      mutateCall finalCallId (fun x =>
        Call.with_recipientOnline false
          (Call.with_status CallStatus.pending_fcm x)) ;;
      tell (emit socket
        (call_initiated finalCallId finalRoomName "ringing_fcm" false)) ;;
      ret (Some (fcmTimeout 60000
             (mkRingTimeout finalCallId recipientId "" socket)))
    else
      mutateCall finalCallId (fun x =>
        Call.with_recipientOnline false
          (Call.with_status CallStatus.failed x)) ;;
      tell (emit socket
        (call_failed finalCallId "Could not reach recipient" None false)) ;;
      ret None
  else
    mutateCall finalCallId (fun x =>
      Call.with_recipientOnline false (Call.with_status CallStatus.failed x)) ;;
    tell (emit socket
      (call_failed finalCallId "Recipient is offline" None false)) ;;
    ret None.

(** The rest of [initiate_call], after the awaited Firestore reads.
    [fcmSent] is the awaited result of [sendIncomingCallNotification] on
    the push-only path.  The value is the timeout the handler arms, if
    any. *)
Definition initiate_resume (data : InitiateData) (socket : string) (now : Z)
  (fcmSent : bool) (loc : InitiateLocals) : M (option Scheduled) :=
  let callerId := i_callerId data in
  let recipientId := i_recipientId data in
  let callType := callTypeOf data in
  actualStatus <- gets (resolveOffline recipientId loc) ;;
  if negb (StatusName.eqb actualStatus StatusName.available)
     && negb (StatusName.eqb actualStatus StatusName.fcm_reachable)
  then
    tell (emit socket
      (call_failed (failedCallId data now)
         ("Recipient is currently " ++ StatusName.to_string actualStatus)
         (Some actualStatus) false)) ;;
    ret None
  else
    let finalCallId :=
      orStr (i_callId data)
        ("call_" ++ callerId ++ "_" ++ recipientId ++ "_" ++ showZ now) in
    let finalRoomName :=
      orStr (i_roomName data)
        (callType ++ "_" ++ callerId ++ "_" ++ recipientId) in
    let call :=
      Call.mk finalCallId finalRoomName callerId recipientId callType
        CallStatus.initiated now [callerId] None None None None in
    setActiveCallSync finalCallId call ;;
    recipient <- gets (fun s => JsMap.get recipientId (connectedUsers s)) ;;
    match recipient with
    | Some c =>
        if Conn.isOnline c then
          setUserStatusSync recipientId
            (statusObj StatusName.ringing (Some finalCallId) now) ;;
          tell (emit (Conn.socketId c)
            (incoming_call finalCallId finalRoomName callerId recipientId
               callType)) ;;
          tell (sendIncomingCallNotification recipientId finalCallId) ;;
          mutateCall finalCallId (fun x =>
            Call.with_recipientOnline true
              (Call.with_status CallStatus.ringing x)) ;;
          tell (emit socket
            (call_initiated finalCallId finalRoomName "ringing" true)) ;;
          ret (Some (ringTimeout 30000
                 (mkRingTimeout finalCallId recipientId (Conn.socketId c)
                    socket)))
        else
          initiate_push finalCallId finalRoomName recipientId socket
            actualStatus fcmSent
    | None =>
        initiate_push finalCallId finalRoomName recipientId socket
          actualStatus fcmSent
    end.

(** [socket.on('initiate_call')], run to completion. *)
Definition initiate_call (data : InitiateData) (socket : string) (now : Z)
  (fcmSent : bool) : M (option Scheduled) :=
  loc <- initiate_guard data socket now ;;
  match loc with
  | Some l => initiate_resume data socket now fcmSent l
  | None => ret None
  end.

(** The 30-second [setTimeout] callback armed on the online path. *)
Definition ring_timeout (c : RingTimeout) (now : Z) : M unit :=
  currentCall <- gets (fun s => JsMap.get (rt_callId c) (activeCalls s)) ;;
  match currentCall with
  | Some x =>
      when (CallStatus.eqb (Call.status x) CallStatus.ringing)
        (setUserStatusSync (rt_recipientId c)
           (statusObj StatusName.available None now) ;;
         tell (emit (rt_recipientSocketId c) (call_timeout (rt_callId c))) ;;
         tell (emit (rt_callerSocket c) (call_timeout (rt_callId c))) ;;
         mutateCall (rt_callId c) (Call.with_status CallStatus.timeout) ;;
         completeCallSync (rt_callId c)
           (mkUpdate "timeout" None None None None None))
  | None => ret tt
  end.

(** The 60-second [setTimeout] callback armed on the push-only path. *)
Definition fcm_timeout (c : RingTimeout) (now : Z) : M unit :=
  currentCall <- gets (fun s => JsMap.get (rt_callId c) (activeCalls s)) ;;
  match currentCall with
  | Some x =>
      when (CallStatus.eqb (Call.status x) CallStatus.pending_fcm
            || CallStatus.eqb (Call.status x) CallStatus.ringing)
        (tell (emit (rt_callerSocket c) (call_timeout (rt_callId c))) ;;
         mutateCall (rt_callId c) (Call.with_status CallStatus.timeout) ;;
         completeCallSync (rt_callId c)
           (mkUpdate "timeout" None None None None None))
  | None => ret tt
  end.

Record CallData : Type := mkCallData {
  d_callId : string;
  d_callerId : string;
  d_recipientId : string
}.

(** The auto-start block of [accept_call]:
    [if (!callTimers.has(callId)) { ... }]. *)
Definition autoStartTimer (callId callerId recipientId : string) (call : Call.t)
  (now : Z) : M unit :=
  exists_ <- gets (fun s => JsMap.has callId (callTimers s)) ;;
  if negb exists_ then
    let coinRate := coinRateOf (Call.callType call) in
    interval <- setInterval callId ;;
    setTimer callId
      (newTimer interval now callerId recipientId (Call.callType call)
         coinRate true) ;;
    tell (saveCallToFirestore callId "active")
  else ret tt.

(** [socket.on('accept_call')] *)
Definition accept_call (data : CallData) (socket : string) (now : Z)
  : M unit :=
  let callId := d_callId data in
  let callerId := d_callerId data in
  let recipientId := d_recipientId data in
  call <- gets (fun s => JsMap.get callId (activeCalls s)) ;;
  match call with
  | None => tell (emit socket (error "Call not found"))
  | Some c =>
      if negb (String.eqb (Call.recipientId c) recipientId)
      then tell (emit socket (error "Unauthorized to accept this call"))
      else
        setUserStatusSync callerId
          (statusObj StatusName.busy (Some callId) now) ;;
        setUserStatusSync recipientId
          (statusObj StatusName.busy (Some callId) now) ;;
        mutateCall callId (Call.accept recipientId now) ;;
        autoStartTimer callId callerId recipientId c now ;;
        caller <- gets (fun s => JsMap.get callerId (connectedUsers s)) ;;
        match caller with
        | Some k =>
            tell (emit (Conn.socketId k)
              (call_accepted callId (Call.roomName c) recipientId))
        | None => ret tt
        end
  end.

(** [socket.on('decline_call')] *)
Definition decline_call (data : CallData) (socket : string) (now : Z)
  : M unit :=
  let callId := d_callId data in
  call <- gets (fun s => JsMap.get callId (activeCalls s)) ;;
  match call with
  | None => tell (emit socket (error "Call not found"))
  | Some c =>
      mutateCall callId (Call.with_status CallStatus.declined) ;;
      setUserStatusSync (d_recipientId data)
        (statusObj StatusName.available None now) ;;
      caller <- gets (fun s => JsMap.get (d_callerId data) (connectedUsers s)) ;;
      match caller with
      | Some k => tell (emit (Conn.socketId k) (call_declined callId))
      | None => ret tt
      end ;;
      completeCallSync callId (mkUpdate "declined" None None None None None)
  end.

(** [socket.on('call_ping')] *)
Definition call_ping (callId userId : string) (socket : string) (now : Z)
  : M unit :=
  when (negb (falsy callId))
    (timer <- gets (fun s => JsMap.get callId (callTimers s)) ;;
     match timer with
     | Some x => setTimer callId (Timer.with_lastHeartbeat now x)
     | None => ret tt
     end) ;;
  tell (emit socket (call_pong callId)).

(** [socket.on('health_ping')] *)
Definition health_ping (userId : string) (socket : string) (now : Z)
  : M unit :=
  timers <- gets callTimers ;;
  forEach timers (fun e =>
    when (String.eqb (Timer.callerId (snd e)) userId
          || String.eqb (Timer.recipientId (snd e)) userId)
      (setTimer (fst e) (Timer.with_lastHeartbeat now (snd e)))) ;;
  tell (emit socket (health_pong userId)).

(** [call.participants.forEach(...)] of [end_call]: reset every
    participant and send [call_ended]. *)
Definition end_call_notify (callId userId : string)
  (participants : list string) (now : Z) : M unit :=
  forEach participants (fun participantId =>
    setUserStatusSync participantId
      (statusObj StatusName.available None now) ;;
    participant <-
      gets (fun s => JsMap.get participantId (connectedUsers s)) ;;
    match participant with
    | Some k => tell (emit (Conn.socketId k) (call_ended callId userId None))
    | None => ret tt
    end).

(** [socket.on('end_call')] *)
Definition end_call (callId userId : string) (socket : string) (now : Z)
  : M unit :=
  call <- gets (fun s => JsMap.get callId (activeCalls s)) ;;
  match call with
  | None => tell (emit socket (error "Call not found"))
  | Some c =>
      mutateCall callId (Call.finish userId now) ;;
      serverTimer <- gets (fun s => JsMap.get callId (callTimers s)) ;;
      match serverTimer with
      | Some x => clearInterval (Timer.interval x)
      | None => ret tt
      end ;;
      end_call_notify callId userId (Call.participants c) now ;;
      completeCallSync callId (mkUpdate "ended" None None None None None)
  end.

Record CancelData : Type := mkCancelData {
  x_callId : string;
  x_callerId : string;
  x_recipientId : string;
  x_userId : string;
  x_reason : string
}.

(** [socket.on('cancel_call')] *)
Definition cancel_call (data : CancelData) (now : Z) : M unit :=
  let callId := x_callId data in
  let notifyRecipient : M unit :=
    recipient <-
      gets (fun s => JsMap.get (x_recipientId data) (connectedUsers s)) ;;
    match recipient with
    | Some k =>
        tell (emit (Conn.socketId k)
          (call_cancelled callId (x_userId data)
             (orStr (x_reason data) "caller_cancelled"))) ;;
        tell (emit (Conn.socketId k)
          (call_ended callId (x_userId data) (Some "cancelled")))
    | None => ret tt
    end in
  call <- gets (fun s => JsMap.get callId (activeCalls s)) ;;
  match call with
  | Some c =>
      mutateCall callId (Call.with_status CallStatus.cancelled) ;;
      setUserStatusSync (x_recipientId data)
        (statusObj StatusName.available None now) ;;
      notifyRecipient ;;
      completeCallSync callId (mkUpdate "cancelled" None None None None None)
  | None =>
      tell (updateCallInFirestore callId
        (mkUpdate "cancelled" None None None None None)) ;;
      notifyRecipient
  end.

(** [serverTimer.coinRate || COIN_RATES.audio] *)
Definition coinRateOr (r : Q) : Q :=
  if Qeq_bool r 0 then COIN_RATES_audio else r.

(** The billing block of the [disconnect] handler (ISSUE #15 FIX), for a
    call that has a server timer.  The deduction is started without being
    awaited; the model applies it at once. *)
Definition disconnect_bill (userId callId : string) (call : Call.t)
  (x : Timer.t) : M unit :=
  clearInterval (Timer.interval x) ;;
  let durationSeconds := Timer.durationSeconds x in
  let coinRate := coinRateOr (Timer.coinRate x) in
  let coinsDeducted := ceilCoins durationSeconds coinRate in
  when (negb (falsy (Call.callerId call)) && (coinsDeducted >? 0))
    (deductUserCoins (Call.callerId call) coinsDeducted callId ;; ret tt) ;;
  completeCallSync callId
    (mkUpdate "disconnected" (Some durationSeconds)
       (Some (inject_Z coinsDeducted)) (Some "connection_lost") None None) ;;
  deleteTimer callId.

(** [call.participants.forEach(...)] of the [disconnect] handler: tell the
    others and reset their status. *)
Definition disconnect_notify (userId callId : string)
  (participants : list string) (now : Z) : M unit :=
  forEach participants (fun participantId =>
    when (negb (String.eqb participantId userId))
      (participant <-
         gets (fun s => JsMap.get participantId (connectedUsers s)) ;;
       match participant with
       | Some k =>
           when (Conn.isOnline k)
             (tell (emit (Conn.socketId k)
                (participant_disconnected callId userId
                   "User connection lost")))
       | None => ret tt
       end ;;
       setUserStatusSync participantId
         (statusObj StatusName.available None now))).

(** The mid-call branch of the [disconnect] handler. *)
Definition disconnect_call (userId callId : string) (call : Call.t) (now : Z)
  : M unit :=
  disconnect_notify userId callId (Call.participants call) now ;;
  serverTimer <- gets (fun s => JsMap.get callId (callTimers s)) ;;
  match serverTimer with
  | Some x => disconnect_bill userId callId call x
  | None =>
      mutateCall callId (Call.with_status CallStatus.disconnected) ;;
      completeCallSync callId
        (mkUpdate "disconnected" (Some 0) (Some 0%Q)
           (Some "connection_lost_before_connect") None None)
  end.

(** What the [disconnect] handler does for the user it finds. *)
Definition disconnect_user (userId : string) (user : Conn.t) (now : Z)
  : M unit :=
  modify (fun s =>
    with_connectedUsers
      (JsMap.set userId
         (Conn.mk (Conn.socketId user) (Conn.userType user)
            (Conn.connectedAt user) false)
         (connectedUsers s)) s) ;;
  currentStatus <- gets (fun s => JsMap.get userId (userStatus s)) ;;
  match currentStatus with
  | Some x =>
      match UserStatus.currentCallId x with
      | Some callId =>
          when (negb (falsy callId))
            (call <- gets (fun s => JsMap.get callId (activeCalls s)) ;;
             match call with
             | Some c => disconnect_call userId callId c now
             | None => ret tt
             end)
      | None => ret tt
      end
  | None => ret tt
  end ;;
  setUserStatusSync userId (statusObj StatusName.disconnected None now) ;;
  when (String.eqb (orStr (Conn.userType user) "unknown") "female")
    (tell (broadcast (user_disconnected userId)) ;;
     tell (broadcast (user_status_changed userId))).

(** [socket.on('disconnect')]: the socket has left [io.sockets.sockets];
    the handler serves the first [connectedUsers] entry that carries its
    id.  The 15-second [startDisconnectTimeout], which only rewrites
    Firestore presence flags, is not modelled. *)
Definition disconnect (socket : string) (now : Z) : M unit :=
  dropSocket socket ;;
  found <- gets (fun s =>
    List.find (fun e => String.eqb (Conn.socketId (snd e)) socket)
      (JsMap.entries (connectedUsers s))) ;;
  match found with
  | Some (userId, user) => disconnect_user userId user now
  | None => ret tt
  end.

(** One entry of the heartbeat monitor's loop. *)
Definition heartbeat_entry (now : Z) (e : string * Timer.t) : M unit :=
  let callId := fst e in
  let timer := snd e in
  if Timer.lastHeartbeat timer =? 0 then
    setTimer callId (Timer.with_lastHeartbeat now timer)
  else if now - Timer.lastHeartbeat timer >? HEARTBEAT_TIMEOUT_MS then
    clearInterval (Timer.interval timer) ;;
    let finalDuration := Timer.durationSeconds timer in
    let coinsToDeduct := ceilCoins finalDuration (Timer.coinRate timer) in
    deductUserCoins (Timer.callerId timer) coinsToDeduct callId ;;
    tell (updateCallInFirestore callId
      (mkUpdate "timeout_heartbeat" (Some finalDuration)
         (Some (inject_Z coinsToDeduct))
         (Some "No heartbeat received - connection lost") None None)) ;;
    deleteTimer callId ;;
    setUserStatusSync (Timer.callerId timer)
      (statusObj StatusName.available None now) ;;
    setUserStatusSync (Timer.recipientId timer)
      (statusObj StatusName.available None now) ;;
    callerConn <-
      gets (fun s => JsMap.get (Timer.callerId timer) (connectedUsers s)) ;;
    recipientConn <-
      gets (fun s => JsMap.get (Timer.recipientId timer) (connectedUsers s)) ;;
    match callerConn with
    | Some k =>
        tell (emit (Conn.socketId k)
          (call_ended callId "server"
             (Some "Connection timeout - no heartbeat")))
    | None => ret tt
    end ;;
    match recipientConn with
    | Some k =>
        tell (emit (Conn.socketId k)
          (call_ended callId "server"
             (Some "Connection timeout - no heartbeat")))
    | None => ret tt
    end ;;
    deleteActiveCallSync callId
  else ret tt.

(** The heartbeat monitor ([setInterval], every 60 s): the staleness
    sweep over a snapshot of [callTimers]. *)
Definition heartbeat_monitor (now : Z) : M unit :=
  callEntries <- gets (fun s => JsMap.entries (callTimers s)) ;;
  forEach callEntries (heartbeat_entry now).

(** Stable insertion sort by [startTime], as [Array.prototype.sort] with
    [(a, b) => a[1].startTime - b[1].startTime]. *)
Fixpoint insertByStart (e : string * Timer.t) (l : list (string * Timer.t))
  : list (string * Timer.t) :=
  match l with
  | [] => [e]
  | h :: rest =>
      if Timer.startTime (snd e) <=? Timer.startTime (snd h)
      then e :: h :: rest
      else h :: insertByStart e rest
  end.

Definition sortByStart (l : list (string * Timer.t))
  : list (string * Timer.t) :=
  List.fold_right insertByStart [] l.

(** The memory-protection sweep ([setInterval], every 60 s). *)
Definition memory_protection : M unit :=
  timers <- gets callTimers ;;
  when (Nat.ltb MAX_CONCURRENT_CALLS (JsMap.size timers))
    (let sortedTimers := sortByStart (JsMap.entries timers) in
     let toRemove :=
       List.firstn (JsMap.size timers - MAX_CONCURRENT_CALLS) sortedTimers in
     forEach toRemove (fun e =>
       clearInterval (Timer.interval (snd e)) ;;
       deleteTimer (fst e))).

(** ** Events of the server *)

Inductive Event : Type :=
| ev_connection (socket : string)
| ev_join (userId userType socket : string) (now : Z)
| ev_start_call_tracking (req : StartTrackingReq) (now : Z)
| ev_complete_call (req : CompleteCallReq)
| ev_calls_start (req : CallsStartReq) (now : Z)
| ev_calls_complete (req : CallsCompleteReq) (now : Z)
| ev_calls_heartbeat (callId userId callerId : string) (now : Z)
| ev_initiate_call (data : InitiateData) (socket : string) (now : Z)
    (fcmSent : bool)
| ev_ring_timeout (c : RingTimeout) (now : Z)
| ev_fcm_timeout (c : RingTimeout) (now : Z)
| ev_accept_call (data : CallData) (socket : string) (now : Z)
| ev_decline_call (data : CallData) (socket : string) (now : Z)
| ev_call_ping (callId userId socket : string) (now : Z)
| ev_health_ping (userId socket : string) (now : Z)
| ev_end_call (callId userId socket : string) (now : Z)
| ev_cancel_call (data : CancelData) (now : Z)
| ev_disconnect (socket : string) (now : Z)
| ev_heartbeat_monitor (now : Z)
| ev_memory_protection
| ev_tick (h : nat)
| ev_second.

Definition handle (e : Event) : M unit :=
  match e with
  | ev_connection socket => connection socket
  | ev_join userId userType socket now => join userId userType socket now
  | ev_start_call_tracking req now => start_call_tracking req now
  | ev_complete_call req => complete_call req
  | ev_calls_start req now => calls_start req now
  | ev_calls_complete req now => calls_complete req now
  | ev_calls_heartbeat callId userId callerId now =>
      calls_heartbeat callId userId callerId now
  | ev_initiate_call data socket now fcmSent =>
      initiate_call data socket now fcmSent ;; ret tt
  | ev_ring_timeout c now => ring_timeout c now
  | ev_fcm_timeout c now => fcm_timeout c now
  | ev_accept_call data socket now => accept_call data socket now
  | ev_decline_call data socket now => decline_call data socket now
  | ev_call_ping callId userId socket now => call_ping callId userId socket now
  | ev_health_ping userId socket now => health_ping userId socket now
  | ev_end_call callId userId socket now => end_call callId userId socket now
  | ev_cancel_call data now => cancel_call data now
  | ev_disconnect socket now => disconnect socket now
  | ev_heartbeat_monitor now => heartbeat_monitor now
  | ev_memory_protection => memory_protection
  | ev_tick h => tick h
  | ev_second => second
  end.

(** A run of the server: events handled one after another. *)
Definition run (es : list Event) : M unit := forEach es handle.

(** ** Scenario: caller C, recipient R, an accepted audio call *)

Definition sock_C : string := "sC".
Definition sock_R : string := "sR".

Definition doc0 (balance : Z) : UserDoc.t :=
  UserDoc.mk (Some balance) None (Some true) None.

(** Both users connected and joined; C holds 200 coins. *)
Definition lobby : State :=
  exec (run [ev_connection sock_C; ev_join "C" "male" sock_C 1000;
             ev_connection sock_R; ev_join "R" "female" sock_R 1000])
    (with_users [("C", doc0 200); ("R", doc0 0)] initialState).

Definition audioCall : InitiateData :=
  mkInitiateData "C" "R" (Some "audio") "X" "" (Some "Caller").

(** C rings R, R accepts. *)
Definition inCall : State :=
  exec (run [ev_initiate_call audioCall sock_C 2000 true;
             ev_accept_call (mkCallData "X" "C" "R") sock_R 3000]) lobby.

Definition seconds (n : nat) : list Event := List.repeat ev_second n.

Definition disconnectUpdate (d coins : Z) : CallUpdate :=
  mkUpdate "disconnected" (Some d) (Some (inject_Z coins))
    (Some "connection_lost") None None.

Definition after37 : State := exec (run (seconds 37)) inCall.

Definition timer37 : Timer.t :=
  Timer.mk 0 3000 37 "C" "R" "audio" COIN_RATES_audio 3000 true.

Definition trackReq : StartTrackingReq :=
  mkStartTrackingReq "X" "C" "R" "audio" "room".

Definition startReq : CallsStartReq :=
  mkCallsStartReq "X" "C" "R" "audio" "room".

(** [/api/start_call_tracking], three seconds, [/api/start_call_tracking]
    again for the same call. *)
Definition trackedTwice : State :=
  exec (run ([ev_start_call_tracking trackReq 1000] ++ seconds 3
             ++ [ev_start_call_tracking trackReq 4000])%list) initialState.

(** The same with [/api/calls/start], from the lobby. *)
Definition startedTwice : State :=
  exec (run ([ev_calls_start startReq 1000] ++ seconds 3
             ++ [ev_calls_start startReq 4000])%list) lobby.

Definition completeX : CallsCompleteReq :=
  mkCallsCompleteReq "X" "" "C" "" "R" "" None None None.

(** The status [initiate_call] resolves for a recipient, as a function of
    the state: the cached status when it is busy or ringing (the explicit
    first check), otherwise the cached status of a recipient with a live
    socket ([available] when nothing is cached), otherwise
    [fcm_reachable] or [unavailable] from the Firestore document. *)
Definition resolvedStatus (recipientId : string) (s : State) : StatusName.t :=
  let hasConnection := hasLiveSocket recipientId s in
  match JsMap.get recipientId (userStatus s) with
  | Some x =>
      if StatusName.eqb (UserStatus.status x) StatusName.busy
         || StatusName.eqb (UserStatus.status x) StatusName.ringing
      then UserStatus.status x
      else
        resolveOffline recipientId
          (mkInitiateLocals
             (if hasConnection then UserStatus.status x
              else StatusName.unavailable)
             hasConnection) s
  | None =>
      resolveOffline recipientId
        (mkInitiateLocals
           (if hasConnection then StatusName.available
            else StatusName.unavailable)
           hasConnection) s
  end.

(** The [reason] text and [is_busy] flag of the [call_failed] payload. *)
Definition rejectionReason (rs : StatusName.t) : string :=
  if StatusName.eqb rs StatusName.busy then "User is busy on another call"
  else if StatusName.eqb rs StatusName.ringing
       then "User is receiving another call"
       else "Recipient is currently " ++ StatusName.to_string rs.

Definition rejectionIsBusy (rs : StatusName.t) : bool :=
  StatusName.eqb rs StatusName.busy || StatusName.eqb rs StatusName.ringing.

(** The spec's scenario: R is busy in call X when a second caller D
    initiates. *)
Definition sock_D : string := "sD".

Definition busyR : State :=
  exec (run [ev_connection sock_D; ev_join "D" "male" sock_D 3500]) inCall.

Definition callFromD : InitiateData :=
  mkInitiateData "D" "R" (Some "audio") "Y" "" (Some "Dee").

(** A computation preserves an observation [f] of the state. *)
Definition preserves {X A : Type} (f : State -> X) (m : M A) : Prop :=
  forall s, f (st (m s)) = f s.

(** Every effect a computation emits satisfies [P]. *)
Definition emits {A : Type} (P : Effect -> Prop) (m : M A) : Prop :=
  forall s e, In e (out (m s)) -> P e.

(** [initiate_call] awaits a Firestore read between its busy/ringing check
    and the rest of the handler when the payload carries no usable caller
    name or the recipient has no live socket. *)
Definition awaitsLookup (data : InitiateData) (loc : InitiateLocals) : bool :=
  match i_callerName data with
  | None => true
  | Some n =>
      falsy n || String.eqb n "Unknown" || String.eqb n (i_callerId data)
  end
  || negb (l_hasConnection loc).

(** Two [initiate_call] events, B arriving while A is suspended at that
    [await]: A's check, B's check, then the two remainders. *)
Definition initiate_overlapped (dA : InitiateData) (sockA : string) (nowA : Z)
  (dB : InitiateData) (sockB : string) (nowB : Z)
  : M (option Scheduled * option Scheduled) :=
  la <- initiate_guard dA sockA nowA ;;
  match la with
  | Some l =>
      if awaitsLookup dA l then
        lb <- initiate_guard dB sockB nowB ;;
        ra <- initiate_resume dA sockA nowA true l ;;
        rb <- match lb with
              | Some l' => initiate_resume dB sockB nowB true l'
              | None => ret None
              end ;;
        ret (ra, rb)
      else
        ra <- initiate_resume dA sockA nowA true l ;;
        rb <- initiate_call dB sockB nowB true ;;
        ret (ra, rb)
  | None =>
      rb <- initiate_call dB sockB nowB true ;;
      ret (None, rb)
  end.

(** C, D and R all connected and available. *)
Definition lobby3 : State :=
  exec (run [ev_connection sock_D; ev_join "D" "male" sock_D 1500]) lobby.

Definition callA : InitiateData :=
  mkInitiateData "C" "R" (Some "audio") "XA" "" None.

Definition callB : InitiateData :=
  mkInitiateData "D" "R" (Some "audio") "XB" "" None.

(** The same request with another client-reported duration. *)
Definition withClientDuration (c : option Z) (req : CallsCompleteReq)
  : CallsCompleteReq :=
  mkCallsCompleteReq (cp_callId req) (cp_call_id req) (cp_callerId req)
    (cp_caller_id req) (cp_recipientId req) (cp_recipient_id req)
    (cp_endReason req) c (cp_client_coins_deducted req).

(** Call X was measured at 37 s and completed once; the completion is
    then repeated with a client claiming 100 s and 20 coins. *)
Definition completedOnce : State :=
  exec (calls_complete completeX 50000) after37.

Definition clientClaim : CallsCompleteReq :=
  mkCallsCompleteReq "X" "" "C" "" "R" "" None (Some 100) (Some (20 # 1)).








(** The state in which the [disconnect] handler treats the user it found:
    the socket is gone and the user's entry is marked offline. *)
Definition afterDrop (socket userId : string) (user : Conn.t) (s : State)
  : State :=
  with_connectedUsers
    (JsMap.set userId
       (Conn.mk (Conn.socketId user) (Conn.userType user)
          (Conn.connectedAt user) false)
       (connectedUsers s))
    (with_sockets
       (List.filter (fun x => negb (String.eqb x socket)) (sockets s)) s).

(** What follows the call clean-up in the [disconnect] handler. *)
Definition disconnect_tail (userId : string) (user : Conn.t) (now : Z)
  : M unit :=
  setUserStatusSync userId (statusObj StatusName.disconnected None now) ;;
  when (String.eqb (orStr (Conn.userType user) "unknown") "female")
    (tell (broadcast (user_disconnected userId)) ;;
     tell (broadcast (user_status_changed userId))).

(** Forty seconds into the audio call between C and R. *)
Definition after40 : State := exec (run (seconds 40)) inCall.

(** An effect that is not a ledger request. *)
Definition noDeduct (e : Effect) : Prop :=
  match e with deductRequest _ _ _ => False | _ => True end.

(** A ledger request, if any, is for call [callId]. *)
Definition deductsOnlyFor (callId : string) (e : Effect) : Prop :=
  match e with deductRequest _ _ k => k = callId | _ => True end.

(** The state in which [end_call] runs its participant loop: the call
    object is marked ended and the timer's interval, if any, is cleared. *)
Definition endedState (callId userId : string) (now : Z) (c : Call.t)
  (s : State) : State :=
  let s1 :=
    with_activeCalls
      (JsMap.set callId (Call.finish userId now c) (activeCalls s)) s in
  match JsMap.get callId (callTimers s) with
  | Some x =>
      with_intervals
        (List.filter (fun e => negb (Nat.eqb (fst e) (Timer.interval x)))
           (intervals s))
        (nextInterval s) s1
  | None => s1
  end.

(** Ten seconds into the call between C and R. *)
Definition after10 : State := exec (run (seconds 10)) inCall.

(** A computation maintains a property of the state. *)
Definition invariant {A : Type} (P : State -> Prop) (m : M A) : Prop :=
  forall s, P s -> P (st (m s)).


(** The staleness test of the heartbeat monitor. *)
Definition isStale (now : Z) (x : Timer.t) : bool :=
  negb (Timer.lastHeartbeat x =? 0)
  && (now - Timer.lastHeartbeat x >? HEARTBEAT_TIMEOUT_MS).


(** [callTimers] is a [Map]: no key occurs twice. *)
Definition wfTimers (s : State) : Prop := NoDup (JsMap.keys (callTimers s)).

(** [d * rate] as JavaScript computes it, in IEEE binary64. *)
Definition doubleProduct (d : Z) (rate : float) : float :=
  PrimFloat.mul (PrimFloat.of_uint63 (Uint63.of_Z d)) rate.

(** The double written [0.2] in [COIN_RATES]. *)
Definition double_audio : float := 0x1.999999999999ap-3%float.

(** The double written [1.0] in [COIN_RATES]. *)
Definition double_video : float := 1%float.

(** [c] is the ceiling of the double [x]: [c - 1 < x <= c]. *)
Definition isCeilingOf (c : Z) (x : float) : bool :=
  PrimFloat.ltb (PrimFloat.of_uint63 (Uint63.of_Z c) - 1)%float x
  && PrimFloat.leb x (PrimFloat.of_uint63 (Uint63.of_Z c)).

(** [Math.ceil] of the double product is the ceiling of the rational
    product, for the [n] durations from [d] on. *)
Fixpoint ceilingsAgree (rate : float) (r : Q) (n : nat) (d : Z) : bool :=
  match n with
  | O => true
  | S n' =>
      isCeilingOf (ceilCoins d r) (doubleProduct d rate)
      && ceilingsAgree rate r n' (d + 1)
  end.

(** ** Further HTTP endpoints *)

(** The endpoints below answer with a status code and an error string, or
    with a JSON body of their own. *)
Inductive Reply (A : Type) : Type :=
| reply_error (code : Z) (error : string)
| reply_ok (body : A).
Arguments reply_error {A} _ _.
Arguments reply_ok {A} _.

Record ValidateBalanceReq : Type := mkValidateBalanceReq {
  vb_user_id : string;
  vb_call_type : string;
  vb_current_balance : option Q
}.

Record BalanceValidation : Type := mkBalanceValidation {
  bv_success : bool;
  bv_has_sufficient_balance : bool;
  bv_current_balance : Q;
  bv_required_balance : Q;
  bv_coin_rate_per_second : Q;
  bv_minimum_duration_seconds : Z;
  bv_call_type : string;
  bv_message : string
}.

(** Template-literal rendering of an integral amount of coins. *)
Definition showCoins (q : Q) : string := showZ (Qfloor q).

(** [app.post('/api/validate_balance')] *)
Definition validate_balance (req : ValidateBalanceReq)
  : Reply BalanceValidation :=
  match vb_current_balance req with
  | None =>
      reply_error 400
        "Missing required fields: user_id, call_type, current_balance"
  | Some current_balance =>
      if falsy (vb_user_id req) || falsy (vb_call_type req)
      then reply_error 400
             "Missing required fields: user_id, call_type, current_balance"
      else
        let isVideo := String.eqb (vb_call_type req) "video" in
        let requiredBalance :=
          if isVideo then MIN_BALANCE_VIDEO else MIN_BALANCE_AUDIO in
        let coinRate :=
          if isVideo then COIN_RATES_video else COIN_RATES_audio in
        let hasEnoughBalance := Qle_bool requiredBalance current_balance in
        reply_ok
          (mkBalanceValidation hasEnoughBalance hasEnoughBalance
             current_balance requiredBalance coinRate
             MIN_CALL_DURATION_SECONDS (vb_call_type req)
             (if hasEnoughBalance then "Sufficient balance for call"
              else "Insufficient balance. Need at least "
                   ++ showCoins requiredBalance ++ " coins for "
                   ++ showZ (MIN_CALL_DURATION_SECONDS / 60) ++ " minutes"))
  end.

(** [health_ping]'s update of one timer entry. *)
Definition pinged (userId : string) (now : Z) (e : string * Timer.t)
  : string * Timer.t :=
  if String.eqb (Timer.callerId (snd e)) userId
     || String.eqb (Timer.recipientId (snd e)) userId
  then (fst e, Timer.with_lastHeartbeat now (snd e))
  else e.

(** [process.on('SIGTERM')] and [process.on('SIGINT')], up to
    [server.close]: every stored timer's interval is cleared. *)
Definition shutdown : M unit :=
  timers <- gets callTimers ;;
  forEach timers (fun e => clearInterval (Timer.interval (snd e))).


(** The state [s] with the status of [userId] reset to available at
    [now] and nothing else changed. *)
Definition madeAvailable (userId : string) (now : Z) (s : State) : State :=
  with_userStatus
    (JsMap.set userId (statusObj StatusName.available None now)
       (userStatus s)) s.

(** [userData.isAvailable !== false] on the Firestore document of
    [userId], [true] when there is no document. *)
Definition savedPreference (userId : string) (s : State) : bool :=
  match JsMap.get userId (users s) with
  | Some d =>
      match UserDoc.isAvailable d with
      | Some false => false
      | _ => true
      end
  | None => true
  end.

(** ** Authentication middleware ([src/middleware/auth.js]) *)

(** An argument of [safeCompare]: a string, or a value of another type. *)
Inductive JsValue : Type :=
| js_string (s : string)
| js_other.

(** [s.charCodeAt(i)] of a code unit. *)
Definition charCode (c : ascii) : Z := Z.of_N (N_of_ascii c).

(** The loop of [safeCompare]:
    [result |= a.charCodeAt(i) ^ b.charCodeAt(i)] for every index of [a]. *)
Fixpoint safeCompare_loop (a b : string) (result : Z) : Z :=
  match a, b with
  | String x a', String y b' =>
      safeCompare_loop a' b' (Z.lor result (Z.lxor (charCode x) (charCode y)))
  | _, _ => result
  end.

(** [safeCompare(a, b)] *)
Definition safeCompare (a b : JsValue) : bool :=
  match a, b with
  | js_string a, js_string b =>
      if negb (Nat.eqb (String.length a) (String.length b)) then false
      else safeCompare_loop a b 0 =? 0
  | _, _ => false
  end.

(** What a middleware does with a request: hand it on, or answer it. *)
Inductive Middleware : Type :=
| next
| refuse (code : Z) (error message : string).

(** [requireDiagnosticAuth(req, res, next)]: [apiKey] is the
    [x-api-key] header, [expectedKey] is
    [process.env.DIAGNOSTIC_API_KEY || '']. *)
Definition requireDiagnosticAuth (isProduction : bool) (expectedKey : string)
  (apiKey : option string) : Middleware :=
  if negb isProduction && falsy expectedKey then next
  else if falsy expectedKey
  then refuse 503 "Service unavailable"
         "Diagnostic endpoints are not configured"
  else
    match apiKey with
    | None => refuse 401 "Unauthorized" "X-API-Key header is required"
    | Some k =>
        if falsy k
        then refuse 401 "Unauthorized" "X-API-Key header is required"
        else if negb (safeCompare (js_string k) (js_string expectedKey))
        then refuse 403 "Forbidden" "Invalid API key"
        else next
    end.

(** ** Configuration ([src/config/index.js]) *)








(** [c.toLowerCase()] of an 8-bit code unit: A-Z and the Latin-1 capitals. *)
Definition toLowerCaseChar (c : ascii) : ascii :=
  let n := charCode c in
  if (65 <=? n) && (n <=? 90)
     || (192 <=? n) && (n <=? 222) && negb (n =? 215)
  then ascii_of_N (Z.to_N (n + 32))
  else c.

Fixpoint toLowerCase (s : string) : string :=
  match s with
  | String c rest => String (toLowerCaseChar c) (toLowerCase rest)
  | EmptyString => EmptyString
  end.

(** [parseBoolEnv(key, defaultValue)] *)
Definition parseBoolEnv (env : string -> option string) (key : string)
  (defaultValue : bool) : bool :=
  match env key with
  | None => defaultValue
  | Some value =>
      if falsy value then defaultValue
      else String.eqb (toLowerCase value) "true"
  end.

(** ** Numbers and booleans read from the environment *)


(** [v] spells [true] in some mix of upper and lower case. *)
Definition spellsTrue (v : string) : Prop :=
  exists a b c e,
    v = String a (String b (String c (String e "")))
    /\ (a = "t" \/ a = "T")%char /\ (b = "r" \/ b = "R")%char
    /\ (c = "u" \/ c = "U")%char /\ (e = "e" \/ e = "E")%char.

(** ** [/api/check_call_status] *)

(** The [call_data] of the answer ([callerName] and the timestamps are
    left out, as in [Call.t]). *)
Record CallDataView : Type := mkCallDataView {
  cv_callId : string;
  cv_callerId : string;
  cv_recipientId : string;
  cv_callType : string;
  cv_roomName : string
}.

(** A document of the Firestore [calls] collection, as the endpoint
    reads it; [cd_status] is [None] when the field is absent. *)
Record CallDoc : Type := mkCallDoc {
  cd_status : option string;
  cd_data : CallDataView
}.

Record CallStatusBody : Type := mkCallStatusBody {
  cs_call_active : bool;
  cs_call_status : string;
  cs_is_ringing : bool;
  cs_is_connected : bool;
  cs_is_ended : bool;
  cs_ended_reason : option string;
  cs_call_data : option CallDataView;
  cs_message : string
}.

(** [['ended', 'declined', 'missed', 'cancelled', 'timeout', 'no_answer']] *)
Definition endedStatuses : list string :=
  ["ended"; "declined"; "missed"; "cancelled"; "timeout"; "no_answer"].

(** [app.post('/api/check_call_status')].  [callDoc] is the awaited
    Firestore read of [calls/<call_id>]: [None] when the document does
    not exist or Firestore is not initialised. *)
Definition check_call_status (call_id : string) (callDoc : option CallDoc)
  (s : State) : Reply CallStatusBody :=
  if falsy call_id then reply_error 400 "Missing call_id"
  else
    match JsMap.get call_id (activeCalls s) with
    | Some activeCall =>
        let callStatus :=
          orStr (CallStatus_to_string (Call.status activeCall)) "unknown" in
        let isRinging :=
          String.eqb callStatus "ringing"
          || String.eqb callStatus "initiated" in
        let isConnected :=
          String.eqb callStatus "connected"
          || String.eqb callStatus "answered" in
        let isEnded := List.existsb (String.eqb callStatus) endedStatuses in
        let isActive :=
          negb isEnded
          && (isRinging || isConnected || String.eqb callStatus "unknown") in
        reply_ok
          (mkCallStatusBody isActive callStatus isRinging isConnected isEnded
             (if isEnded then Some callStatus else None)
             (Some (mkCallDataView (Call.callId activeCall)
                      (Call.callerId activeCall) (Call.recipientId activeCall)
                      (Call.callType activeCall) (Call.roomName activeCall)))
             (if isEnded then "Call has ended (" ++ callStatus ++ ")"
              else "Call is " ++ callStatus))
    | None =>
        match callDoc with
        | Some callData =>
            let callStatus :=
              match cd_status callData with
              | Some x => orStr x "unknown"
              | None => "unknown"
              end in
            let isEnded :=
              List.existsb (String.eqb callStatus) endedStatuses in
            reply_ok
              (mkCallStatusBody (negb isEnded) callStatus false false isEnded
                 (if isEnded then Some callStatus else None)
                 (Some (cd_data callData))
                 (if isEnded then "Call has ended (" ++ callStatus ++ ")"
                  else "Call status: " ++ callStatus))
        | None =>
            reply_ok
              (mkCallStatusBody false "not_found" false false true
                 (Some "not_found") None
                 "Call not found - may have ended or never existed")
        end
    end.

(** ** [/api/generate_token] *)

(** The character class [[a-zA-Z0-9_]]. *)
Definition isRoomChar (c : ascii) : bool :=
  let n := charCode c in
  (97 <=? n) && (n <=? 122) || (65 <=? n) && (n <=? 90)
  || (48 <=? n) && (n <=? 57) || (n =? 95).

Fixpoint allRoomChars (s : string) : bool :=
  match s with
  | String c rest => isRoomChar c && allRoomChars rest
  | EmptyString => true
  end.

(** [s] without the prefix [p], when it starts with [p]. *)
Fixpoint stripPrefix (p s : string) : option string :=
  match p, s with
  | EmptyString, _ => Some s
  | String a p', String b s' =>
      if Ascii.eqb a b then stripPrefix p' s' else None
  | String _ _, EmptyString => None
  end.

(** [room_name.match(/^(video|audio)_[a-zA-Z0-9_]+$/)] *)
Definition roomNameMatches (room_name : string) : bool :=
  let tail rest := negb (falsy rest) && allRoomChars rest in
  match stripPrefix "video_" room_name with
  | Some rest => tail rest
  | None =>
      match stripPrefix "audio_" room_name with
      | Some rest => tail rest
      | None => false
      end
  end.

(** What the Twilio access token is made from (the signature is not
    modelled): the identity, the room of its video grant, the lifetime
    in seconds. *)
Record AccessToken : Type := mkAccessToken {
  at_identity : string;
  at_room : string;
  at_ttl : Z
}.

(** [generateSecureAccessToken(identity, roomName, isVideo)]; [inl] is
    the message of the error it throws. *)
Definition generateSecureAccessToken (identity roomName : string)
  (isVideo : bool) : string + AccessToken :=
  if falsy identity || (Nat.ltb (String.length identity) 3)
  then inl "Invalid identity: must be string with at least 3 characters"
  else if falsy roomName || (Nat.ltb (String.length roomName) 5)
  then inl "Invalid roomName: must be string with at least 5 characters"
  else inr (mkAccessToken identity roomName 1800).

Record GenerateTokenReq : Type := mkGenerateTokenReq {
  gt_user_identity : string;
  gt_room_name : string;
  gt_is_video : option bool
}.

Record GenerateTokenBody : Type := mkGenerateTokenBody {
  gb_accessToken : AccessToken;
  gb_room_name : string;
  gb_user_identity : string;
  gb_is_video : bool;
  gb_coin_rate_per_second : Q;
  gb_expiresAt : Z
}.

(** [app.post('/api/generate_token')] *)
Definition generate_token (req : GenerateTokenReq) (now : Z)
  : Reply GenerateTokenBody :=
  let is_video :=
    match gt_is_video req with Some b => b | None => true end in
  if falsy (gt_user_identity req) || falsy (gt_room_name req)
  then reply_error 400
         "Missing required fields: user_identity and room_name"
  else if negb (roomNameMatches (gt_room_name req))
  then reply_error 400
         "Invalid room_name format. Must be: (video|audio)_userIds"
  else
    match generateSecureAccessToken (gt_user_identity req) (gt_room_name req)
            is_video with
    | inl _ => reply_error 500 "Failed to generate access token"
    | inr accessToken =>
        let coinRate :=
          if is_video then COIN_RATES_video else COIN_RATES_audio in
        reply_ok
          (mkGenerateTokenBody accessToken (gt_room_name req)
             (gt_user_identity req) is_video coinRate (now + 1800000))
    end.

(** ** Availability endpoints *)

Record AvailabilityBody : Type := mkAvailabilityBody {
  av_is_available : bool;
  av_user_status : StatusName.t;
  av_current_call_id : option string;
  av_message : string
}.

(** [app.post('/api/check_availability')]; the value is the answer. *)
Definition check_availability (recipient_id : string) (now : Z)
  : M (Reply AvailabilityBody) :=
  if falsy recipient_id then ret (reply_error 400 "Missing recipient_id")
  else
    recipientStatus <-
      gets (fun s => JsMap.get recipient_id (userStatus s)) ;;
    hasConnection <- gets (hasLiveSocket recipient_id) ;;
    resolved <-
      (if hasConnection then
         match recipientStatus with
         | Some x =>
             ret (UserStatus.status x, UserStatus.currentCallId x)
         | None =>
             preference <- gets (savedPreference recipient_id) ;;
             let actualStatus :=
               if preference then StatusName.available
               else StatusName.unavailable in
             setUserStatusSync recipient_id
               (UserStatus.mk actualStatus None now (Some preference)) ;;
             ret (actualStatus, None)
         end
       else ret (StatusName.unavailable, None)) ;;
    let actualStatus := fst resolved in
    let isAvailable := StatusName.eqb actualStatus StatusName.available in
    ret (reply_ok
           (mkAvailabilityBody isAvailable actualStatus (snd resolved)
              (if isAvailable then "User is available"
               else "User is currently "
                    ++ StatusName.to_string actualStatus))).

(** The socket messages of [/api/update_availability], which are not
    among [Msg]: [availability_updated] to the user's own socket and the
    [availability_changed] broadcast. *)
Inductive AvailabilityNotice : Type :=
| availability_updated (socketId : string) (is_available : bool)
    (status : StatusName.t)
| availability_changed (femaleUserId : string) (isAvailable : bool)
    (status : StatusName.t).

Record UpdateAvailabilityBody : Type := mkUpdateAvailabilityBody {
  ua_user_id : string;
  ua_is_available : bool;
  ua_status : StatusName.t;
  ua_message : string
}.

(** [userDoc.set({ isAvailable: is_available, ... }, { merge: true })] *)
Definition saveAvailability (user_id : string) (is_available : bool)
  : M unit :=
  modify (fun s =>
    with_users
      (JsMap.set user_id
         (match JsMap.get user_id (users s) with
          | Some d =>
              UserDoc.mk (UserDoc.coinBalance d) (UserDoc.coins d)
                (Some is_available) (UserDoc.fcmToken d)
          | None => UserDoc.mk None None (Some is_available) None
          end)
         (users s)) s).

(** [app.post('/api/update_availability')].  [is_available] is [None]
    when the field is not a boolean; [isFemale] is the awaited read of
    the document's [gender].  The value is the answer and the socket
    messages sent. *)
Definition update_availability (user_id : string) (is_available : option bool)
  (isFemale : bool) (now : Z)
  : M (Reply UpdateAvailabilityBody * list AvailabilityNotice) :=
  match is_available with
  | None => ret (reply_error 400 "Missing required fields", [])
  | Some is_available =>
      if falsy user_id
      then ret (reply_error 400 "Missing required fields", [])
      else
        currentStatus <- gets (fun s => JsMap.get user_id (userStatus s)) ;;
        let onCall :=
          match currentStatus with
          | Some x => StatusName.eqb (UserStatus.status x) StatusName.busy
          | None => false
          end in
        if onCall && negb is_available
        then ret (reply_error 400 "Cannot set unavailable while on a call",
                  [])
        else
          let newStatus :=
            if is_available then StatusName.available
            else StatusName.unavailable in
          setUserStatusSync user_id
            (UserStatus.mk newStatus
               (match currentStatus with
                | Some x =>
                    match UserStatus.currentCallId x with
                    | Some id => if falsy id then None else Some id
                    | None => None
                    end
                | None => None
                end)
               now (Some is_available)) ;;
          saveAvailability user_id is_available ;;
          userConnection <-
            gets (fun s => JsMap.get user_id (connectedUsers s)) ;;
          live <- gets (hasLiveSocket user_id) ;;
          let toUser :=
            match userConnection with
            | Some c =>
                if live
                then [availability_updated (Conn.socketId c) is_available
                        newStatus]
                else []
            | None => []
            end in
          let toAll :=
            if isFemale
            then [availability_changed user_id is_available newStatus]
            else [] in
          ret (reply_ok
                 (mkUpdateAvailabilityBody user_id is_available newStatus
                    (if is_available then "You are now available for calls"
                     else "You are now unavailable for calls")),
               (toUser ++ toAll)%list)
  end.

(** ** Disconnect timeouts *)

(** [startDisconnectTimeout], [cancelDisconnectTimeout] and the timeout
    callback work on [connectedUsers], on the [disconnectTimeouts] map,
    on Node's pending timeouts and on the presence flags of the Firestore
    [users] documents. *)
Module Presence.
Record Doc : Type := mkDoc {
  isAvailable : option bool;
  isOnline : option bool;
  forceClosed : bool
}.

(** [disconnectTimeouts] values. *)
Record Entry : Type := mkEntry {
  timeoutId : nat;
  disconnectedAt : Z;
  userType : string
}.

(** What the callback of a pending timeout closes over. *)
Record Closure : Type := mkClosure {
  c_userId : string;
  c_userType : string
}.

Record t : Type := mk {
  connectedUsers : JsMap.t Conn.t;
  disconnectTimeouts : JsMap.t Entry;
  (** live [setTimeout] handles *)
  pending : list (nat * Closure);
  nextTimeout : nat;
  docs : JsMap.t Doc
}.

(** The broadcasts of the callback ([io.emit]). *)
Inductive Notice : Type :=
| availability_changed (femaleUserId : string) (isAvailable isOnline : bool)
    (reason : string)
| user_status_changed (userId : string) (isOnline : bool) (reason : string).
End Presence.

Definition DISCONNECT_TIMEOUT_MS : Z := 15000.

(** [clearTimeout(id)] *)
Definition clearTimeout (id : nat) (p : Presence.t) : Presence.t :=
  Presence.mk (Presence.connectedUsers p) (Presence.disconnectTimeouts p)
    (List.filter (fun e => negb (Nat.eqb (fst e) id)) (Presence.pending p))
    (Presence.nextTimeout p) (Presence.docs p).

Definition deleteDisconnectTimeout (userId : string) (p : Presence.t)
  : Presence.t :=
  Presence.mk (Presence.connectedUsers p)
    (JsMap.delete userId (Presence.disconnectTimeouts p))
    (Presence.pending p) (Presence.nextTimeout p) (Presence.docs p).

(** [cancelDisconnectTimeout(userId)] *)
Definition cancelDisconnectTimeout (userId : string) (p : Presence.t)
  : Presence.t :=
  match JsMap.get userId (Presence.disconnectTimeouts p) with
  | Some existingTimeout =>
      deleteDisconnectTimeout userId
        (clearTimeout (Presence.timeoutId existingTimeout) p)
  | None => p
  end.

(** [startDisconnectTimeout(userId, userType)] at time [now]. *)
Definition startDisconnectTimeout (userId userType : string) (now : Z)
  (p : Presence.t) : Presence.t :=
  let p1 := cancelDisconnectTimeout userId p in
  let timeoutId := Presence.nextTimeout p1 in
  Presence.mk (Presence.connectedUsers p1)
    (JsMap.set userId
       (Presence.mkEntry timeoutId now (orStr userType "unknown"))
       (Presence.disconnectTimeouts p1))
    (Presence.pending p1 ++ [(timeoutId, Presence.mkClosure userId userType)])
    (S timeoutId) (Presence.docs p1).

(** [db.collection('users').doc(userId).update(...)]: fails on a missing
    document. *)
Definition updateDoc (userId : string) (f : Presence.Doc -> Presence.Doc)
  (p : Presence.t) : option Presence.t :=
  match JsMap.get userId (Presence.docs p) with
  | Some d =>
      Some (Presence.mk (Presence.connectedUsers p)
              (Presence.disconnectTimeouts p) (Presence.pending p)
              (Presence.nextTimeout p)
              (JsMap.set userId (f d) (Presence.docs p)))
  | None => None
  end.

(** The callback armed by [startDisconnectTimeout]. *)
Definition disconnectTimeoutExpired (c : Presence.Closure) (p : Presence.t)
  : Presence.t * list Presence.Notice :=
  let userId := Presence.c_userId c in
  let reconnected :=
    match JsMap.get userId (Presence.connectedUsers p) with
    | Some userConnection => Conn.isOnline userConnection
    | None => false
    end in
  if reconnected then (deleteDisconnectTimeout userId p, [])
  else if String.eqb (Presence.c_userType c) "female" then
    match updateDoc userId
            (fun _ => Presence.mkDoc (Some false) (Some false) true) p with
    | Some p1 =>
        (deleteDisconnectTimeout userId p1,
         [Presence.availability_changed userId false false
            "force_close_detected"])
    | None => (deleteDisconnectTimeout userId p, [])
    end
  else
    match updateDoc userId
            (fun d =>
               Presence.mkDoc (Presence.isAvailable d) (Some false)
                 (Presence.forceClosed d)) p with
    | Some p1 =>
        (deleteDisconnectTimeout userId p1,
         [Presence.user_status_changed userId false "disconnect_timeout"])
    | None => (deleteDisconnectTimeout userId p, [])
    end.

(** The timeout with handle [h] comes due: it fires if it is still
    pending, and is then no longer pending. *)
Definition timeoutDue (h : nat) (p : Presence.t)
  : Presence.t * list Presence.Notice :=
  match List.find (fun e => Nat.eqb (fst e) h) (Presence.pending p) with
  | Some (_, c) => disconnectTimeoutExpired c (clearTimeout h p)
  | None => (p, [])
  end.

(** Every pending timeout is the one recorded for its user, and the
    handles still to be issued are fresh. *)
Definition presenceWf (p : Presence.t) : Prop :=
  (forall h c, In (h, c) (Presence.pending p) ->
     exists e, JsMap.get (Presence.c_userId c) (Presence.disconnectTimeouts p)
               = Some e
               /\ Presence.timeoutId e = h)
  /\ (forall h c, In (h, c) (Presence.pending p) ->
        (h < Presence.nextTimeout p)%nat).

(** The events that touch the disconnect timeouts. *)
Inductive PresenceEvent : Type :=
| pe_start (userId userType : string) (now : Z)
| pe_cancel (userId : string)
| pe_due (h : nat)
| pe_connection (userId : string) (c : Conn.t)
| pe_document (userId : string) (d : Presence.Doc).

Definition presenceStep (e : PresenceEvent) (p : Presence.t) : Presence.t :=
  match e with
  | pe_start userId userType now => startDisconnectTimeout userId userType now p
  | pe_cancel userId => cancelDisconnectTimeout userId p
  | pe_due h => fst (timeoutDue h p)
  | pe_connection userId c =>
      Presence.mk (JsMap.set userId c (Presence.connectedUsers p))
        (Presence.disconnectTimeouts p) (Presence.pending p)
        (Presence.nextTimeout p) (Presence.docs p)
  | pe_document userId d =>
      Presence.mk (Presence.connectedUsers p) (Presence.disconnectTimeouts p)
        (Presence.pending p) (Presence.nextTimeout p)
        (JsMap.set userId d (Presence.docs p))
  end.

Definition presenceRun (es : list PresenceEvent) (p : Presence.t)
  : Presence.t :=
  List.fold_left (fun q e => presenceStep e q) es p.

Definition presenceInit : Presence.t := Presence.mk [] [] [] 0%nat [].

(** ** User statistics ([src/utils/stats_sync_util.js]) *)

(** A small integer as a double. *)
Definition doubleOfZ (z : Z) : float := PrimFloat.of_uint63 (Uint63.of_Z z).

(** [x.toFixed(1)] of a finite non-negative double, in tenths: the
    integer [n] for which [n / 10] is closest to the exact value of [x],
    the larger one on a tie. *)
Definition toFixed1_tenths (x : float) : Z :=
  match Prim2SF x with
  | S754_finite _ m e =>
      if 0 <=? e then Z.pos m * 2 ^ e * 10
      else (2 * Z.pos m * 10 + 2 ^ (- e)) / 2 ^ (1 - e)
  | _ => 0
  end.

(** [parseFloat(((totalLikes / totalCalls) * 10).toFixed(1))] in tenths. *)
Definition ratingTenths (totalLikes totalCalls : Z) : Z :=
  toFixed1_tenths
    (PrimFloat.mul
       (PrimFloat.div (doubleOfZ totalLikes) (doubleOfZ totalCalls))
       (doubleOfZ 10)).

(** The double that [parseFloat] reads from a numeral with one decimal. *)
Definition doubleOfTenths (n : Z) : float :=
  PrimFloat.div (doubleOfZ n) (doubleOfZ 10).

Module Stats.
(** A document of a user's [powerups] subcollection:
    [data.like === true] and [data.dislike === true]. *)
Record PowerUp : Type := mkPowerUp { like : bool; dislike : bool }.

(** The statistics fields of a [users] document. *)
Record MainDoc : Type := mkMainDoc {
  d_rating : option float;
  d_totalCallsReceived : option Z;
  d_totalLikes : option Z;
  d_totalDislikes : option Z;
  d_statsSource : option string
}.

(** The stats object the utility hands around. *)
Record t : Type := mk {
  userId : string;
  rating : float;
  totalCalls : Z;
  totalLikes : Z;
  totalDislikes : Z;
  source : string
}.

(** Firestore as the utility sees it: the [users] documents and their
    [powerups] subcollections (no entry: an empty subcollection). *)
Record Store : Type := mkStore {
  mainDocs : JsMap.t MainDoc;
  powerups : JsMap.t (list PowerUp)
}.
End Stats.

(** [x || 0] on an optional double ([NaN] and zero are falsy). *)
Definition orZeroF (x : option float) : float :=
  match x with
  | Some v => if PrimFloat.is_nan v || PrimFloat.is_zero v then 0%float else v
  | None => 0%float
  end.

Definition countIf {A : Type} (f : A -> bool) (l : list A) : Z :=
  Z.of_nat (List.length (List.filter f l)).

(** [getDefaultStats(userId)] *)
Definition getDefaultStats (userId : string) : Stats.t :=
  Stats.mk userId 0%float 0 0 0 "default".

(** The statistics computed from a non-empty [powerups] snapshot. *)
Definition statsOfPowerups (userId : string) (docs : list Stats.PowerUp)
  : Stats.t :=
  let totalLikes := countIf Stats.like docs in
  let totalDislikes := countIf Stats.dislike docs in
  let totalCalls := Z.of_nat (List.length docs) in
  let rating :=
    if 0 <? totalCalls
    then doubleOfTenths (ratingTenths totalLikes totalCalls)
    else 0%float in
  Stats.mk userId rating totalCalls totalLikes totalDislikes
    "powerups_subcollection".

Definition powerupsOf (userId : string) (store : Stats.Store)
  : list Stats.PowerUp :=
  match JsMap.get userId (Stats.powerups store) with
  | Some docs => docs
  | None => []
  end.

(** [getStatsFromMainDocument(userId)] *)
Definition getStatsFromMainDocument (userId : string) (store : Stats.Store)
  : option Stats.t :=
  match JsMap.get userId (Stats.mainDocs store) with
  | Some data =>
      Some (Stats.mk userId (orZeroF (Stats.d_rating data))
              (orZero (Stats.d_totalCallsReceived data))
              (orZero (Stats.d_totalLikes data))
              (orZero (Stats.d_totalDislikes data)) "main_document")
  | None => None
  end.

(** [getStatsFromSubcollection(userId)] *)
Definition getStatsFromSubcollection (userId : string) (store : Stats.Store)
  : option Stats.t :=
  match powerupsOf userId store with
  | [] => None
  | docs => Some (statsOfPowerups userId docs)
  end.

(** [updateMainDocumentStats(userId, stats)]: [None] when the update
    throws because the document does not exist. *)
Definition updateMainDocumentStats (userId : string) (stats : Stats.t)
  (store : Stats.Store) : option Stats.Store :=
  match JsMap.get userId (Stats.mainDocs store) with
  | Some _ =>
      Some (Stats.mkStore
              (JsMap.set userId
                 (Stats.mkMainDoc (Some (Stats.rating stats))
                    (Some (Stats.totalCalls stats))
                    (Some (Stats.totalLikes stats))
                    (Some (Stats.totalDislikes stats))
                    (Some (Stats.source stats)))
                 (Stats.mainDocs store))
              (Stats.powerups store))
  | None => None
  end.

(** [getUserStatsWithFallback(userId)].  The write of fresh statistics to
    the main document is started without being awaited; the model applies
    it at once. *)
Definition getUserStatsWithFallback (userId : string) (store : Stats.Store)
  : Stats.t * Stats.Store :=
  match getStatsFromMainDocument userId store with
  | None => (getDefaultStats userId, store)
  | Some fallbackStats =>
      match powerupsOf userId store with
      | [] => (fallbackStats, store)
      | docs =>
          let freshStats := statsOfPowerups userId docs in
          (freshStats,
           match updateMainDocumentStats userId freshStats store with
           | Some store' => store'
           | None => store
           end)
      end
  end.

(** [Math.abs(a - b) < 0.5] on two ratings. *)
Definition ratingsClose (a b : float) : bool :=
  PrimFloat.ltb (PrimFloat.abs (PrimFloat.sub a b)) 0.5%float.

(** [validateStatsConsistency(userId)] *)
Definition validateStatsConsistency (userId : string) (store : Stats.Store)
  : bool :=
  match getStatsFromMainDocument userId store,
        getStatsFromSubcollection userId store with
  | Some mainDocStats, Some subcollectionStats =>
      ratingsClose (Stats.rating mainDocStats)
        (Stats.rating subcollectionStats)
      && (Z.abs (Stats.totalCalls mainDocStats
                 - Stats.totalCalls subcollectionStats) <=? 2)
      && (Z.abs (Stats.totalLikes mainDocStats
                 - Stats.totalLikes subcollectionStats) <=? 2)
  | _, _ => false
  end.

(** The [error] of an entry of [results.failed]: a text of the code's
    own, or the message of the error that a Firestore call threw. *)
Inductive BatchError : Type :=
| error_text (s : string)
| error_message_of_thrown.

(** The [results] of [batchUpdateStats]. *)
Record BatchResults : Type := mkBatchResults {
  br_success : list string;
  br_failed : list (string * BatchError);
  br_total : nat
}.

(** One round of the loop of [batchUpdateStats]. *)
Definition batchUpdateOne (acc : BatchResults * Stats.Store)
  (userId : string) : BatchResults * Stats.Store :=
  let results := fst acc in
  let r := getUserStatsWithFallback userId (snd acc) in
  let stats := fst r in
  if negb (String.eqb (Stats.source stats) "default") then
    match updateMainDocumentStats userId stats (snd r) with
    | Some store' =>
        (mkBatchResults (br_success results ++ [userId]) (br_failed results)
           (br_total results), store')
    | None =>
        (mkBatchResults (br_success results)
           (br_failed results ++ [(userId, error_message_of_thrown)])
           (br_total results), snd r)
    end
  else
    (mkBatchResults (br_success results)
       (br_failed results ++ [(userId, error_text "No valid stats found")])
       (br_total results), snd r).

(** [batchUpdateStats(userIds)] *)
Definition batchUpdateStats (userIds : list string) (store : Stats.Store)
  : BatchResults * Stats.Store :=
  List.fold_left batchUpdateOne userIds
    (mkBatchResults [] [] (List.length userIds), store).

(** [app.post('/api/batch_refresh_stats')]; [user_ids] is [None] when
    the field is missing or not an array, [statsSync] tells whether the
    utility was initialised. *)
Definition batch_refresh_stats (user_ids : option (list string))
  (statsSync : bool) (store : Stats.Store)
  : Reply BatchResults * Stats.Store :=
  match user_ids with
  | None => (reply_error 400 "user_ids array is required", store)
  | Some ids =>
      if Nat.eqb (List.length ids) 0
      then (reply_error 400 "user_ids array is required", store)
      else if Nat.ltb 50 (List.length ids)
      then (reply_error 400 "Maximum 50 users allowed per batch", store)
      else if negb statsSync
      then (reply_error 503 "Stats sync service not available", store)
      else
        let r := batchUpdateStats ids store in
        (reply_ok (fst r), snd r)
  end.

(** A finite double. *)
Definition isFiniteDouble (x : float) : bool :=
  match Prim2SF x with
  | S754_zero _ | S754_finite _ _ _ => true
  | _ => false
  end.

(** [ratingTenths] is between 0 and 100 and is the exact rounding of
    [100 * likes / calls], a tie going up or down. *)
Definition ratingOk (likes calls : Z) : bool :=
  let t := ratingTenths likes calls in
  let exact := (200 * likes + calls) / (2 * calls) in
  let tie := (200 * likes + calls) mod (2 * calls) =? 0 in
  (0 <=? t) && (t <=? 100) && ((t =? exact) || (tie && (t =? exact - 1)))
  && isFiniteDouble (doubleOfTenths t).

Fixpoint ratingRowOk (n : nat) (likes calls : Z) : bool :=
  match n with
  | O => true
  | S n' => ratingOk likes calls && ratingRowOk n' (likes + 1) calls
  end.

Fixpoint ratingsOk (n : nat) (calls : Z) : bool :=
  match n with
  | O => true
  | S n' =>
      ratingRowOk (Z.to_nat (calls + 1)) 0 calls && ratingsOk n' (calls + 1)
  end.

(** ** Scalability module: [checkAndDeductCoins] *)

(** The answer of [checkAndDeductCoins]. *)
Record CheckAndDeduct : Type := mkCheckAndDeduct {
  cad_success : bool;
  cad_newBalance : option Z;
  cad_error : option string;
  cad_message : option string
}.

(** The transaction of [checkAndDeductCoins]: [inl] is the message of the
    error it throws, [inr] the pair [(newBalance, previousBalance)] it
    returns.  The fields [lastSpendAt], [lastCallId] and
    [lastCallStartBalance] and the [spending] record it writes are not
    part of the state, which always has its [users] collection: the
    answer for a Firestore that was not initialised is left out. *)
Definition checkAndDeductTransaction (userId : string)
  (amount minRequired : Z) (callId : string) : M (string + Z * Z) :=
  userDoc <- gets (fun s => JsMap.get userId (users s)) ;;
  match userDoc with
  | None => ret (inl "User not found")
  | Some data =>
      let currentBalance := currentBalance data in
      if currentBalance <? minRequired then
        ret (inl ("INSUFFICIENT_BALANCE: has " ++ showZ currentBalance
                  ++ ", requires " ++ showZ minRequired))
      else
        let newBalance := currentBalance - amount in
        modify (fun s =>
          with_users
            (JsMap.set userId (setBalance newBalance data) (users s)) s) ;;
        ret (inr (newBalance, currentBalance))
  end.

(** [checkAndDeductCoins(userId, amount, minRequired, callId)] *)
Definition checkAndDeductCoins (userId : string) (amount minRequired : Z)
  (callId : string) : M CheckAndDeduct :=
  result <- checkAndDeductTransaction userId amount minRequired callId ;;
  match result with
  | inr (newBalance, _) =>
      ret (mkCheckAndDeduct true (Some newBalance) None None)
  | inl message =>
      if String.prefix "INSUFFICIENT_BALANCE" message then
        ret (mkCheckAndDeduct false None (Some "INSUFFICIENT_BALANCE")
               (Some message))
      else ret (mkCheckAndDeduct false None (Some message) None)
  end.

(** ** [deductCoinsAtomically] of the server *)



(** ** Middleware: [requireInternalAccess] *)

(** The regular expressions that [allowedPatterns] is written with:
    literal characters, character ranges, sequence, alternative and [+];
    [re_void], [re_eps] and [re_star] arise while matching. *)
Inductive RegExp : Type :=
| re_void
| re_eps
| re_char (c : ascii)
| re_range (lo hi : ascii)
| re_seq (r1 r2 : RegExp)
| re_alt (r1 r2 : RegExp)
| re_star (r : RegExp)
| re_plus (r : RegExp).

(** [\d] *)
Definition re_digit : RegExp := re_range "0" "9".

(** A run of literal characters. *)
Fixpoint re_lit (s : string) : RegExp :=
  match s with
  | String c rest => re_seq (re_char c) (re_lit rest)
  | EmptyString => re_eps
  end.

(** The members of a character range, by code unit. *)
Definition inRange (lo hi c : ascii) : bool :=
  (charCode lo <=? charCode c) && (charCode c <=? charCode hi).

Fixpoint nullable (r : RegExp) : bool :=
  match r with
  | re_void => false
  | re_eps => true
  | re_char _ => false
  | re_range _ _ => false
  | re_seq r1 r2 => nullable r1 && nullable r2
  | re_alt r1 r2 => nullable r1 || nullable r2
  | re_star _ => true
  | re_plus r => nullable r
  end.

(** What is left of [r] once it has read [c]. *)
Fixpoint deriv (c : ascii) (r : RegExp) : RegExp :=
  match r with
  | re_void => re_void
  | re_eps => re_void
  | re_char c' => if Ascii.eqb c c' then re_eps else re_void
  | re_range lo hi => if inRange lo hi c then re_eps else re_void
  | re_seq r1 r2 =>
      if nullable r1
      then re_alt (re_seq (deriv c r1) r2) (deriv c r2)
      else re_seq (deriv c r1) r2
  | re_alt r1 r2 => re_alt (deriv c r1) (deriv c r2)
  | re_star r1 => re_seq (deriv c r1) (re_star r1)
  | re_plus r1 => re_seq (deriv c r1) (re_star r1)
  end.

(** [/^r$/.test(s)]: the pattern is anchored at both ends, so the test
    asks whether [r] matches the whole of [s]. *)
Fixpoint re_test (r : RegExp) (s : string) : bool :=
  match s with
  | String c rest => re_test (deriv c r) rest
  | EmptyString => nullable r
  end.

(** The strings a regular expression matches. *)
Inductive Matches : RegExp -> string -> Prop :=
| matches_eps : Matches re_eps ""
| matches_char c : Matches (re_char c) (String c "")
| matches_range lo hi c :
    inRange lo hi c = true -> Matches (re_range lo hi) (String c "")
| matches_seq r1 r2 s1 s2 :
    Matches r1 s1 -> Matches r2 s2 -> Matches (re_seq r1 r2) (s1 ++ s2)
| matches_alt_l r1 r2 s : Matches r1 s -> Matches (re_alt r1 r2) s
| matches_alt_r r1 r2 s : Matches r2 s -> Matches (re_alt r1 r2) s
| matches_star_nil r : Matches (re_star r) ""
| matches_star_cons r s1 s2 :
    Matches r s1 -> Matches (re_star r) s2 -> Matches (re_star r) (s1 ++ s2)
| matches_plus r s1 s2 :
    Matches r s1 -> Matches (re_star r) s2 -> Matches (re_plus r) (s1 ++ s2).

(** The six [allowedPatterns], in the order of the source. *)
Definition allowedPatterns : list RegExp :=
  [ re_lit "127.0.0.1";
    re_lit "::1";
    re_lit "::ffff:127.0.0.1";
    re_seq (re_lit "10.")
      (re_seq (re_plus re_digit)
         (re_seq (re_char ".")
            (re_seq (re_plus re_digit)
               (re_seq (re_char ".") (re_plus re_digit)))));
    re_seq (re_lit "192.168.")
      (re_seq (re_plus re_digit)
         (re_seq (re_char ".") (re_plus re_digit)));
    re_seq (re_lit "172.")
      (re_seq
         (re_alt (re_seq (re_char "1") (re_range "6" "9"))
            (re_alt (re_seq (re_char "2") (re_range "0" "9"))
               (re_seq (re_char "3") (re_range "0" "1"))))
         (re_seq (re_char ".")
            (re_seq (re_plus re_digit)
               (re_seq (re_char ".") (re_plus re_digit))))) ].

(** [a || b] on strings, [a] possibly [undefined]. *)
Definition orString (a : option string) (b : string) : string :=
  match a with
  | Some s => if falsy s then b else s
  | None => b
  end.

(** [req.ip || req.connection.remoteAddress || ''] *)
Definition clientIpOf (ip remoteAddress : option string) : string :=
  orString ip (orString remoteAddress "").

(** [requireInternalAccess(req, res, next)] *)
Definition requireInternalAccess (isProduction : bool)
  (ip remoteAddress : option string) : Middleware :=
  let clientIp := clientIpOf ip remoteAddress in
  let isAllowed :=
    List.existsb (fun pattern => re_test pattern clientIp) allowedPatterns in
  if negb isAllowed && isProduction
  then refuse 403 "Forbidden" "Access denied from external IP"
  else next.

(** One or more decimal digits. *)
Fixpoint allDigits (s : string) : bool :=
  match s with
  | String c rest => inRange "0" "9" c && allDigits rest
  | EmptyString => true
  end.

Definition isNumber (s : string) : bool :=
  negb (String.eqb s "") && allDigits s.

(** The number of live intervals whose callback counts for [callId]. *)
Definition liveIntervalsOf (callId : string) (l : list (nat * string))
  : nat :=
  List.length (List.filter (fun e => String.eqb (snd e) callId) l).

(** * Verification *)

(** ** Facts about [JsMap] *)

Section JsMapFacts.
Context {V : Type}.
Implicit Types (m : JsMap.t V) (k : string) (v : V).

Lemma get_set_same k v m : JsMap.get k (JsMap.set k v m) = Some v.
Proof.
  induction m as [|[k' v'] m IH]; simpl.
  - now rewrite String.eqb_refl.
  - destruct (String.eqb k k') eqn:E; simpl; rewrite E; auto.
Qed.

Lemma get_set_other k k' v m :
  k <> k' -> JsMap.get k (JsMap.set k' v m) = JsMap.get k m.
Proof.
  intros N. apply String.eqb_neq in N.
  induction m as [|[k2 v2] m IH]; simpl.
  - now rewrite N.
  - destruct (String.eqb k' k2) eqn:E; simpl.
    + apply String.eqb_eq in E. subst k2. now rewrite N.
    + now rewrite IH.
Qed.

Lemma get_delete_same k m : JsMap.get k (JsMap.delete k m) = None.
Proof.
  induction m as [|[k' v'] m IH]; simpl; auto.
  destruct (String.eqb k k') eqn:E; simpl; auto. now rewrite E.
Qed.

Lemma get_delete_other k k' m :
  k <> k' -> JsMap.get k (JsMap.delete k' m) = JsMap.get k m.
Proof.
  intros N. apply String.eqb_neq in N.
  induction m as [|[k2 v2] m IH]; simpl; auto.
  destruct (String.eqb k' k2) eqn:E; simpl.
  - apply String.eqb_eq in E. subst k2. now rewrite N.
  - now rewrite IH.
Qed.

Lemma get_In k v m : JsMap.get k m = Some v -> In (k, v) m.
Proof.
  induction m as [|[k' v'] m IH]; simpl; [discriminate|].
  destruct (String.eqb k k') eqn:E.
  - apply String.eqb_eq in E. intros [= ->]. subst. now left.
  - intros H. right. auto.
Qed.

Lemma In_get_nodup k v m :
  NoDup (JsMap.keys m) -> In (k, v) m -> JsMap.get k m = Some v.
Proof.
  induction m as [|[k' v'] m IH]; simpl; [tauto|].
  intros ND [E|I].
  - injection E as -> ->. now rewrite String.eqb_refl.
  - inversion ND as [|? ? NI ND']; subst.
    destruct (String.eqb k k') eqn:E.
    + apply String.eqb_eq in E. subst k'. exfalso. apply NI.
      change k with (fst (k, v)). now apply in_map.
    + auto.
Qed.

Lemma has_get k m : JsMap.has k m = isSome (JsMap.get k m).
Proof. reflexivity. Qed.
End JsMapFacts.

(** ** Facts about the handler monad *)

Lemma forEach_st_inv {A : Type} (P : State -> Prop) (l : list A)
  (body : A -> M unit) :
  (forall a s, In a l -> P s -> P (st (body a s))) ->
  forall s, P s -> P (st (forEach l body s)).
Proof.
  induction l as [|a l IH]; intros Hb s Hs; [exact Hs|].
  simpl. unfold bind; simpl. apply IH.
  - intros b s' I. apply Hb. now right.
  - apply Hb; [now left | exact Hs].
Qed.

Lemma forEach_out_In {A : Type} (l : list A) (body : A -> M unit) e :
  forall s, In e (out (forEach l body s)) ->
  exists a s', In a l /\ In e (out (body a s')).
Proof.
  induction l as [|a l IH]; simpl; intros s H; [contradiction|].
  unfold bind in H; simpl in H. apply in_app_or in H as [H|H].
  - exists a, s. auto.
  - destruct (IH _ H) as (a' & s' & I & O). exists a', s'. auto.
Qed.

Lemma forEach_out_intro {A : Type} (l : list A) (body : A -> M unit) e a :
  In a l -> (forall s, In e (out (body a s))) ->
  forall s, In e (out (forEach l body s)).
Proof.
  induction l as [|b l IH]; simpl; intros I O s; [contradiction|].
  unfold bind; simpl. apply in_or_app. destruct I as [->|I]; auto.
Qed.

Lemma forEach_app {A : Type} (l1 l2 : list A) (body : A -> M unit) s :
  st (forEach (l1 ++ l2) body s) = st (forEach l2 body (st (forEach l1 body s))).
Proof.
  revert s. induction l1 as [|a l1 IH]; intros s; [reflexivity|].
  simpl. unfold bind; simpl. apply IH.
Qed.

(** ** Billing arithmetic *)

Example ceil_37_audio : ceilCoins 37 COIN_RATES_audio = 8.
Proof. reflexivity. Qed.

Example ceil_40_audio : ceilCoins 40 COIN_RATES_audio = 8.
Proof. reflexivity. Qed.

Example ceil_125_video : ceilCoins 125 COIN_RATES_video = 125.
Proof. reflexivity. Qed.

(** Rounding is upward: the charge covers the exact product and exceeds
    it by less than one coin. *)
Lemma ceilCoins_bounds d rate :
  (inject_Z d * rate <= inject_Z (ceilCoins d rate))%Q
  /\ (inject_Z (ceilCoins d rate) < inject_Z d * rate + 1)%Q.
Proof.
  unfold ceilCoins. split.
  - apply Qle_ceiling.
  - pose proof (Qceiling_lt (inject_Z d * rate)) as H.
    set (q := (inject_Z d * rate)%Q) in *.
    assert (E : (inject_Z (Qceiling q) == inject_Z (Qceiling q - 1) + 1)%Q).
    { change 1%Q with (inject_Z 1). rewrite <- inject_Z_plus.
      now replace (Qceiling q - 1 + 1) with (Qceiling q) by lia. }
    rewrite E. now apply Qplus_lt_l.
Qed.

(** ** Proof automation *)

Ltac msimpl :=
  cbn [bind ret gets modify tell when respond_ st out val exec trace
       setUserStatusSync setConnectedUserSync setActiveCallSync
       deleteActiveCallSync completeCallSync mutateCall setTimer deleteTimer
       clearInterval dropSocket
       with_activeCalls with_connectedUsers with_userStatus with_callTimers
       with_intervals with_sockets with_users with_callLocks
       activeCalls connectedUsers userStatus callTimers intervals
       nextInterval sockets users callLocks app fst snd orb andb negb
       isSome] in *.

(** ** The ledger *)

Lemma deductUserCoins_out u a c s :
  out (deductUserCoins u a c s) = [deductRequest u a c].
Proof.
  unfold deductUserCoins. msimpl.
  destruct (JsMap.get u (users s)) as [d|]; [|reflexivity].
  destruct (currentBalance d <? a); reflexivity.
Qed.

Lemma deductUserCoins_st u a c s :
  st (deductUserCoins u a c s) = with_users (users (st (deductUserCoins u a c s))) s.
Proof.
  unfold deductUserCoins. msimpl.
  destruct (JsMap.get u (users s)) as [d|]; [|now destruct s].
  destruct (currentBalance d <? a); msimpl; now destruct s.
Qed.

Lemma calls_complete_trace s req now x :
  falsy (finalCallId req) = false ->
  JsMap.get (finalCallId req) (callTimers s) = Some x ->
  let d := Timer.durationSeconds x in
  let coins := ceilCoins d (Timer.coinRate x) in
  let payer := orStr (finalCallerId req) (Timer.callerId x) in
  exists newBalance,
    trace (calls_complete req now) s =
      [deductRequest payer coins (finalCallId req);
       updateCallInFirestore (finalCallId req)
         (mkUpdate "completed" (Some d) (Some (inject_Z coins))
            (Some (endReasonOr (cp_endReason req))) (Some "server")
            (fraudCheck d (cp_client_duration_seconds req)));
       respond (calls_complete_ok (finalCallId req) d (inject_Z coins)
                  newBalance "server"
                  (fraudCheck d (cp_client_duration_seconds req)))].
Proof.
  intros F G d coins payer. unfold calls_complete. rewrite F.
  msimpl. rewrite G. msimpl. rewrite deductUserCoins_out.
  eexists. reflexivity.
Qed.

(** ** Frames of the participant loops *)

Lemma with_userStatus_id s : with_userStatus (userStatus s) s = s.
Proof. now destruct s. Qed.

Lemma disconnect_notify_frame userId callId ps now s :
  st (disconnect_notify userId callId ps now s)
  = with_userStatus (userStatus (st (disconnect_notify userId callId ps now s))) s.
Proof.
  unfold disconnect_notify.
  apply (forEach_st_inv (fun s' => s' = with_userStatus (userStatus s') s)).
  - intros p s' _ E. unfold when.
    destruct (negb (p =? userId)%string); msimpl; [|exact E].
    destruct (JsMap.get p (connectedUsers s')) as [k|]; msimpl.
    + destruct (Conn.isOnline k); msimpl; rewrite E at 2; reflexivity.
    + rewrite E at 2; reflexivity.
  - symmetry. apply with_userStatus_id.
Qed.

Lemma disconnect_notify_out userId callId ps now s e :
  In e (out (disconnect_notify userId callId ps now s)) ->
  exists sid,
    e = emit sid (participant_disconnected callId userId "User connection lost").
Proof.
  unfold disconnect_notify. intros H.
  apply forEach_out_In in H as (p & s' & _ & H). unfold when in H.
  destruct (negb (p =? userId)%string); msimpl; [|contradiction].
  destruct (JsMap.get p (connectedUsers s')) as [k|]; msimpl.
  - destruct (Conn.isOnline k); msimpl.
    + destruct H as [<-|[]]. now eexists.
    + contradiction.
  - contradiction.
Qed.

Lemma disconnect_call_trace s userId callId call now x :
  JsMap.get callId (callTimers s) = Some x ->
  let d := Timer.durationSeconds x in
  let coins := ceilCoins d (coinRateOr (Timer.coinRate x)) in
  trace (disconnect_call userId callId call now) s
  = (out (disconnect_notify userId callId (Call.participants call) now s)
     ++ (if negb (falsy (Call.callerId call)) && (coins >? 0)
         then [deductRequest (Call.callerId call) coins callId] else [])
     ++ [updateCallInFirestore callId (disconnectUpdate d coins)])%list.
Proof.
  intros G d coins. unfold disconnect_call. msimpl.
  rewrite disconnect_notify_frame. msimpl. rewrite G.
  unfold disconnect_bill. msimpl. f_equal.
  fold d. fold coins. unfold when.
  destruct (negb (falsy (Call.callerId call)) && (coins >? 0)); msimpl.
  - rewrite deductUserCoins_out. reflexivity.
  - reflexivity.
Qed.

Lemma heartbeat_entry_stale_out now e s :
  Timer.lastHeartbeat (snd e) <> 0 ->
  now - Timer.lastHeartbeat (snd e) > HEARTBEAT_TIMEOUT_MS ->
  let d := Timer.durationSeconds (snd e) in
  let coins := ceilCoins d (Timer.coinRate (snd e)) in
  exists tl,
    out (heartbeat_entry now e s)
    = deductRequest (Timer.callerId (snd e)) coins (fst e)
      :: updateCallInFirestore (fst e)
           (mkUpdate "timeout_heartbeat" (Some d) (Some (inject_Z coins))
              (Some "No heartbeat received - connection lost") None None)
      :: tl.
Proof.
  intros NZ ST d coins. unfold heartbeat_entry.
  apply Z.eqb_neq in NZ. rewrite NZ.
  assert (E : (now - Timer.lastHeartbeat (snd e) >? HEARTBEAT_TIMEOUT_MS) = true)
    by (apply Z.gtb_lt; lia).
  rewrite E. msimpl. rewrite deductUserCoins_out. msimpl.
  eexists. reflexivity.
Qed.

Lemma complete_call_trace s req x :
  falsy (cc_call_id req) = false ->
  JsMap.get (cc_call_id req) (callTimers s) = Some x ->
  let d := Timer.durationSeconds x in
  let diff := Z.abs (d - orZero (cc_client_duration_seconds req)) in
  trace (complete_call req) s
  = [respond (complete_call_ok (cc_call_id req) d
       (toFixed2 (inject_Z d * Timer.coinRate x)) "server"
       (Some (mkFraud (cc_client_duration_seconds req) d diff (diff >? 5))))].
Proof.
  intros F G d diff. unfold complete_call. rewrite F. msimpl. rewrite G.
  reflexivity.
Qed.

(** ** C1: what each completion path charges *)

(** C1, counterexample.  A call with a server timer at 37 s and rate 0.2 is
    completed through the legacy [/api/complete_call] endpoint: the reported
    [coins_deducted] is 7.4, not [ceil(37 * 0.2) = 8], and the ledger is not
    touched. *)
Lemma legacy_complete_call_reports_fraction :
  JsMap.get "X" (callTimers after37) = Some timer37
  /\ trace (complete_call (mkCompleteCallReq "X" (Some 37) None)) after37
     = [respond (complete_call_ok "X" 37 (740 # 100) "server"
          (Some (mkFraud (Some 37) 37 0 false)))]
  /\ ~ (740 # 100 == inject_Z (ceilCoins 37 COIN_RATES_audio))%Q
  /\ users (exec (complete_call (mkCompleteCallReq "X" (Some 37) None)) after37)
     = users after37.
Proof.
  repeat split; try (vm_compute; reflexivity).
  vm_compute. discriminate.
Qed.

(** C1, amended.  For a call that has a server timer with duration [d] and
    rate [r], the charge is [ceil(d * r)], never below the exact product, on
    [/api/calls/complete], on the mid-call branch of the disconnect handler
    and on the heartbeat sweep; 37 s at 0.2 gives 8.  The legacy
    [/api/complete_call] endpoint instead reports [d * r] rounded to two
    decimals and requests no deduction. *)
Theorem timer_paths_charge_ceiling :
  forall (s : State) (callId : string) (x : Timer.t),
    JsMap.get callId (callTimers s) = Some x ->
    falsy callId = false ->
    Qeq_bool (Timer.coinRate x) 0 = false ->
    let d := Timer.durationSeconds x in
    let coins := ceilCoins d (Timer.coinRate x) in
    ceilCoins 37 COIN_RATES_audio = 8
    /\ (inject_Z d * Timer.coinRate x <= inject_Z coins)%Q
    /\ (forall req now, finalCallId req = callId ->
          exists newBalance,
            trace (calls_complete req now) s =
              [deductRequest (orStr (finalCallerId req) (Timer.callerId x))
                 coins callId;
               updateCallInFirestore callId
                 (mkUpdate "completed" (Some d) (Some (inject_Z coins))
                    (Some (endReasonOr (cp_endReason req))) (Some "server")
                    (fraudCheck d (cp_client_duration_seconds req)));
               respond (calls_complete_ok callId d (inject_Z coins) newBalance
                          "server"
                          (fraudCheck d (cp_client_duration_seconds req)))])
    /\ (forall userId call now,
          In (updateCallInFirestore callId (disconnectUpdate d coins))
             (trace (disconnect_call userId callId call now) s)
          /\ (falsy (Call.callerId call) = false -> 0 < coins ->
              In (deductRequest (Call.callerId call) coins callId)
                 (trace (disconnect_call userId callId call now) s)))
    /\ (forall now,
          Timer.lastHeartbeat x <> 0 ->
          now - Timer.lastHeartbeat x > HEARTBEAT_TIMEOUT_MS ->
          In (deductRequest (Timer.callerId x) coins callId)
             (trace (heartbeat_monitor now) s))
    /\ (forall req, cc_call_id req = callId ->
          trace (complete_call req) s =
            [respond (complete_call_ok callId d
               (toFixed2 (inject_Z d * Timer.coinRate x)) "server"
               (Some (mkFraud (cc_client_duration_seconds req) d
                        (Z.abs (d - orZero (cc_client_duration_seconds req)))
                        (Z.abs (d - orZero (cc_client_duration_seconds req))
                         >? 5))))]).
Proof.
  intros s callId x G F R d coins.
  split; [reflexivity|].
  split; [apply ceilCoins_bounds|].
  split; [|split; [|split]].
  - intros req now <-. apply calls_complete_trace; assumption.
  - intros userId call now.
    rewrite (disconnect_call_trace s userId callId call now x G).
    unfold coinRateOr. rewrite R. fold d. fold coins. split.
    + apply in_or_app. right. apply in_or_app. right. now left.
    + intros FC P. apply in_or_app. right. apply in_or_app. left.
      rewrite FC. apply Z.gtb_lt in P. rewrite P. now left.
  - intros now NZ ST. unfold trace, heartbeat_monitor. msimpl.
    apply forEach_out_intro with (a := (callId, x)).
    + now apply get_In.
    + intros s'.
      destruct (heartbeat_entry_stale_out now (callId, x) s' NZ ST) as [tl E].
      rewrite E. now left.
  - intros req <-. apply complete_call_trace; assumption.
Qed.

Lemma timer_paths_charge_ceiling_witness :
  JsMap.get "X" (callTimers after37) = Some timer37
  /\ exists newBalance,
       trace (calls_complete
                (mkCallsCompleteReq "X" "" "C" "" "R" "" None (Some 37) None)
                50000) after37
       = [deductRequest "C" 8 "X";
          updateCallInFirestore "X"
            (mkUpdate "completed" (Some 37) (Some (inject_Z 8))
               (Some "User ended call") (Some "server")
               (Some (mkFraud (Some 37) 37 0 false)));
          respond (calls_complete_ok "X" 37 (inject_Z 8) newBalance "server"
                     (Some (mkFraud (Some 37) 37 0 false)))].
Proof.
  split; [vm_compute; reflexivity|].
  destruct (timer_paths_charge_ceiling after37 "X" timer37)
    as (_ & _ & H & _); try (vm_compute; reflexivity).
  exact (H (mkCallsCompleteReq "X" "" "C" "" "R" "" None (Some 37) None) 50000
           eq_refl).
Defined.

(** ** C2: starting a timer that already exists *)

Lemma clearInterval_not_live h l :
  ~ In h (List.map fst
            (List.filter (fun e : nat * string => negb (Nat.eqb (fst e) h)) l)).
Proof.
  intros I. apply in_map_iff in I as ([h' c] & E & F). simpl in E. subst h'.
  apply filter_In in F as [_ F]. simpl in F. now rewrite Nat.eqb_refl in F.
Qed.

(** The accept path checks [callTimers.has(callId)] first: with a timer
    in place it changes nothing and emits nothing. *)
Lemma autoStartTimer_existing callId callerId recipientId call now s :
  JsMap.has callId (callTimers s) = true ->
  autoStartTimer callId callerId recipientId call now s = mkRes tt s [].
Proof.
  intros H. unfold autoStartTimer, bind, gets. cbn [val st out]. rewrite H.
  reflexivity.
Qed.

Lemma accept_call_keeps_existing_timer data socket now s :
  JsMap.has (d_callId data) (callTimers s) = true ->
  callTimers (exec (accept_call data socket now) s) = callTimers s
  /\ intervals (exec (accept_call data socket now) s) = intervals s.
Proof.
  intros H. unfold accept_call. msimpl.
  destruct (JsMap.get (d_callId data) (activeCalls s)) as [c|] eqn:G;
    msimpl; [|auto].
  destruct (negb (Call.recipientId c =? d_recipientId data)%string);
    msimpl; [auto|].
  rewrite G. msimpl.
  rewrite autoStartTimer_existing by (msimpl; exact H). msimpl.
  match goal with
  | |- context [JsMap.get ?k ?m] => destruct (JsMap.get k m)
  end; msimpl; auto.
Qed.

(** The two HTTP start paths have no such check: whatever [callTimers]
    held for the call is replaced by a fresh timer at zero, and the new
    interval is added to the live ones while the old one stays live. *)
Lemma start_call_tracking_replaces req now s :
  falsy (st_call_id req) || falsy (st_caller_id req)
    || falsy (st_recipient_id req) || falsy (st_call_type req) = false ->
  JsMap.get (st_call_id req) (callTimers (exec (start_call_tracking req now) s))
  = Some (newTimer (nextInterval s) now (st_caller_id req)
            (st_recipient_id req) (st_call_type req)
            (coinRateOf (st_call_type req)) false)
  /\ intervals (exec (start_call_tracking req now) s)
     = (intervals s ++ [(nextInterval s, st_call_id req)])%list.
Proof.
  intros V. unfold start_call_tracking. rewrite V. unfold setInterval. msimpl.
  split; [apply get_set_same | reflexivity].
Qed.

(** C2, the code at the failing input.  Three seconds into a tracked call
    the start request is repeated: the timer is back at zero with a new
    interval handle and start time, both intervals are live, and one more
    second advances the duration by two.  [/api/calls/start] behaves the
    same. *)
Theorem http_start_restarts_existing_timer :
  JsMap.get "X"
    (callTimers (exec (run (ev_start_call_tracking trackReq 1000 :: seconds 3))
                   initialState))
  = Some (Timer.mk 0 1000 3 "C" "R" "audio" COIN_RATES_audio 1000 false)
  /\ JsMap.get "X" (callTimers trackedTwice)
     = Some (Timer.mk 1 4000 0 "C" "R" "audio" COIN_RATES_audio 4000 false)
  /\ intervals trackedTwice = [(0%nat, "X"); (1%nat, "X")]
  /\ option_map Timer.durationSeconds
       (JsMap.get "X" (callTimers (exec second trackedTwice))) = Some 2
  /\ JsMap.get "X" (callTimers startedTwice)
     = Some (Timer.mk 1 4000 0 "C" "R" "audio" COIN_RATES_audio 4000 false)
  /\ intervals startedTwice = [(0%nat, "X"); (1%nat, "X")]
  /\ option_map Timer.durationSeconds
       (JsMap.get "X" (callTimers (exec second startedTwice))) = Some 2.
Proof. repeat split; vm_compute; reflexivity. Qed.

(** ** C3: completing a call twice *)

Lemma calls_complete_state s req now x :
  falsy (finalCallId req) = false ->
  JsMap.get (finalCallId req) (callTimers s) = Some x ->
  callTimers (exec (calls_complete req now) s)
  = JsMap.delete (finalCallId req) (callTimers s)
  /\ intervals (exec (calls_complete req now) s)
     = List.filter (fun e => negb (Nat.eqb (fst e) (Timer.interval x)))
         (intervals s)
  /\ activeCalls (exec (calls_complete req now) s) = activeCalls s.
Proof.
  intros F G. unfold calls_complete. rewrite F. msimpl. rewrite G. msimpl.
  rewrite deductUserCoins_st. msimpl. auto.
Qed.

Lemma calls_complete_missing s req now :
  falsy (finalCallId req) = false ->
  JsMap.get (finalCallId req) (callTimers s) = None ->
  exec (calls_complete req now) s = s
  /\ trace (calls_complete req now) s
     = match cp_client_duration_seconds req with
       | Some c =>
           [updateCallInFirestore (finalCallId req)
              (mkUpdate "completed" (Some c)
                 (Some (orZeroQ (cp_client_coins_deducted req)))
                 (Some (endReasonOr (cp_endReason req)))
                 (Some "client_fallback") None);
            respond (calls_complete_ok (finalCallId req) c
                       (orZeroQ (cp_client_coins_deducted req)) None
                       "client_fallback" None)]
       | None =>
           [respond (calls_complete_ok (finalCallId req) 0 0%Q None
                       "already_completed" None)]
       end.
Proof.
  intros F G. unfold calls_complete. rewrite F. msimpl. rewrite G.
  destruct (cp_client_duration_seconds req); msimpl; auto.
Qed.



(** ** C5: rejected initiations *)

Lemma resolveOffline_users rid loc s s' :
  users s' = users s -> resolveOffline rid loc s' = resolveOffline rid loc s.
Proof. intros E. unfold resolveOffline. now rewrite E. Qed.

Lemma resolveOffline_offline_cases rid a s :
  resolveOffline rid (mkInitiateLocals a false) s = StatusName.fcm_reachable
  \/ resolveOffline rid (mkInitiateLocals a false) s = StatusName.unavailable.
Proof.
  unfold resolveOffline; simpl.
  destruct (JsMap.get rid (users s)) as [d|]; [|now right].
  destruct (UserDoc.isAvailable d) as [[|]|]; simpl; try now right.
  destruct (UserDoc.fcmToken d) as [tok|]; simpl; [|now right].
  destruct (negb (falsy tok)); [now left | now right].
Qed.

(** The explicit busy/ringing check: rejection before anything else. *)
Lemma initiate_guard_busy s data socket now x :
  falsy (i_callerId data) || falsy (i_recipientId data) = false ->
  JsMap.get (i_recipientId data) (userStatus s) = Some x ->
  StatusName.eqb (UserStatus.status x) StatusName.busy
  || StatusName.eqb (UserStatus.status x) StatusName.ringing = true ->
  initiate_guard data socket now s
  = mkRes None s
      [emit socket
         (call_failed (failedCallId data now)
            (rejectionReason (UserStatus.status x))
            (Some (UserStatus.status x)) true)].
Proof.
  intros F G B. unfold initiate_guard. rewrite F.
  unfold bind, gets, when, tell, ret. cbn [val st out]. rewrite G.
  cbn [isSome negb]. rewrite andb_false_r, B. cbn [val st out app].
  f_equal. unfold rejectionReason.
  destruct (UserStatus.status x); try discriminate B; reflexivity.
Qed.

(** A cached status that is neither busy nor ringing: the guard passes
    its locals on and leaves the state alone. *)
Lemma initiate_guard_cached s data socket now x :
  falsy (i_callerId data) || falsy (i_recipientId data) = false ->
  JsMap.get (i_recipientId data) (userStatus s) = Some x ->
  StatusName.eqb (UserStatus.status x) StatusName.busy
  || StatusName.eqb (UserStatus.status x) StatusName.ringing = false ->
  initiate_guard data socket now s
  = mkRes
      (Some (mkInitiateLocals
               (if hasLiveSocket (i_recipientId data) s
                then UserStatus.status x else StatusName.unavailable)
               (hasLiveSocket (i_recipientId data) s)))
      s [].
Proof.
  intros F G B. unfold initiate_guard. rewrite F.
  unfold bind, gets, when, tell, ret. cbn [val st out]. rewrite G.
  cbn [isSome negb]. rewrite andb_false_r, B. reflexivity.
Qed.

(** No cached status and no live socket. *)
Lemma initiate_guard_offline s data socket now :
  falsy (i_callerId data) || falsy (i_recipientId data) = false ->
  JsMap.get (i_recipientId data) (userStatus s) = None ->
  hasLiveSocket (i_recipientId data) s = false ->
  initiate_guard data socket now s
  = mkRes (Some (mkInitiateLocals StatusName.unavailable false)) s [].
Proof.
  intros F G L. unfold initiate_guard. rewrite F.
  unfold bind, gets, when, tell, ret. cbn [val st out]. rewrite G, L.
  reflexivity.
Qed.

(** The availability check after the look-ups. *)
Lemma initiate_resume_reject s data socket now fcmSent loc :
  resolveOffline (i_recipientId data) loc s <> StatusName.available ->
  resolveOffline (i_recipientId data) loc s <> StatusName.fcm_reachable ->
  initiate_resume data socket now fcmSent loc s
  = mkRes None s
      [emit socket
         (call_failed (failedCallId data now)
            ("Recipient is currently "
             ++ StatusName.to_string (resolveOffline (i_recipientId data) loc s))
            (Some (resolveOffline (i_recipientId data) loc s)) false)].
Proof.
  intros NA NF. unfold initiate_resume.
  unfold bind at 1. unfold gets. cbv beta zeta. cbn [val st out].
  set (rs := resolveOffline (i_recipientId data) loc s) in *.
  assert (T : negb (StatusName.eqb rs StatusName.available)
              && negb (StatusName.eqb rs StatusName.fcm_reachable) = true)
    by (destruct rs; simpl; congruence).
  rewrite T. reflexivity.
Qed.

Lemma resolveOffline_not_busy rid a s :
  rejectionIsBusy (resolveOffline rid (mkInitiateLocals a false) s) = false
  /\ rejectionReason (resolveOffline rid (mkInitiateLocals a false) s)
     = "Recipient is currently "
       ++ StatusName.to_string
            (resolveOffline rid (mkInitiateLocals a false) s).
Proof.
  destruct (resolveOffline_offline_cases rid a s) as [E|E]; rewrite E;
    split; reflexivity.
Qed.

(** C5.  An [initiate_call] with both ids present whose recipient resolves
    to a status other than [available] (and other than [fcm_reachable], the
    push-notification case in which the call goes ahead) is answered with
    one [call_failed] carrying that status as [recipient_status]; no call
    object is created and the state is left exactly as it was. *)
Theorem initiate_call_rejects_unavailable_recipient :
  forall (s : State) (data : InitiateData) (socket : string) (now : Z)
         (fcmSent : bool),
    falsy (i_callerId data) = false ->
    falsy (i_recipientId data) = false ->
    let rs := resolvedStatus (i_recipientId data) s in
    rs <> StatusName.available ->
    rs <> StatusName.fcm_reachable ->
    let r := initiate_call data socket now fcmSent s in
    out r = [emit socket
               (call_failed (failedCallId data now) (rejectionReason rs)
                  (Some rs) (rejectionIsBusy rs))]
    /\ activeCalls (st r) = activeCalls s
    /\ st r = s
    /\ val r = None.
Proof.
  intros s data socket now fcmSent FC FR rs NA NF r.
  assert (F : falsy (i_callerId data) || falsy (i_recipientId data) = false)
    by now rewrite FC, FR.
  subst r. unfold initiate_call, bind.
  subst rs. unfold resolvedStatus in *.
  destruct (JsMap.get (i_recipientId data) (userStatus s)) as [x|] eqn:G.
  - destruct (StatusName.eqb (UserStatus.status x) StatusName.busy
              || StatusName.eqb (UserStatus.status x) StatusName.ringing) eqn:B.
    + rewrite (initiate_guard_busy s data socket now x F G B).
      cbn [val st out app]. unfold rejectionIsBusy. rewrite B. auto.
    + rewrite (initiate_guard_cached s data socket now x F G B).
      cbn [val st out app].
      rewrite (initiate_resume_reject _ _ _ _ _ _ NA NF).
      cbn [val st out app].
      set (rs := resolveOffline _ _ s) in *.
      assert (NB : rejectionIsBusy rs = false
                   /\ rejectionReason rs
                      = "Recipient is currently " ++ StatusName.to_string rs).
      { subst rs. destruct (hasLiveSocket (i_recipientId data) s).
        - unfold resolveOffline in *. cbn [l_hasConnection l_actualStatus] in *.
          destruct (UserStatus.status x); try discriminate B;
            try congruence; split; reflexivity.
        - apply resolveOffline_not_busy. }
      destruct NB as [E1 E2]. rewrite E1, E2. auto.
  - destruct (hasLiveSocket (i_recipientId data) s) eqn:L.
    + exfalso. apply NA. reflexivity.
    + rewrite (initiate_guard_offline s data socket now F G L).
      cbn [val st out app].
      rewrite (initiate_resume_reject _ _ _ _ _ _ NA NF).
      cbn [val st out app].
      destruct (resolveOffline_not_busy (i_recipientId data)
                  StatusName.unavailable s) as [E1 E2].
      rewrite E1, E2. auto.
Qed.

Lemma initiate_call_rejects_unavailable_recipient_witness :
  resolvedStatus "R" busyR = StatusName.busy
  /\ out (initiate_call callFromD sock_D 4000 true busyR)
     = [emit sock_D
          (call_failed "Y" "User is busy on another call"
             (Some StatusName.busy) true)]
  /\ activeCalls (st (initiate_call callFromD sock_D 4000 true busyR))
     = activeCalls busyR.
Proof.
  assert (E : resolvedStatus "R" busyR = StatusName.busy)
    by (vm_compute; reflexivity).
  split; [exact E|].
  pose proof (initiate_call_rejects_unavailable_recipient busyR callFromD
                sock_D 4000 true eq_refl eq_refl) as H.
  cbv zeta in H. change (i_recipientId callFromD) with "R" in H.
  rewrite E in H.
  specialize (H ltac:(discriminate) ltac:(discriminate)).
  destruct H as (O & A & _). split; [exact O | exact A].
Defined.

(** ** C4: what guards a recipient against a second initiation *)

Lemma preserves_ret {X A} (f : State -> X) (a : A) : preserves f (ret a).
Proof. intros s. reflexivity. Qed.

Lemma preserves_gets {X A} (f : State -> X) (g : State -> A) :
  preserves f (gets g).
Proof. intros s. reflexivity. Qed.

Lemma preserves_tell {X} (f : State -> X) e : preserves f (tell e).
Proof. intros s. reflexivity. Qed.

Lemma preserves_modify {X} (f : State -> X) g :
  (forall s, f (g s) = f s) -> preserves f (modify g).
Proof. intros H s. apply H. Qed.

Lemma preserves_bind {X A B} (f : State -> X) (m : M A) (k : A -> M B) :
  preserves f m -> (forall a, preserves f (k a)) -> preserves f (bind m k).
Proof.
  intros Hm Hk s. unfold bind. cbn [st]. now rewrite Hk, Hm.
Qed.

Lemma preserves_when {X} (f : State -> X) b m :
  preserves f m -> preserves f (when b m).
Proof. intros H. destruct b; [exact H | apply preserves_ret]. Qed.

Lemma preserves_forEach {X A} (f : State -> X) (l : list A) body :
  (forall a, preserves f (body a)) -> preserves f (forEach l body).
Proof.
  intros H. induction l as [|a l IH]; simpl.
  - apply preserves_ret.
  - apply preserves_bind; auto.
Qed.

Lemma preserves_setInterval {X} (f : State -> X) callId :
  (forall l n s, f (with_intervals l n s) = f s) ->
  preserves f (setInterval callId).
Proof. intros H s. unfold setInterval. cbn [st]. apply H. Qed.

Lemma emits_ret {A} P (a : A) : emits P (ret a).
Proof. intros s e []. Qed.

Lemma emits_gets {A} P (g : State -> A) : emits P (gets g).
Proof. intros s e []. Qed.

Lemma emits_modify P g : emits P (modify g).
Proof. intros s e []. Qed.

Lemma emits_setInterval P callId : emits P (setInterval callId).
Proof. intros s e []. Qed.

Lemma emits_tell (P : Effect -> Prop) e : P e -> emits P (tell e).
Proof. intros H s e' [<-|[]]. exact H. Qed.

Lemma emits_bind {A B} P (m : M A) (k : A -> M B) :
  emits P m -> (forall a, emits P (k a)) -> emits P (bind m k).
Proof.
  intros Hm Hk s e I. unfold bind in I. cbn [out] in I.
  apply in_app_or in I as [I|I]; [eapply Hm | eapply Hk]; eassumption.
Qed.

Lemma emits_when P b m : emits P m -> emits P (when b m).
Proof. intros H. destruct b; [exact H | apply emits_ret]. Qed.

Lemma emits_forEach {A} P (l : list A) body :
  (forall a, emits P (body a)) -> emits P (forEach l body).
Proof.
  intros H. induction l as [|a l IH]; simpl.
  - apply emits_ret.
  - apply emits_bind; auto.
Qed.

Ltac break_match :=
  match goal with
  | |- context [match ?x with _ => _ end] => destruct x eqn:?
  end.

Ltac unfold_wrappers :=
  unfold respond_, setUserStatusSync, setConnectedUserSync, setActiveCallSync,
    completeCallSync, deleteActiveCallSync, mutateCall, setTimer, deleteTimer,
    clearInterval, dropSocket, onInterval, deductUserCoins, getUserBalance.

(** Structural proof of a [preserves] goal. *)
Ltac frame :=
  unfold_wrappers;
  repeat first
    [ apply preserves_ret
    | apply preserves_gets
    | apply preserves_tell
    | apply preserves_bind; [ | intros ? ]
    | apply preserves_when
    | apply preserves_forEach; intros ?
    | apply preserves_setInterval; intros ? ? ?; reflexivity
    | apply preserves_modify; intros ?;
      first [ reflexivity | break_match; reflexivity ]
    | match goal with
      | |- preserves _ (match ?x with _ => _ end) => destruct x
      | |- preserves _ (let _ := _ in _) => cbv zeta
      end ].

(** Structural proof of an [emits] goal; leaves the [P e] obligations. *)
Ltac emits_frame :=
  unfold_wrappers;
  repeat first
    [ apply emits_ret
    | apply emits_gets
    | apply emits_modify
    | apply emits_setInterval
    | apply emits_bind; [ | intros ? ]
    | apply emits_when
    | apply emits_forEach; intros ?
    | apply emits_tell
    | match goal with
      | |- emits _ (match ?x with _ => _ end) => destruct x
      | |- emits _ (let _ := _ in _) => cbv zeta
      end ].

(** No path of [initiate_call] touches the lock keys. *)
Lemma initiate_call_no_lock data socket now fcmSent :
  preserves callLocks (initiate_call data socket now fcmSent).
Proof.
  unfold initiate_call, initiate_guard, initiate_resume, initiate_push.
  frame.
Qed.

(** C4, counterexample.  An [initiate_call] puts R into [ringing] while no
    lock key for R exists, before or after; and when a second initiation
    arrives during the first one's Firestore look-up, both pass the status
    check and both reach [ringing] at R. *)
Lemma initiate_rings_without_lock :
  JsMap.get "R" (userStatus (st (initiate_call audioCall sock_C 2000 true lobby)))
  = Some (statusObj StatusName.ringing (Some "X") 2000)
  /\ getCallLockHolder "R" 2000 lobby = None
  /\ getCallLockHolder "R" 2000
       (st (initiate_call audioCall sock_C 2000 true lobby)) = None
  /\ val (initiate_overlapped callA sock_C 2000 callB sock_D 2001 lobby3)
     = (Some (ringTimeout 30000 (mkRingTimeout "XA" "R" sock_R sock_C)),
        Some (ringTimeout 30000 (mkRingTimeout "XB" "R" sock_R sock_D)))
  /\ List.map (fun e => (fst e, Call.status (snd e)))
       (activeCalls
          (st (initiate_overlapped callA sock_C 2000 callB sock_D 2001 lobby3)))
     = [("XA", CallStatus.ringing); ("XB", CallStatus.ringing)].
Proof. repeat split; vm_compute; reflexivity. Qed.

(** An initiation that arms the 30-second ring timeout has put its
    recipient into [ringing]. *)
Lemma initiate_resume_rings data socket now fcmSent loc s d t :
  val (initiate_resume data socket now fcmSent loc s) = Some (ringTimeout d t) ->
  JsMap.get (i_recipientId data)
    (userStatus (st (initiate_resume data socket now fcmSent loc s)))
  = Some (statusObj StatusName.ringing (Some (rt_callId t)) now).
Proof.
  unfold initiate_resume, initiate_push. msimpl.
  destruct (negb (StatusName.eqb (resolveOffline (i_recipientId data) loc s)
                    StatusName.available)
            && negb (StatusName.eqb (resolveOffline (i_recipientId data) loc s)
                       StatusName.fcm_reachable)); msimpl; [discriminate|].
  destruct (JsMap.get (i_recipientId data) (connectedUsers s)) as [c|]; msimpl.
  - destruct (Conn.isOnline c); msimpl.
    + intros [= <- <-]. cbn [rt_callId]. rewrite get_set_same. msimpl.
      apply get_set_same.
    + destruct (StatusName.eqb _ StatusName.fcm_reachable); msimpl;
        [destruct fcmSent; msimpl|]; discriminate.
  - destruct (StatusName.eqb _ StatusName.fcm_reachable); msimpl;
      [destruct fcmSent; msimpl|]; discriminate.
Qed.

Lemma initiate_call_rings data socket now fcmSent s d t :
  val (initiate_call data socket now fcmSent s) = Some (ringTimeout d t) ->
  falsy (i_callerId data) || falsy (i_recipientId data) = false
  /\ JsMap.get (i_recipientId data)
       (userStatus (st (initiate_call data socket now fcmSent s)))
     = Some (statusObj StatusName.ringing (Some (rt_callId t)) now).
Proof.
  unfold initiate_call, bind. cbn [val st].
  destruct (val (initiate_guard data socket now s)) as [l|] eqn:G.
  - intros V. split; [|now apply initiate_resume_rings with (d := d)].
    destruct (falsy (i_callerId data) || falsy (i_recipientId data)) eqn:F;
      [|reflexivity].
    unfold initiate_guard in G. rewrite F in G. discriminate G.
  - discriminate.
Qed.

(** C4, amended.  [initiate_call] acquires no lock: the lock keys are the
    same after it as before.  What protects a recipient is the in-memory
    status check: once an initiation, handled to completion, has put the
    recipient into [ringing] (it armed the 30-second ring timeout), a later
    initiation at the same recipient is rejected with [recipient_status]
    [ringing] and changes nothing. *)
Theorem initiate_call_guarded_by_status_not_lock :
  forall (s : State) (data1 data2 : InitiateData) (socket1 socket2 : string)
         (now1 now2 : Z) (fcm1 fcm2 : bool) (d : Z) (t : RingTimeout),
    val (initiate_call data1 socket1 now1 fcm1 s) = Some (ringTimeout d t) ->
    i_recipientId data2 = i_recipientId data1 ->
    falsy (i_callerId data2) = false ->
    let s1 := st (initiate_call data1 socket1 now1 fcm1 s) in
    let r2 := initiate_call data2 socket2 now2 fcm2 s1 in
    callLocks s1 = callLocks s
    /\ JsMap.get (i_recipientId data1) (userStatus s1)
       = Some (statusObj StatusName.ringing (Some (rt_callId t)) now1)
    /\ out r2 = [emit socket2
                   (call_failed (failedCallId data2 now2)
                      "User is receiving another call"
                      (Some StatusName.ringing) true)]
    /\ val r2 = None
    /\ st r2 = s1.
Proof.
  intros s data1 data2 socket1 socket2 now1 now2 fcm1 fcm2 d t V E FC s1 r2.
  destruct (initiate_call_rings _ _ _ _ _ _ _ V) as [F1 R]. fold s1 in R.
  split; [apply initiate_call_no_lock|]. split; [exact R|].
  assert (F2 : falsy (i_callerId data2) || falsy (i_recipientId data2) = false).
  { rewrite FC, E. apply orb_false_iff in F1 as [_ ->]. reflexivity. }
  rewrite <- E in R.
  pose proof (initiate_guard_busy s1 data2 socket2 now2 _ F2 R eq_refl) as G.
  subst r2. unfold initiate_call, bind. rewrite G. cbn [val st out app].
  auto.
Qed.

Lemma initiate_call_guarded_by_status_not_lock_witness :
  val (initiate_call audioCall sock_C 2000 true lobby3)
  = Some (ringTimeout 30000 (mkRingTimeout "X" "R" sock_R sock_C))
  /\ out (initiate_call callB sock_D 2500 true
            (st (initiate_call audioCall sock_C 2000 true lobby3)))
     = [emit sock_D
          (call_failed "XB" "User is receiving another call"
             (Some StatusName.ringing) true)].
Proof.
  assert (V : val (initiate_call audioCall sock_C 2000 true lobby3)
              = Some (ringTimeout 30000 (mkRingTimeout "X" "R" sock_R sock_C)))
    by (vm_compute; reflexivity).
  split; [exact V|].
  pose proof (initiate_call_guarded_by_status_not_lock lobby3 audioCall callB
                sock_C sock_D 2000 2500 true true _ _ V eq_refl eq_refl) as H.
  cbv zeta in H. destruct H as (_ & _ & O & _). exact O.
Defined.

(** ** The lock primitive of the scalability module *)

(** While a holder's key is live, a second [acquireCallLock] for the same
    recipient is denied and changes nothing. *)
Lemma acquireCallLock_exclusive r c1 c2 ttl ttl' now now' s :
  val (acquireCallLock r c1 ttl now s) = true ->
  now' < now + ttl * 1000 ->
  let s1 := st (acquireCallLock r c1 ttl now s) in
  val (acquireCallLock r c2 ttl' now' s1) = false
  /\ st (acquireCallLock r c2 ttl' now' s1) = s1
  /\ getCallLockHolder r now' s1 = Some c1.
Proof.
  intros V L s1. subst s1. unfold acquireCallLock in *. msimpl.
  destruct (liveLock now r s) as [l|] eqn:E; msimpl; [discriminate|].
  unfold getCallLockHolder, liveLock. msimpl. rewrite get_set_same.
  cbn [Lock.expiresAt Lock.holder].
  apply Z.ltb_lt in L. rewrite L. msimpl. auto.
Qed.


(** ** C6: the client-reported duration *)

(** C6, counterexample.  A completion that carries a client-reported
    duration but finds no server timer: no difference is computed and no
    flag is set ([fraudDetection] is absent), and the figures written to
    the call record and returned are the client's 100 s and 20 coins,
    although the server had measured 37 s. *)
Lemma client_fallback_skips_fraud_check :
  option_map Timer.durationSeconds (JsMap.get "X" (callTimers after37))
  = Some 37
  /\ JsMap.get "X" (callTimers completedOnce) = None
  /\ trace (calls_complete clientClaim 51000) completedOnce
     = [updateCallInFirestore "X"
          (mkUpdate "completed" (Some 100) (Some (20 # 1))
             (Some "User ended call") (Some "client_fallback") None);
        respond (calls_complete_ok "X" 100 (20 # 1) None "client_fallback"
                   None)].
Proof. repeat split; vm_compute; reflexivity. Qed.

Lemma calls_complete_ignores_client_duration s req now c' :
  exec (calls_complete (withClientDuration c' req) now) s
  = exec (calls_complete req now) s.
Proof.
  unfold exec, calls_complete.
  change (finalCallId (withClientDuration c' req)) with (finalCallId req).
  change (finalCallerId (withClientDuration c' req)) with (finalCallerId req).
  destruct (falsy (finalCallId req)); [reflexivity|]. msimpl.
  destruct (JsMap.get (finalCallId req) (callTimers s)) as [x|]; msimpl.
  - reflexivity.
  - destruct c'; destruct (cp_client_duration_seconds req); reflexivity.
Qed.

(** C6, amended.  When a client-reported duration [c] accompanies a
    completion through [/api/calls/complete] and the call's server timer
    exists, the server computes [|d - c|] and sets [isSuspicious] exactly
    when it exceeds 5; the amount requested from the ledger is
    [ceil(d * rate)] from the server's [d], the completion goes through,
    and neither the resulting state nor the amount depends on what the
    client reported.  When no server timer exists, nothing is compared or
    flagged, nothing is deducted, and the client's figures are recorded with
    [billingSource = client_fallback]. *)
Theorem fraud_flag_is_advisory :
  forall (s : State) (req : CallsCompleteReq) (now c : Z) (x : Timer.t),
    falsy (finalCallId req) = false ->
    JsMap.get (finalCallId req) (callTimers s) = Some x ->
    cp_client_duration_seconds req = Some c ->
    let cid := finalCallId req in
    let d := Timer.durationSeconds x in
    let coins := ceilCoins d (Timer.coinRate x) in
    let payer := orStr (finalCallerId req) (Timer.callerId x) in
    let flag := mkFraud (Some c) d (Z.abs (d - c)) (Z.abs (d - c) >? 5) in
    (isSuspicious flag = true <-> Z.abs (d - c) > 5)
    /\ (exists newBalance,
          trace (calls_complete req now) s
          = [deductRequest payer coins cid;
             updateCallInFirestore cid
               (mkUpdate "completed" (Some d) (Some (inject_Z coins))
                  (Some (endReasonOr (cp_endReason req))) (Some "server")
                  (Some flag));
             respond (calls_complete_ok cid d (inject_Z coins) newBalance
                        "server" (Some flag))])
    /\ (forall c',
          exec (calls_complete (withClientDuration c' req) now) s
          = exec (calls_complete req now) s
          /\ In (deductRequest payer coins cid)
                (trace (calls_complete (withClientDuration c' req) now) s))
    /\ JsMap.get cid (callTimers (exec (calls_complete req now) s)) = None
    /\ (forall s',
          JsMap.get cid (callTimers s') = None ->
          exec (calls_complete req now) s' = s'
          /\ trace (calls_complete req now) s'
             = [updateCallInFirestore cid
                  (mkUpdate "completed" (Some c)
                     (Some (orZeroQ (cp_client_coins_deducted req)))
                     (Some (endReasonOr (cp_endReason req)))
                     (Some "client_fallback") None);
                respond (calls_complete_ok cid c
                           (orZeroQ (cp_client_coins_deducted req)) None
                           "client_fallback" None)]).
Proof.
  intros s req now c x F G C cid d coins payer flag.
  split.
  { subst flag. cbn [isSuspicious]. rewrite Z.gtb_lt. lia. }
  split.
  { destruct (calls_complete_trace s req now x F G) as [nb T].
    exists nb. rewrite T. unfold fraudCheck. rewrite C. reflexivity. }
  split.
  { intros c'. split; [apply calls_complete_ignores_client_duration|].
    destruct (calls_complete_trace s (withClientDuration c' req) now x F G)
      as [nb T].
    rewrite T. now left. }
  split.
  { destruct (calls_complete_state s req now x F G) as (CT & _).
    rewrite CT. apply get_delete_same. }
  intros s' N.
  destruct (calls_complete_missing s' req now F N) as [S T].
  rewrite C in T. auto.
Qed.

Lemma fraud_flag_is_advisory_witness :
  JsMap.get "X" (callTimers after37) = Some timer37
  /\ exists newBalance,
       trace (calls_complete clientClaim 50000) after37
       = [deductRequest "C" 8 "X";
          updateCallInFirestore "X"
            (mkUpdate "completed" (Some 37) (Some (inject_Z 8))
               (Some "User ended call") (Some "server")
               (Some (mkFraud (Some 100) 37 63 true)));
          respond (calls_complete_ok "X" 37 (inject_Z 8) newBalance "server"
                     (Some (mkFraud (Some 100) 37 63 true)))].
Proof.
  assert (G : JsMap.get "X" (callTimers after37) = Some timer37)
    by (vm_compute; reflexivity).
  split; [exact G|].
  pose proof (fraud_flag_is_advisory after37 clientClaim 50000 100 timer37
                eq_refl G eq_refl) as H.
  cbv zeta in H. destruct H as (_ & T & _). exact T.
Defined.

(** ** C8: when an accept takes effect *)












(** ** C7: a connection lost in the middle of a call *)

Lemma disconnect_notify_resets userId callId ps now p :
  In p ps -> p <> userId ->
  forall s,
    JsMap.get p (userStatus (st (disconnect_notify userId callId ps now s)))
    = Some (statusObj StatusName.available None now).
Proof.
  intros I N. unfold disconnect_notify.
  set (body := fun participantId : string => when _ _).
  assert (A : forall s, JsMap.get p (userStatus (st (body p s)))
                        = Some (statusObj StatusName.available None now)).
  { intros s. subst body. cbv beta. apply String.eqb_neq in N. rewrite N.
    msimpl. destruct (JsMap.get p (connectedUsers s)) as [k|]; msimpl.
    - destruct (Conn.isOnline k); msimpl; apply get_set_same.
    - apply get_set_same. }
  assert (B : forall q s,
            JsMap.get p (userStatus s)
            = Some (statusObj StatusName.available None now) ->
            JsMap.get p (userStatus (st (body q s)))
            = Some (statusObj StatusName.available None now)).
  { intros q s H. subst body. cbv beta.
    destruct (negb (q =? userId)%string); msimpl; [|exact H].
    assert (S : JsMap.get p
                  (JsMap.set q (statusObj StatusName.available None now)
                     (userStatus s))
                = Some (statusObj StatusName.available None now)).
    { destruct (String.eqb_spec p q) as [->|D].
      - apply get_set_same.
      - now rewrite get_set_other. }
    destruct (JsMap.get q (connectedUsers s)) as [k|]; msimpl.
    - destruct (Conn.isOnline k); msimpl; exact S.
    - exact S. }
  induction ps as [|a ps IH]; [contradiction|].
  intros s. simpl. unfold bind. cbn [st].
  destruct I as [->|I].
  - apply (forEach_st_inv
             (fun s' => JsMap.get p (userStatus s')
                        = Some (statusObj StatusName.available None now))).
    + intros q s' _. apply B.
    + apply A.
  - apply IH. exact I.
Qed.

Lemma disconnect_notify_connectedUsers userId callId ps now :
  preserves connectedUsers (disconnect_notify userId callId ps now).
Proof. unfold disconnect_notify. frame. Qed.

Lemma disconnect_notify_tells userId callId ps now p k :
  In p ps -> p <> userId ->
  forall s,
    JsMap.get p (connectedUsers s) = Some k -> Conn.isOnline k = true ->
    In (emit (Conn.socketId k)
          (participant_disconnected callId userId "User connection lost"))
       (out (disconnect_notify userId callId ps now s)).
Proof.
  intros I N. induction ps as [|a ps IH]; [contradiction|].
  intros s G O. unfold disconnect_notify in *. simpl. unfold bind at 1.
  cbn [out]. apply in_or_app. destruct I as [->|I].
  - left. apply String.eqb_neq in N. rewrite N. msimpl. rewrite G. msimpl.
    rewrite O. msimpl. now left.
  - right. apply IH; auto.
    match goal with
    | |- JsMap.get p (connectedUsers (st (?m s))) = _ =>
        assert (P : preserves connectedUsers m) by frame; now rewrite P
    end.
Qed.

Lemma disconnect_call_state s userId callId call now x :
  JsMap.get callId (callTimers s) = Some x ->
  let s' := exec (disconnect_call userId callId call now) s in
  callTimers s' = JsMap.delete callId (callTimers s)
  /\ intervals s'
     = List.filter (fun e => negb (Nat.eqb (fst e) (Timer.interval x)))
         (intervals s)
  /\ activeCalls s' = JsMap.delete callId (activeCalls s)
  /\ userStatus s'
     = userStatus
         (st (disconnect_notify userId callId (Call.participants call) now s)).
Proof.
  intros G s'. subst s'. unfold disconnect_call. msimpl.
  rewrite disconnect_notify_frame. msimpl. rewrite G.
  unfold disconnect_bill. msimpl. unfold when.
  destruct (negb (falsy (Call.callerId call)) && _); msimpl.
  - rewrite deductUserCoins_st. msimpl. auto.
  - auto.
Qed.

Lemma disconnect_mid_call_unfold s socket now userId user us callId call :
  List.find (fun e => String.eqb (Conn.socketId (snd e)) socket)
    (JsMap.entries (connectedUsers s)) = Some (userId, user) ->
  JsMap.get userId (userStatus s) = Some us ->
  UserStatus.currentCallId us = Some callId ->
  falsy callId = false ->
  JsMap.get callId (activeCalls s) = Some call ->
  disconnect socket now s
  = (disconnect_call userId callId call now ;;
     disconnect_tail userId user now) (afterDrop socket userId user s).
Proof.
  intros F U C N A. unfold disconnect, disconnect_user, disconnect_tail.
  unfold dropSocket, afterDrop. unfold bind, gets, modify, when.
  cbn [val st out with_sockets with_connectedUsers connectedUsers userStatus
       activeCalls app].
  rewrite F. cbn [val st out with_sockets with_connectedUsers connectedUsers
                  userStatus activeCalls app].
  rewrite U, C, N. cbn [negb val st out with_sockets with_connectedUsers
                        connectedUsers userStatus activeCalls app].
  rewrite A. reflexivity.
Qed.

Lemma disconnect_tail_frame userId user now s :
  userStatus (st (disconnect_tail userId user now s))
  = JsMap.set userId (statusObj StatusName.disconnected None now)
      (userStatus s)
  /\ callTimers (st (disconnect_tail userId user now s)) = callTimers s
  /\ intervals (st (disconnect_tail userId user now s)) = intervals s
  /\ activeCalls (st (disconnect_tail userId user now s)) = activeCalls s.
Proof.
  unfold disconnect_tail. msimpl.
  destruct (orStr (Conn.userType user) "unknown" =? "female")%string;
    msimpl; auto.
Qed.

(** C7, amended.  A socket drops; its user has [currentCallId] set to a
    call that is in [activeCalls] and has a server timer at duration [d].
    The handler stops that timer's interval and removes the timer and the
    session, records the call as [disconnected] with [endReason]
    [connection_lost], duration [d] and [ceil(d * rate)] coins, and
    requests that amount from the session's caller when it is positive.
    Every other participant is reset to [available] and, if online, is
    sent [participant_disconnected]; the user whose socket dropped is left
    in status [disconnected]. *)
Theorem disconnect_mid_call_bills_and_resets_peers :
  forall (s : State) (socket : string) (now : Z) (userId : string)
         (user : Conn.t) (us : UserStatus.t) (callId : string)
         (call : Call.t) (x : Timer.t),
    List.find (fun e => String.eqb (Conn.socketId (snd e)) socket)
      (JsMap.entries (connectedUsers s)) = Some (userId, user) ->
    JsMap.get userId (userStatus s) = Some us ->
    UserStatus.currentCallId us = Some callId ->
    falsy callId = false ->
    JsMap.get callId (activeCalls s) = Some call ->
    JsMap.get callId (callTimers s) = Some x ->
    Qeq_bool (Timer.coinRate x) 0 = false ->
    let r := disconnect socket now s in
    let d := Timer.durationSeconds x in
    let coins := ceilCoins d (Timer.coinRate x) in
    JsMap.get callId (callTimers (st r)) = None
    /\ ~ In (Timer.interval x) (List.map fst (intervals (st r)))
    /\ JsMap.get callId (activeCalls (st r)) = None
    /\ In (updateCallInFirestore callId (disconnectUpdate d coins)) (out r)
    /\ (falsy (Call.callerId call) = false -> 0 < coins ->
        In (deductRequest (Call.callerId call) coins callId) (out r))
    /\ JsMap.get userId (userStatus (st r))
       = Some (statusObj StatusName.disconnected None now)
    /\ (forall p, In p (Call.participants call) -> p <> userId ->
          JsMap.get p (userStatus (st r))
          = Some (statusObj StatusName.available None now))
    /\ (forall p k, In p (Call.participants call) -> p <> userId ->
          JsMap.get p (connectedUsers s) = Some k -> Conn.isOnline k = true ->
          In (emit (Conn.socketId k)
                (participant_disconnected callId userId
                   "User connection lost"))
             (out r)).
Proof.
  intros s socket now userId user us callId call x F U C N A G R r d coins.
  subst r. rewrite (disconnect_mid_call_unfold s socket now userId user us
                      callId call F U C N A).
  set (s1 := afterDrop socket userId user s).
  assert (G1 : JsMap.get callId (callTimers s1) = Some x) by exact G.
  destruct (disconnect_call_state s1 userId callId call now x G1)
    as (CT & IV & AC & US).
  pose proof (disconnect_call_trace s1 userId callId call now x G1) as T.
  unfold coinRateOr in T. rewrite R in T. cbv zeta in T. fold d coins in T.
  unfold exec in CT, IV, AC, US. unfold trace in T.
  unfold bind. cbn [st out].
  set (r1 := disconnect_call userId callId call now s1) in *.
  destruct (disconnect_tail_frame userId user now (st r1))
    as (TU & TT & TI & TA).
  rewrite TT, TI, TA, TU, CT, IV, AC, US, T.
  split; [apply get_delete_same|].
  split; [apply clearInterval_not_live|].
  split; [apply get_delete_same|].
  split.
  { apply in_or_app. left. apply in_or_app. right. apply in_or_app. right.
    now left. }
  split.
  { intros FC P. apply in_or_app. left. apply in_or_app. right.
    apply in_or_app. left. rewrite FC. apply Z.gtb_lt in P. rewrite P.
    now left. }
  split; [apply get_set_same|].
  split.
  { intros p I D. rewrite get_set_other by exact D.
    now apply disconnect_notify_resets. }
  intros p k I D K O. apply in_or_app. left. apply in_or_app. left.
  apply disconnect_notify_tells with (p := p); auto.
  unfold s1, afterDrop. cbn [connectedUsers with_connectedUsers].
  now rewrite get_set_other.
Qed.

(** C7, counterexample.  R's socket drops 40 s into the call.  The timer
    stops at 40, C is charged 8 and is reset to [available], but R ends in
    status [disconnected], not [available], and the only message C receives
    is [participant_disconnected]: no [call_ended] is emitted. *)
Lemma disconnect_leaves_peer_status_disconnected :
  trace (disconnect sock_R 50000) after40
  = [emit sock_C (participant_disconnected "X" "R" "User connection lost");
     deductRequest "C" 8 "X";
     updateCallInFirestore "X" (disconnectUpdate 40 8);
     broadcast (user_disconnected "R");
     broadcast (user_status_changed "R")]
  /\ JsMap.get "R" (userStatus (exec (disconnect sock_R 50000) after40))
     = Some (statusObj StatusName.disconnected None 50000)
  /\ JsMap.get "C" (userStatus (exec (disconnect sock_R 50000) after40))
     = Some (statusObj StatusName.available None 50000)
  /\ val (getUserBalance "C" (exec (disconnect sock_R 50000) after40))
     = Some 192.
Proof. repeat split; vm_compute; reflexivity. Qed.

Lemma disconnect_mid_call_bills_and_resets_peers_witness :
  JsMap.get "X" (callTimers after40)
  = Some (Timer.mk 0 3000 40 "C" "R" "audio" COIN_RATES_audio 3000 true)
  /\ JsMap.get "C" (userStatus (st (disconnect sock_R 50000 after40)))
     = Some (statusObj StatusName.available None 50000)
  /\ In (deductRequest "C" 8 "X") (out (disconnect sock_R 50000 after40)).
Proof.
  assert (G : JsMap.get "X" (callTimers after40)
              = Some (Timer.mk 0 3000 40 "C" "R" "audio" COIN_RATES_audio
                        3000 true)) by (vm_compute; reflexivity).
  split; [exact G|].
  pose proof (disconnect_mid_call_bills_and_resets_peers after40 sock_R 50000
                "R" (Conn.mk sock_R "female" 1000 true)
                (statusObj StatusName.busy (Some "X") 3000) "X"
                (Call.mk "X" "audio_C_R" "C" "R" "audio" CallStatus.accepted
                   2000 ["C"; "R"] (Some 3000) None None (Some true))
                (Timer.mk 0 3000 40 "C" "R" "audio" COIN_RATES_audio 3000 true))
    as H.
  cbv zeta in H.
  destruct H as (_ & _ & _ & _ & D & _ & P & _);
    try (vm_compute; reflexivity).
  split.
  - apply P; [now left | discriminate].
  - apply D; [reflexivity | reflexivity].
Defined.

(** ** C10: what [end_call] does and what it leaves alone *)

Ltac unfold_handlers :=
  unfold handle, connection, join, start_call_tracking, complete_call,
    calls_start, calls_complete, calls_heartbeat, initiate_call,
    initiate_guard, initiate_resume, initiate_push, ring_timeout, fcm_timeout,
    accept_call, autoStartTimer, decline_call, call_ping, health_ping,
    end_call, end_call_notify, cancel_call, disconnect, disconnect_user,
    disconnect_call, disconnect_notify, disconnect_bill, heartbeat_monitor,
    heartbeat_entry, memory_protection, tick, second.

(** Only three handlers ever ask the ledger for coins. *)
Lemma other_handlers_noDeduct e :
  (forall req now, e <> ev_calls_complete req now) ->
  (forall now, e <> ev_heartbeat_monitor now) ->
  (forall socket now, e <> ev_disconnect socket now) ->
  emits noDeduct (handle e).
Proof.
  intros N1 N2 N3.
  destruct e;
    try (exfalso; first [now eapply N1 | now eapply N2 | now eapply N3]);
    unfold_handlers; emits_frame; exact I.
Qed.

Lemma disconnect_call_deductsOnlyFor userId callId call now :
  emits (deductsOnlyFor callId) (disconnect_call userId callId call now).
Proof.
  unfold disconnect_call, disconnect_notify, disconnect_bill.
  emits_frame; exact I || reflexivity.
Qed.

Lemma disconnect_tail_noDeduct userId user now :
  emits noDeduct (disconnect_tail userId user now).
Proof. unfold disconnect_tail. emits_frame; exact I. Qed.

(** The disconnect handler asks for coins only for a call that is in
    [activeCalls]. *)
Lemma disconnect_deducts_for_active socket now s u a k :
  In (deductRequest u a k) (out (disconnect socket now s)) ->
  JsMap.get k (activeCalls s) <> None.
Proof.
  intros H.
  destruct (List.find (fun e => String.eqb (Conn.socketId (snd e)) socket)
              (JsMap.entries (connectedUsers s))) as [[userId user]|] eqn:F.
  2:{ unfold disconnect in H. msimpl. rewrite F in H. contradiction. }
  assert (T : forall s', ~ In (deductRequest u a k)
                           (out (disconnect_tail userId user now s'))).
  { intros s' I. apply (disconnect_tail_noDeduct userId user now s' _ I). }
  destruct (JsMap.get userId (userStatus s)) as [us|] eqn:U.
  2:{ exfalso. unfold disconnect, disconnect_user in H. msimpl.
      rewrite F in H. msimpl. rewrite U in H. msimpl.
      eapply T. unfold disconnect_tail. msimpl. exact H. }
  destruct (UserStatus.currentCallId us) as [callId|] eqn:C.
  2:{ exfalso. unfold disconnect, disconnect_user in H. msimpl.
      rewrite F in H. msimpl. rewrite U in H. rewrite C in H. msimpl.
      eapply T. unfold disconnect_tail. msimpl. exact H. }
  destruct (falsy callId) eqn:N.
  { exfalso. unfold disconnect, disconnect_user in H. msimpl.
    rewrite F in H. msimpl. rewrite U in H. rewrite C, N in H. msimpl.
    eapply T. unfold disconnect_tail. msimpl. exact H. }
  destruct (JsMap.get callId (activeCalls s)) as [call|] eqn:A.
  2:{ exfalso. unfold disconnect, disconnect_user in H. msimpl.
      rewrite F in H. msimpl. rewrite U in H. rewrite C, N in H. msimpl.
      rewrite A in H. msimpl.
      eapply T. unfold disconnect_tail. msimpl. exact H. }
  rewrite (disconnect_mid_call_unfold s socket now userId user us callId call
             F U C N A) in H.
  unfold bind in H. cbn [out] in H. apply in_app_or in H as [H|H].
  - apply disconnect_call_deductsOnlyFor in H. simpl in H. subst k.
    rewrite A. discriminate.
  - exfalso. eapply T. exact H.
Qed.

(** Whatever asks the ledger to pay for a call that has no session in
    [activeCalls] is [/api/calls/complete] or the heartbeat sweep. *)
Lemma deduct_without_session e s u a k :
  In (deductRequest u a k) (trace (handle e) s) ->
  JsMap.get k (activeCalls s) = None ->
  (exists req now, e = ev_calls_complete req now)
  \/ (exists now, e = ev_heartbeat_monitor now).
Proof.
  intros I A.
  destruct e;
    try (left; eexists; eexists; reflexivity);
    try (right; eexists; reflexivity);
    try (exfalso;
         match goal with
         | H : In _ (trace (handle (ev_disconnect _ _)) _) |- _ =>
             now apply disconnect_deducts_for_active in H
         | H : In _ (trace (handle ?ev) ?s0) |- _ =>
             exact (other_handlers_noDeduct ev
                      ltac:(intros; discriminate) ltac:(intros; discriminate)
                      ltac:(intros; discriminate) s0 _ H)
         end).
Qed.

Lemma end_call_notify_frame callId userId ps now s :
  st (end_call_notify callId userId ps now s)
  = with_userStatus (userStatus (st (end_call_notify callId userId ps now s))) s.
Proof.
  unfold end_call_notify.
  apply (forEach_st_inv (fun s' => s' = with_userStatus (userStatus s') s)).
  - intros p s' _ E. msimpl.
    destruct (JsMap.get p (connectedUsers s')) as [k|]; msimpl;
      rewrite E at 2; reflexivity.
  - symmetry. apply with_userStatus_id.
Qed.

Lemma end_call_notify_resets callId userId ps now p :
  In p ps ->
  forall s,
    JsMap.get p (userStatus (st (end_call_notify callId userId ps now s)))
    = Some (statusObj StatusName.available None now).
Proof.
  intros I. unfold end_call_notify.
  set (body := fun participantId : string => bind _ _).
  assert (B : forall q s,
            q = p \/ JsMap.get p (userStatus s)
                     = Some (statusObj StatusName.available None now) ->
            JsMap.get p (userStatus (st (body q s)))
            = Some (statusObj StatusName.available None now)).
  { intros q s H. subst body. msimpl.
    assert (S : JsMap.get p
                  (JsMap.set q (statusObj StatusName.available None now)
                     (userStatus s))
                = Some (statusObj StatusName.available None now)).
    { destruct (String.eqb_spec p q) as [->|D].
      - apply get_set_same.
      - rewrite get_set_other by exact D. destruct H; congruence. }
    destruct (JsMap.get q (connectedUsers s)) as [k|]; msimpl; exact S. }
  induction ps as [|a ps IH]; [contradiction|].
  intros s. cbn [forEach]. unfold bind. cbn [st].
  destruct I as [->|I].
  - apply (forEach_st_inv
             (fun s' => JsMap.get p (userStatus s')
                        = Some (statusObj StatusName.available None now))).
    + intros q s' _ H. apply B. now right.
    + apply B. now left.
  - apply IH. exact I.
Qed.

Lemma end_call_notify_others callId userId ps now u :
  ~ In u ps ->
  forall s,
    JsMap.get u (userStatus (st (end_call_notify callId userId ps now s)))
    = JsMap.get u (userStatus s).
Proof.
  unfold end_call_notify. induction ps as [|a ps IH]; intros N s.
  - reflexivity.
  - simpl. unfold bind at 1. cbn [st]. rewrite IH.
    + msimpl.
      assert (D : u <> a) by (intros ->; apply N; now left).
      destruct (JsMap.get a (connectedUsers s)) as [k|]; msimpl;
        now rewrite get_set_other.
    + intros I. apply N. now right.
Qed.

Lemma end_call_notify_noDeduct callId userId ps now :
  emits noDeduct (end_call_notify callId userId ps now).
Proof. unfold end_call_notify. emits_frame; exact I. Qed.

Lemma Res_ext {A : Type} (r1 r2 : Res A) :
  val r1 = val r2 -> st r1 = st r2 -> out r1 = out r2 -> r1 = r2.
Proof. destruct r1, r2; simpl; intros; subst; reflexivity. Qed.

Lemma end_call_unfold callId userId socket now s c :
  JsMap.get callId (activeCalls s) = Some c ->
  end_call callId userId socket now s
  = (end_call_notify callId userId (Call.participants c) now ;;
     completeCallSync callId (mkUpdate "ended" None None None None None))
      (endedState callId userId now c s).
Proof.
  intros G. unfold end_call, endedState.
  apply Res_ext; msimpl; rewrite !G; msimpl; rewrite ?G; msimpl;
    destruct (JsMap.get callId (callTimers s)); reflexivity.
Qed.

(** C10.  An [end_call] event for a call that is in [activeCalls] clears
    the interval of the call's timer, writes the call record as [ended],
    takes the session out of [activeCalls] and resets every participant to
    [available].  It requests nothing from the ledger and leaves every
    balance as it was; [callTimers] is unchanged, so the timer entry of the
    call stays where it is; connections, sockets, lock keys, the other
    sessions and the other users' statuses are untouched.  In the state it
    leaves, the only events that can ask the ledger to pay for this call
    are [/api/calls/complete] and the heartbeat sweep. *)
Theorem end_call_stops_tick_without_billing :
  forall (s : State) (callId userId socket : string) (now : Z) (c : Call.t),
    JsMap.get callId (activeCalls s) = Some c ->
    let r := end_call callId userId socket now s in
    (forall x, JsMap.get callId (callTimers s) = Some x ->
       ~ In (Timer.interval x) (List.map fst (intervals (st r))))
    /\ In (updateCallInFirestore callId
             (mkUpdate "ended" None None None None None)) (out r)
    /\ JsMap.get callId (activeCalls (st r)) = None
    /\ (forall p, In p (Call.participants c) ->
          JsMap.get p (userStatus (st r))
          = Some (statusObj StatusName.available None now))
    /\ users (st r) = users s
    /\ (forall u, val (getUserBalance u (st r)) = val (getUserBalance u s))
    /\ (forall u a k, ~ In (deductRequest u a k) (out r))
    /\ callTimers (st r) = callTimers s
    /\ connectedUsers (st r) = connectedUsers s
    /\ sockets (st r) = sockets s
    /\ callLocks (st r) = callLocks s
    /\ (forall k, k <> callId ->
          JsMap.get k (activeCalls (st r)) = JsMap.get k (activeCalls s))
    /\ (forall u, ~ In u (Call.participants c) ->
          JsMap.get u (userStatus (st r)) = JsMap.get u (userStatus s))
    /\ (forall e u a,
          In (deductRequest u a callId) (trace (handle e) (st r)) ->
          (exists req now', e = ev_calls_complete req now')
          \/ (exists now', e = ev_heartbeat_monitor now')).
Proof.
  intros s callId userId socket now c G r.
  assert (E : r = (end_call_notify callId userId (Call.participants c) now ;;
                   completeCallSync callId
                     (mkUpdate "ended" None None None None None))
                    (endedState callId userId now c s))
    by (apply end_call_unfold; exact G).
  set (s2 := endedState callId userId now c s) in *.
  set (r1 := end_call_notify callId userId (Call.participants c) now s2).
  assert (F : st r1 = with_userStatus (userStatus (st r1)) s2)
    by apply end_call_notify_frame.
  assert (S : st r = with_activeCalls
                       (JsMap.delete callId (activeCalls s2))
                       (with_userStatus (userStatus (st r1)) s2)).
  { rewrite E. msimpl. fold r1. rewrite F at 2. rewrite F at 1. reflexivity. }
  assert (O : out r = (out r1 ++ [updateCallInFirestore callId
                                    (mkUpdate "ended" None None None None None)])%list).
  { rewrite E. msimpl. reflexivity. }
  assert (P2 : users s2 = users s /\ callTimers s2 = callTimers s
               /\ connectedUsers s2 = connectedUsers s
               /\ sockets s2 = sockets s /\ callLocks s2 = callLocks s
               /\ userStatus s2 = userStatus s
               /\ activeCalls s2
                  = JsMap.set callId (Call.finish userId now c) (activeCalls s)).
  { subst s2. unfold endedState.
    destruct (JsMap.get callId (callTimers s)); msimpl; repeat split. }
  destruct P2 as (PU & PT & PC & PS & PL & PUS & PA).
  assert (ACn : JsMap.get callId (activeCalls (st r)) = None).
  { rewrite S. msimpl. apply get_delete_same. }
  rewrite S, O. msimpl.
  repeat match goal with |- _ /\ _ => split end.
  - intros x X. subst s2. unfold endedState. rewrite X. msimpl.
    apply clearInterval_not_live.
  - apply in_or_app. right. now left.
  - apply get_delete_same.
  - intros p I. now apply end_call_notify_resets.
  - exact PU.
  - intros u. unfold getUserBalance, gets. cbn [val]. msimpl. now rewrite PU.
  - intros u a k I. apply in_app_or in I as [I|[I|[]]]; [|discriminate I].
    apply (end_call_notify_noDeduct _ _ _ _ _ _ I).
  - exact PT.
  - exact PC.
  - exact PS.
  - exact PL.
  - intros k N. rewrite get_delete_other by exact N. rewrite PA.
    now rewrite get_set_other.
  - intros u N. unfold r1. rewrite end_call_notify_others by exact N.
    now rewrite PUS.
  - intros e u a I. rewrite <- S in I.
    eapply deduct_without_session; eassumption.
Qed.

Lemma end_call_stops_tick_without_billing_witness :
  option_map Call.status (JsMap.get "X" (activeCalls after10))
  = Some CallStatus.accepted
  /\ callTimers (st (end_call "X" "C" sock_C 20000 after10)) = callTimers after10
  /\ val (getUserBalance "C" (st (end_call "X" "C" sock_C 20000 after10)))
     = Some 200.
Proof.
  split; [vm_compute; reflexivity|].
  pose proof (end_call_stops_tick_without_billing after10 "X" "C" sock_C 20000
                (Call.mk "X" "audio_C_R" "C" "R" "audio" CallStatus.accepted
                   2000 ["C"; "R"] (Some 3000) None None (Some true))
                ltac:(vm_compute; reflexivity)) as H.
  cbv zeta in H.
  destruct H as (_ & _ & _ & _ & _ & B & _ & T & _).
  split; [exact T|]. rewrite B. vm_compute. reflexivity.
Defined.

(** ** C9: when a timer leaves [callTimers] *)

Lemma invariant_ret {A} P (a : A) : invariant P (ret a).
Proof. intros s H. exact H. Qed.

Lemma invariant_gets {A} P (g : State -> A) : invariant P (gets g).
Proof. intros s H. exact H. Qed.

Lemma invariant_tell P e : invariant P (tell e).
Proof. intros s H. exact H. Qed.

Lemma invariant_modify P g :
  (forall s, P s -> P (g s)) -> invariant P (modify g).
Proof. intros H s. apply H. Qed.

Lemma invariant_setInterval P callId :
  (forall l n s, P s -> P (with_intervals l n s)) ->
  invariant P (setInterval callId).
Proof. intros H s. unfold setInterval. cbn [st]. apply H. Qed.

Lemma invariant_bind {A B} P (m : M A) (k : A -> M B) :
  invariant P m -> (forall a, invariant P (k a)) -> invariant P (bind m k).
Proof. intros Hm Hk s H. unfold bind. cbn [st]. apply Hk, Hm, H. Qed.

Lemma invariant_when P b m : invariant P m -> invariant P (when b m).
Proof. intros H. destruct b; [exact H | apply invariant_ret]. Qed.

Lemma invariant_forEach {A} P (l : list A) body :
  (forall a, invariant P (body a)) -> invariant P (forEach l body).
Proof.
  intros H. induction l as [|a l IH]; simpl.
  - apply invariant_ret.
  - apply invariant_bind; auto.
Qed.







Lemma heartbeat_entry_callTimers now e s :
  callTimers (st (heartbeat_entry now e s))
  = if Timer.lastHeartbeat (snd e) =? 0
    then JsMap.set (fst e) (Timer.with_lastHeartbeat now (snd e)) (callTimers s)
    else if now - Timer.lastHeartbeat (snd e) >? HEARTBEAT_TIMEOUT_MS
         then JsMap.delete (fst e) (callTimers s)
         else callTimers s.
Proof.
  unfold heartbeat_entry.
  destruct (Timer.lastHeartbeat (snd e) =? 0); [reflexivity|].
  destruct (now - Timer.lastHeartbeat (snd e) >? HEARTBEAT_TIMEOUT_MS);
    [|reflexivity].
  msimpl. rewrite deductUserCoins_st. msimpl.
  repeat match goal with
         | |- context [match JsMap.get ?k (connectedUsers ?m) with _ => _ end] =>
             destruct (JsMap.get k (connectedUsers m))
         end; reflexivity.
Qed.




Lemma memory_protection_silent : emits (fun _ => False) memory_protection.
Proof. unfold memory_protection. emits_frame. Qed.




(** ** Well-formed timer store *)

Lemma keys_set_In {V : Type} (k k' : string) (v : V) (m : JsMap.t V) :
  In k (JsMap.keys (JsMap.set k' v m)) -> k = k' \/ In k (JsMap.keys m).
Proof.
  induction m as [|[a b] m IH]; simpl.
  - intros [<-|[]]. now left.
  - destruct (String.eqb k' a) eqn:E; simpl.
    + intros [<-|I]; right; [now left | now right].
    + intros [<-|I]; [right; now left|].
      destruct (IH I) as [->|J]; [now left | right; now right].
Qed.

Lemma set_keys_nodup {V : Type} (k : string) (v : V) (m : JsMap.t V) :
  NoDup (JsMap.keys m) -> NoDup (JsMap.keys (JsMap.set k v m)).
Proof.
  induction m as [|[a b] m IH]; simpl; intros ND.
  - constructor; [intros []|constructor].
  - inversion ND as [|? ? NI ND']; subst.
    destruct (String.eqb k a) eqn:E; simpl.
    + constructor; assumption.
    + constructor; [|now apply IH].
      intros I. apply keys_set_In in I as [->|I]; [|contradiction].
      now rewrite String.eqb_refl in E.
Qed.

Lemma keys_delete_In {V : Type} (k k' : string) (m : JsMap.t V) :
  In k (JsMap.keys (JsMap.delete k' m)) -> In k (JsMap.keys m).
Proof.
  induction m as [|[a b] m IH]; simpl; [tauto|].
  destruct (String.eqb k' a); simpl; intuition.
Qed.

Lemma delete_keys_nodup {V : Type} (k : string) (m : JsMap.t V) :
  NoDup (JsMap.keys m) -> NoDup (JsMap.keys (JsMap.delete k m)).
Proof.
  induction m as [|[a b] m IH]; simpl; intros ND; [constructor|].
  inversion ND as [|? ? NI ND']; subst.
  destruct (String.eqb k a); simpl; [now apply IH|].
  constructor; [|now apply IH].
  intros I. apply NI. eapply keys_delete_In. exact I.
Qed.

Ltac keeps_wf :=
  unfold_wrappers;
  repeat first
    [ apply invariant_ret
    | apply invariant_gets
    | apply invariant_tell
    | apply invariant_bind; [ | intros ? ]
    | apply invariant_when
    | apply invariant_forEach; intros ?
    | apply invariant_setInterval; intros ? ? ? ?; assumption
    | apply invariant_modify; intros ? ?; unfold wfTimers in *;
      first [ assumption
            | cbn [callTimers with_callTimers]; apply set_keys_nodup;
              assumption
            | cbn [callTimers with_callTimers]; apply delete_keys_nodup;
              assumption
            | break_match; assumption ]
    | match goal with
      | |- invariant _ (match ?x with _ => _ end) => destruct x
      | |- invariant _ (let _ := _ in _) => cbv zeta
      end ].

(** Every handler keeps the keys of [callTimers] distinct. *)
Lemma handle_keeps_wfTimers e : invariant wfTimers (handle e).
Proof. destruct e; unfold_handlers; keeps_wf. Qed.

(** So every state the server reaches from its empty start has a
    well-formed timer store. *)
Lemma reachable_wfTimers es : wfTimers (exec (run es) initialState).
Proof.
  unfold exec, run.
  apply (forEach_st_inv wfTimers).
  - intros e s _. apply handle_keeps_wfTimers.
  - constructor.
Qed.

(** ** Doubles and rationals *)

(** For every duration up to a day the rational model and JavaScript's
    doubles charge the same number of coins. *)
Lemma double_ceiling_agrees :
  ceilingsAgree double_audio COIN_RATES_audio (Z.to_nat 86401) 0 = true
  /\ ceilingsAgree double_video COIN_RATES_video (Z.to_nat 86401) 0 = true.
Proof. split; vm_compute; reflexivity. Qed.

(** ** The ledger of the scalability module *)

Lemma currentBalance_setBalance b d : currentBalance (setBalance b d) = b.
Proof.
  unfold currentBalance, setBalance.
  destruct (UserDoc.coinBalance d); reflexivity.
Qed.

(** X1.  [deductUserCoins] succeeds exactly when the user's document
    exists and holds at least the amount; a success lowers the balance it
    read by exactly the amount and leaves it non-negative, a failure
    leaves the whole state as it was, and no other user's document is
    ever touched. *)
Theorem deductUserCoins_charges_exactly_or_nothing u a c s :
  let r := deductUserCoins u a c s in
  (val r = true <->
     exists d, JsMap.get u (users s) = Some d /\ a <= currentBalance d)
  /\ (forall d, val r = true -> JsMap.get u (users s) = Some d ->
        option_map currentBalance (JsMap.get u (users (st r)))
          = Some (currentBalance d - a)
        /\ 0 <= currentBalance d - a)
  /\ (val r = false -> st r = s)
  /\ (forall u', u' <> u ->
        JsMap.get u' (users (st r)) = JsMap.get u' (users s)).
Proof.
  cbv zeta. unfold deductUserCoins. msimpl.
  destruct (JsMap.get u (users s)) as [d|] eqn:E.
  - destruct (currentBalance d <? a) eqn:L; msimpl.
    + apply Z.ltb_lt in L. split; [|split; [|split]].
      * split; [discriminate|].
        intros (d' & D & Le). injection D as <-. lia.
      * discriminate.
      * reflexivity.
      * reflexivity.
    + apply Z.ltb_ge in L. split; [|split; [|split]].
      * split; [intros _; exists d; auto | reflexivity].
      * intros d' _ D. injection D as <-. rewrite get_set_same.
        cbn [option_map]. rewrite currentBalance_setBalance.
        split; [reflexivity | lia].
      * discriminate.
      * intros u' N. apply get_set_other. congruence.
  - msimpl. split; [|split; [|split]].
    + split; [discriminate|]. intros (d' & D & _). discriminate.
    + discriminate.
    + reflexivity.
    + reflexivity.
Qed.

(** [getUserBalance] and [deductUserCoins] read the same figure unless
    the document carries [coinBalance: 0] beside a non-zero legacy
    [coins]. *)
Lemma balanceOf_currentBalance d :
  balanceOf d <> currentBalance d <->
  UserDoc.coinBalance d = Some 0 /\ orZero (UserDoc.coins d) <> 0.
Proof.
  unfold balanceOf, currentBalance.
  destruct (UserDoc.coinBalance d) as [b|].
  - destruct (b =? 0) eqn:B.
    + apply Z.eqb_eq in B. subst b. split.
      * intros N. split; [reflexivity|]. congruence.
      * intros [_ N]. exact N.
    + apply Z.eqb_neq in B. split.
      * intros N. now elim N.
      * intros [E _]. congruence.
  - split.
    + intros N. now elim N.
    + intros [E _]. discriminate.
Qed.

(** X2.  A document migrated to [coinBalance: 0] that still carries a
    legacy [coins] amount: [getUserBalance] reports the legacy amount,
    but [deductUserCoins] works on [coinBalance] and refuses every
    positive charge, leaving the ledger as it was. *)
Theorem legacy_coins_reported_but_not_spendable u a callId s d legacy :
  JsMap.get u (users s) = Some d ->
  UserDoc.coinBalance d = Some 0 ->
  UserDoc.coins d = Some legacy ->
  legacy <> 0 ->
  0 < a ->
  val (getUserBalance u s) = Some legacy
  /\ val (deductUserCoins u a callId s) = false
  /\ st (deductUserCoins u a callId s) = s.
Proof.
  intros G B C N A. unfold getUserBalance, deductUserCoins. msimpl.
  rewrite G. cbn [option_map]. unfold balanceOf, currentBalance.
  rewrite B, C. cbn [Z.eqb orZero].
  assert (L : (0 <? a) = true) by now apply Z.ltb_lt.
  rewrite L. msimpl. auto.
Qed.

Lemma legacy_coins_reported_but_not_spendable_witness :
  let d := UserDoc.mk (Some 0) (Some 50) (Some true) None in
  let s := with_users [("C", d)] initialState in
  val (getUserBalance "C" s) = Some 50
  /\ val (deductUserCoins "C" 8 "X" s) = false
  /\ st (deductUserCoins "C" 8 "X" s) = s.
Proof.
  cbv zeta.
  apply (legacy_coins_reported_but_not_spendable "C" 8 "X"
           (with_users [("C", UserDoc.mk (Some 0) (Some 50) (Some true) None)]
              initialState)
           (UserDoc.mk (Some 0) (Some 50) (Some true) None) 50);
    [reflexivity | reflexivity | reflexivity | discriminate | reflexivity].
Defined.

(** ** The call lock *)




(** ** Pre-call balance validation *)

Lemma ceilCoins_mono d d' rate :
  (0 <= rate)%Q -> d <= d' -> ceilCoins d rate <= ceilCoins d' rate.
Proof.
  intros R L. unfold ceilCoins. apply Qceiling_resp_le.
  apply Qmult_le_compat_r; [|exact R].
  rewrite <- Zle_Qle. exact L.
Qed.

(** X4.  [/api/validate_balance] answers [success] exactly when the
    reported balance covers what the billing paths charge for a call of
    [MIN_CALL_DURATION_SECONDS] at the call type's rate; a validated
    balance therefore covers the charge of every call of at most that
    length. *)
Theorem validate_balance_covers_minimum_call uid ct b :
  falsy uid = false -> falsy ct = false ->
  exists body,
    validate_balance (mkValidateBalanceReq uid ct (Some b)) = reply_ok body
    /\ bv_has_sufficient_balance body = bv_success body
    /\ (bv_success body = true <->
          (inject_Z (ceilCoins MIN_CALL_DURATION_SECONDS (coinRateOf ct))
             <= b)%Q)
    /\ (bv_success body = true ->
          forall d, d <= MIN_CALL_DURATION_SECONDS ->
            (inject_Z (ceilCoins d (coinRateOf ct)) <= b)%Q).
Proof.
  intros U C. unfold validate_balance.
  cbn [vb_current_balance vb_user_id vb_call_type]. rewrite U, C.
  cbn [orb]. eexists. split; [reflexivity|].
  cbn [bv_success bv_has_sufficient_balance]. split; [reflexivity|].
  assert (K : ((if (ct =? "video")%string
                then MIN_BALANCE_VIDEO else MIN_BALANCE_AUDIO)
               == inject_Z (ceilCoins MIN_CALL_DURATION_SECONDS
                              (coinRateOf ct)))%Q).
  { unfold coinRateOf. destruct (ct =? "video")%string; reflexivity. }
  assert (I : Qle_bool
                (if (ct =? "video")%string
                 then MIN_BALANCE_VIDEO else MIN_BALANCE_AUDIO) b = true <->
              (inject_Z (ceilCoins MIN_CALL_DURATION_SECONDS (coinRateOf ct))
                <= b)%Q).
  { rewrite Qle_bool_iff. now rewrite K. }
  split; [exact I|].
  intros S d L. apply I in S.
  eapply Qle_trans; [|exact S]. rewrite <- Zle_Qle.
  apply ceilCoins_mono; [|exact L].
  unfold coinRateOf. destruct (ct =? "video")%string; discriminate.
Qed.

Lemma validate_balance_covers_minimum_call_witness :
  exists body,
    validate_balance (mkValidateBalanceReq "C" "audio" (Some (24 # 1)))
      = reply_ok body
    /\ bv_has_sufficient_balance body = bv_success body
    /\ (bv_success body = true <->
          (inject_Z (ceilCoins MIN_CALL_DURATION_SECONDS (coinRateOf "audio"))
             <= 24 # 1)%Q)
    /\ (bv_success body = true ->
          forall d, d <= MIN_CALL_DURATION_SECONDS ->
            (inject_Z (ceilCoins d (coinRateOf "audio")) <= 24 # 1)%Q).
Proof.
  apply (validate_balance_covers_minimum_call "C" "audio" (24 # 1));
    reflexivity.
Defined.

(** ** Heartbeats and the staleness sweep *)

Lemma heartbeat_entry_fresh_out now e s :
  isStale now (snd e) = false -> out (heartbeat_entry now e s) = [].
Proof.
  unfold isStale, heartbeat_entry. intros S.
  destruct (Timer.lastHeartbeat (snd e) =? 0); [reflexivity|].
  cbn [negb andb] in S. rewrite S. reflexivity.
Qed.

Lemma heartbeat_entry_deductsOnlyFor now e :
  emits (deductsOnlyFor (fst e)) (heartbeat_entry now e).
Proof.
  unfold heartbeat_entry. emits_frame; first [exact I | reflexivity].
Qed.

(** A timer with a recent heartbeat comes through the sweep untouched,
    and the sweep asks the ledger for nothing on its behalf. *)
Lemma heartbeat_monitor_keeps_fresh now s callId v :
  wfTimers s ->
  JsMap.get callId (callTimers s) = Some v ->
  Timer.lastHeartbeat v <> 0 ->
  isStale now v = false ->
  JsMap.get callId (callTimers (exec (heartbeat_monitor now) s)) = Some v
  /\ forall u a, ~ In (deductRequest u a callId) (trace (heartbeat_monitor now) s).
Proof.
  intros WF G NZ S. split.
  - unfold exec, heartbeat_monitor. msimpl.
    apply (forEach_st_inv
             (fun s' => JsMap.get callId (callTimers s') = Some v)); [|exact G].
    intros e s' I P. rewrite heartbeat_entry_callTimers.
    destruct (String.eqb_spec (fst e) callId) as [E|N].
    + destruct e as [k w]. cbn [fst snd] in *. subst k.
      assert (W : JsMap.get callId (callTimers s) = Some w)
        by (apply In_get_nodup; assumption).
      rewrite G in W. injection W as <-.
      apply Z.eqb_neq in NZ. rewrite NZ.
      unfold isStale in S. rewrite NZ in S. cbn [negb andb] in S.
      now rewrite S.
    + destruct (Timer.lastHeartbeat (snd e) =? 0).
      * rewrite get_set_other by congruence. exact P.
      * destruct (now - Timer.lastHeartbeat (snd e) >? HEARTBEAT_TIMEOUT_MS);
          [|exact P].
        rewrite get_delete_other by congruence. exact P.
  - intros u a I. unfold trace, heartbeat_monitor in I. msimpl.
    apply forEach_out_In in I as (e & s' & Ie & O).
    destruct (String.eqb_spec (fst e) callId) as [E|N].
    + destruct e as [k w]. cbn [fst snd] in *. subst k.
      assert (W : JsMap.get callId (callTimers s) = Some w)
        by (apply In_get_nodup; assumption).
      rewrite G in W. injection W as <-.
      rewrite heartbeat_entry_fresh_out in O by exact S. contradiction.
    + apply (heartbeat_entry_deductsOnlyFor now e s') in O.
      cbn [deductsOnlyFor] in O. congruence.
Qed.

Lemma set_app_fresh {V : Type} (k : string) (v v' : V) (l1 l2 : JsMap.t V) :
  ~ In k (JsMap.keys l1) ->
  JsMap.set k v' (l1 ++ (k, v) :: l2)%list = (l1 ++ (k, v') :: l2)%list.
Proof.
  induction l1 as [|[a b] l1 IH]; simpl; intros NI.
  - now rewrite String.eqb_refl.
  - destruct (String.eqb_spec k a) as [->|N]; [elim NI; now left|].
    rewrite IH; [reflexivity|]. intros I. apply NI. now right.
Qed.

Lemma health_ping_loop userId now l2 : forall l1 s,
  callTimers s = (List.map (pinged userId now) l1 ++ l2)%list ->
  NoDup (JsMap.keys (l1 ++ l2)%list) ->
  callTimers
    (st (forEach l2 (fun e =>
           when (String.eqb (Timer.callerId (snd e)) userId
                 || String.eqb (Timer.recipientId (snd e)) userId)
             (setTimer (fst e) (Timer.with_lastHeartbeat now (snd e)))) s))
  = List.map (pinged userId now) (l1 ++ l2)%list.
Proof.
  induction l2 as [|[k x] l2 IH]; intros l1 s C ND.
  - cbn [forEach ret st]. rewrite C, map_app. reflexivity.
  - cbn [forEach]. unfold bind. cbn [st].
    replace (l1 ++ (k, x) :: l2)%list with ((l1 ++ [(k, x)]) ++ l2)%list
      by (rewrite <- app_assoc; reflexivity).
    apply IH.
    + rewrite map_app. cbn [List.map]. rewrite <- app_assoc. cbn [app].
      unfold pinged at 2. cbn [fst snd].
      destruct (String.eqb (Timer.callerId x) userId
                || String.eqb (Timer.recipientId x) userId);
        cbn [when]; [|exact C].
      unfold setTimer, modify. cbn [st callTimers with_callTimers].
      rewrite C. apply set_app_fresh.
      unfold JsMap.keys in *. rewrite map_app in ND.
      apply NoDup_remove_2 in ND. cbn [List.map fst] in ND.
      intros I. apply ND. apply in_or_app. left.
      rewrite map_map in I.
      rewrite (map_ext _ fst) in I; [exact I|].
      intros e. unfold pinged. now destruct (_ || _).
    + rewrite <- app_assoc. exact ND.
Qed.

Lemma health_ping_callTimers userId socket now s :
  wfTimers s ->
  callTimers (st (health_ping userId socket now s))
  = List.map (pinged userId now) (callTimers s).
Proof.
  intros WF. unfold health_ping. unfold bind at 1. cbn [gets val st].
  unfold bind. cbn [tell st].
  apply (health_ping_loop userId now (callTimers s) [] s); [reflexivity|].
  exact WF.
Qed.

Lemma get_map_pinged userId now callId x (m : JsMap.t Timer.t) :
  JsMap.get callId m = Some x ->
  JsMap.get callId (List.map (pinged userId now) m)
  = Some (snd (pinged userId now (callId, x))).
Proof.
  induction m as [|[k w] m IH]; simpl; [discriminate|].
  unfold pinged at 1. cbn [fst snd].
  destruct (String.eqb callId k) eqn:E.
  - intros [= ->]. apply String.eqb_eq in E. subst k.
    unfold pinged. cbn [fst snd].
    destruct (_ || _); simpl; now rewrite String.eqb_refl.
  - intros G. destruct (_ || _); simpl; rewrite E; auto.
Qed.

(** X5.  A heartbeat keeps a call out of the staleness sweep: after
    [/api/calls/heartbeat], a [call_ping] for the call, or a
    [health_ping] of one of its two users, a sweep that runs within
    [HEARTBEAT_TIMEOUT_MS] of it leaves the timer in place, exactly as
    the heartbeat left it, and requests no deduction for the call. *)
Theorem heartbeat_defers_staleness_sweep :
  forall (s : State) (callId userId callerId socket : string)
         (now now' : Z) (x : Timer.t),
    wfTimers s ->
    JsMap.get callId (callTimers s) = Some x ->
    falsy callId = false ->
    0 < now ->
    now' - now <= HEARTBEAT_TIMEOUT_MS ->
    let kept s1 :=
      JsMap.get callId (callTimers (exec (heartbeat_monitor now') s1))
      = Some (Timer.with_lastHeartbeat now x)
      /\ forall u a,
           ~ In (deductRequest u a callId) (trace (heartbeat_monitor now') s1) in
    (falsy (orStr userId callerId) = false ->
       kept (exec (calls_heartbeat callId userId callerId now) s))
    /\ kept (exec (call_ping callId userId socket now) s)
    /\ (Timer.callerId x = userId \/ Timer.recipientId x = userId ->
          kept (exec (health_ping userId socket now) s)).
Proof.
  intros s callId userId callerId socket now now' x WF G F P L kept.
  assert (NZ : Timer.lastHeartbeat (Timer.with_lastHeartbeat now x) <> 0)
    by (cbn; lia).
  assert (S : isStale now' (Timer.with_lastHeartbeat now x) = false).
  { unfold isStale. cbn [Timer.lastHeartbeat Timer.with_lastHeartbeat].
    rewrite Z.gtb_ltb.
    replace (HEARTBEAT_TIMEOUT_MS <? now' - now) with false
      by (symmetry; apply Z.ltb_ge; lia).
    apply andb_false_r. }
  split; [|split].
  - intros FU. subst kept. cbv beta.
    apply heartbeat_monitor_keeps_fresh; try assumption.
    + apply (handle_keeps_wfTimers
               (ev_calls_heartbeat callId userId callerId now)), WF.
    + unfold exec, calls_heartbeat. rewrite F, FU. msimpl. rewrite G.
      msimpl. apply get_set_same.
  - subst kept. cbv beta.
    apply heartbeat_monitor_keeps_fresh; try assumption.
    + apply (handle_keeps_wfTimers (ev_call_ping callId userId socket now)),
        WF.
    + unfold exec, call_ping. rewrite F. msimpl. rewrite G. msimpl.
      apply get_set_same.
  - intros U. subst kept. cbv beta.
    apply heartbeat_monitor_keeps_fresh; try assumption.
    + apply (handle_keeps_wfTimers (ev_health_ping userId socket now)), WF.
    + unfold exec. rewrite health_ping_callTimers by exact WF.
      rewrite (get_map_pinged userId now callId x) by exact G.
      unfold pinged. cbn [fst snd].
      replace (String.eqb (Timer.callerId x) userId
               || String.eqb (Timer.recipientId x) userId) with true;
        [reflexivity|].
      symmetry. apply orb_true_iff.
      destruct U as [U|U]; [left|right]; rewrite U; apply String.eqb_refl.
Qed.

Lemma heartbeat_defers_staleness_sweep_witness :
  let x := Timer.mk 0 3000 10 "C" "R" "audio" COIN_RATES_audio 3000 true in
  let s := with_callTimers [("X", x)] initialState in
  JsMap.get "X"
    (callTimers
       (exec (heartbeat_monitor 200000)
          (exec (calls_heartbeat "X" "C" "" 30000) s)))
  = Some (Timer.with_lastHeartbeat 30000 x).
Proof.
  intros x s.
  assert (WF : wfTimers s)
    by (constructor; [intros []|constructor]).
  assert (L : 200000 - 30000 <= HEARTBEAT_TIMEOUT_MS) by discriminate.
  pose proof (heartbeat_defers_staleness_sweep s "X" "C" "" sock_C
                30000 200000 x WF eq_refl eq_refl eq_refl L) as H.
  cbv zeta in H. destruct H as [H _].
  destruct (H eq_refl) as [K _]. exact K.
Defined.

(** ** Doubles and rationals, for every duration *)

Lemma ceilingsAgree_sound rate r n : forall d0 d,
  ceilingsAgree rate r n d0 = true ->
  d0 <= d < d0 + Z.of_nat n ->
  isCeilingOf (ceilCoins d r) (doubleProduct d rate) = true.
Proof.
  induction n as [|n IH]; intros d0 d A R; [lia|].
  cbn [ceilingsAgree] in A. apply andb_prop in A as [A1 A2].
  destruct (Z.eq_dec d d0) as [->|N]; [exact A1|].
  apply (IH (d0 + 1)); [exact A2 | lia].
Qed.

(** X6.  For every call of up to a day, [Math.ceil(durationSeconds *
    coinRate)] evaluated in IEEE doubles, as the billing paths do, is the
    ceiling of the exact product: the binary rounding of [0.2] never
    adds or drops a coin. *)
Theorem double_charge_is_exact_ceiling d :
  0 <= d <= 86400 ->
  isCeilingOf (ceilCoins d COIN_RATES_audio) (doubleProduct d double_audio)
  = true
  /\ isCeilingOf (ceilCoins d COIN_RATES_video) (doubleProduct d double_video)
     = true.
Proof.
  intros R. destruct double_ceiling_agrees as [A V].
  split.
  - apply (ceilingsAgree_sound _ _ _ 0 d A).
    rewrite Z2Nat.id by lia. lia.
  - apply (ceilingsAgree_sound _ _ _ 0 d V).
    rewrite Z2Nat.id by lia. lia.
Qed.

Lemma double_charge_is_exact_ceiling_witness :
  isCeilingOf (ceilCoins 37 COIN_RATES_audio) (doubleProduct 37 double_audio)
  = true
  /\ isCeilingOf (ceilCoins 37 COIN_RATES_video)
       (doubleProduct 37 double_video)
     = true.
Proof.
  apply (double_charge_is_exact_ceiling 37). split; discriminate.
Defined.

(** ** Shutdown *)

Lemma clearInterval_intervals h s :
  intervals (st (clearInterval h s))
  = List.filter (fun e => negb (Nat.eqb (fst e) h)) (intervals s).
Proof. reflexivity. Qed.

Lemma shutdown_loop_intervals (l : list (string * Timer.t)) : forall s i,
  In i (intervals
          (st (forEach l (fun e => clearInterval (Timer.interval (snd e))) s)))
  <-> In i (intervals s)
      /\ forall e, In e l -> fst i <> Timer.interval (snd e).
Proof.
  induction l as [|a l IH]; intros s i.
  - cbn [forEach ret st]. split; [intros I; split; [exact I|intros ? []]|].
    now intros [I _].
  - cbn [forEach]. unfold bind. cbn [st]. rewrite IH.
    rewrite clearInterval_intervals, filter_In, negb_true_iff, Nat.eqb_neq.
    split.
    + intros [[I N] R]. split; [exact I|].
      intros e [<-|E]; [exact N | now apply R].
    + intros [I R]. split; [split; [exact I|]|].
      * apply R. now left.
      * intros e E. apply R. now right.
Qed.

(** X7.  The shutdown handlers stop the clock of every stored timer and
    do nothing else: afterwards no live interval belongs to an entry of
    [callTimers], while sessions, timers with their accumulated
    durations, statuses and balances are as before and nothing is
    emitted: no call is billed, no call record is written and no client
    is told. *)
Theorem shutdown_stops_timers_without_billing s :
  let s' := exec shutdown s in
  trace shutdown s = []
  /\ callTimers s' = callTimers s
  /\ activeCalls s' = activeCalls s
  /\ userStatus s' = userStatus s
  /\ users s' = users s
  /\ (forall i, In i (intervals s') <->
        In i (intervals s)
        /\ forall e, In e (callTimers s) -> fst i <> Timer.interval (snd e)).
Proof.
  cbv zeta.
  assert (E : emits (fun _ => False) shutdown)
    by (unfold shutdown; emits_frame).
  split.
  { unfold trace. destruct (out (shutdown s)) as [|e l] eqn:O; [reflexivity|].
    exfalso. apply (E s e). rewrite O. now left. }
  split; [unfold exec; apply (ltac:(unfold shutdown; frame)
                               : preserves callTimers shutdown)|].
  split; [unfold exec; apply (ltac:(unfold shutdown; frame)
                               : preserves activeCalls shutdown)|].
  split; [unfold exec; apply (ltac:(unfold shutdown; frame)
                               : preserves userStatus shutdown)|].
  split; [unfold exec; apply (ltac:(unfold shutdown; frame)
                               : preserves users shutdown)|].
  intros i. unfold exec, shutdown. unfold bind at 1. cbn [gets val st].
  apply shutdown_loop_intervals.
Qed.

(** ** The memory-protection sweep *)






Lemma firstn_incl {A : Type} n (l : list A) x : In x (firstn n l) -> In x l.
Proof.
  revert l. induction n as [|n IH]; intros l I; [contradiction|].
  destruct l as [|h l]; [contradiction|].
  destruct I as [<-|I]; [now left | right; now apply IH].
Qed.












(** ** A call that is never answered *)

Lemma set_set {V : Type} (k : string) (v v' : V) (m : JsMap.t V) :
  JsMap.set k v (JsMap.set k v' m) = JsMap.set k v m.
Proof.
  induction m as [|[a b] m IH]; simpl.
  - now rewrite String.eqb_refl.
  - destruct (String.eqb k a) eqn:E; simpl; rewrite E; [reflexivity|].
    now rewrite IH.
Qed.

Lemma delete_set {V : Type} (k : string) (v : V) (m : JsMap.t V) :
  JsMap.delete k (JsMap.set k v m) = JsMap.delete k m.
Proof.
  induction m as [|[a b] m IH]; simpl.
  - now rewrite String.eqb_refl.
  - destruct (String.eqb k a) eqn:E; simpl; rewrite E; [reflexivity|].
    now rewrite IH.
Qed.

Lemma delete_fresh {V : Type} (k : string) (m : JsMap.t V) :
  JsMap.get k m = None -> JsMap.delete k m = m.
Proof.
  induction m as [|[a b] m IH]; simpl; [reflexivity|].
  destruct (String.eqb k a); [discriminate|]. intros G. now rewrite IH.
Qed.

Lemma initiate_guard_state data socket now s l :
  val (initiate_guard data socket now s) = Some l ->
  st (initiate_guard data socket now s) = s
  \/ st (initiate_guard data socket now s)
     = madeAvailable (i_recipientId data) now s.
Proof.
  unfold initiate_guard.
  destruct (falsy (i_callerId data) || falsy (i_recipientId data));
    [discriminate|].
  unfold bind, gets, when, tell, ret. cbn [val st out].
  destruct (JsMap.get (i_recipientId data) (userStatus s)) as [x|].
  - cbn [isSome negb]. rewrite andb_false_r.
    destruct (StatusName.eqb (UserStatus.status x) StatusName.busy
              || StatusName.eqb (UserStatus.status x) StatusName.ringing);
      cbn [val st]; [discriminate | now left].
  - cbn [isSome negb]. rewrite andb_true_r.
    destruct (hasLiveSocket (i_recipientId data) s); cbn [val st];
      intros _; [right | left]; reflexivity.
Qed.

Lemma initiate_resume_rings_state data socket now fcmSent l s0 d t :
  val (initiate_resume data socket now fcmSent l s0)
    = Some (ringTimeout d t) ->
  exists call0,
    st (initiate_resume data socket now fcmSent l s0)
    = with_userStatus
        (JsMap.set (i_recipientId data)
           (statusObj StatusName.ringing (Some (rt_callId t)) now)
           (userStatus s0))
        (with_activeCalls
           (JsMap.set (rt_callId t) call0 (activeCalls s0)) s0)
    /\ Call.status call0 = CallStatus.ringing
    /\ rt_recipientId t = i_recipientId data.
Proof.
  unfold initiate_resume, initiate_push. msimpl.
  destruct (negb (StatusName.eqb (resolveOffline (i_recipientId data) l s0)
                    StatusName.available)
            && negb (StatusName.eqb
                       (resolveOffline (i_recipientId data) l s0)
                       StatusName.fcm_reachable)); msimpl; [discriminate|].
  destruct (JsMap.get (i_recipientId data) (connectedUsers s0)) as [c|];
    msimpl.
  - destruct (Conn.isOnline c); msimpl.
    + intros [= <- <-]. cbn [rt_callId rt_recipientId].
      rewrite get_set_same. msimpl. rewrite set_set.
      eexists. split; [reflexivity|]. split; reflexivity.
    + destruct (StatusName.eqb _ StatusName.fcm_reachable); msimpl;
        [destruct fcmSent; msimpl|]; discriminate.
  - destruct (StatusName.eqb _ StatusName.fcm_reachable); msimpl;
      [destruct fcmSent; msimpl|]; discriminate.
Qed.

(** The state a ringing initiation leaves: one new session in status
    [ringing] and the recipient's status set to [ringing]. *)
Lemma initiate_call_rings_state data socket now fcmSent s d t :
  val (initiate_call data socket now fcmSent s) = Some (ringTimeout d t) ->
  exists call0 us,
    st (initiate_call data socket now fcmSent s)
    = with_userStatus
        (JsMap.set (i_recipientId data)
           (statusObj StatusName.ringing (Some (rt_callId t)) now) us)
        (with_activeCalls
           (JsMap.set (rt_callId t) call0 (activeCalls s)) s)
    /\ (us = userStatus s
        \/ us = JsMap.set (i_recipientId data)
                  (statusObj StatusName.available None now) (userStatus s))
    /\ Call.status call0 = CallStatus.ringing
    /\ rt_recipientId t = i_recipientId data.
Proof.
  unfold initiate_call, bind. cbn [val st].
  destruct (val (initiate_guard data socket now s)) as [l|] eqn:G;
    [|discriminate].
  intros V. destruct (initiate_resume_rings_state _ _ _ _ _ _ _ _ V)
    as (call0 & E & C & R).
  exists call0, (userStatus (st (initiate_guard data socket now s))).
  rewrite E.
  destruct (initiate_guard_state _ _ _ _ _ G) as [S|S]; rewrite S;
    (split; [reflexivity|]); (split; [|split; assumption]);
    [left | right]; reflexivity.
Qed.

(** X9.  A ringing call that is never answered leaves nothing behind:
    when an initiation with a fresh call id has rung its recipient,
    the ring timeout, a decline and a cancel each bring the server back
    to the state before the initiation, except that the recipient's
    status is [available] with a new timestamp; in particular the
    session is gone, no timer was started and nothing is billed. *)
Theorem unanswered_call_leaves_no_session :
  forall (s : State) (data : InitiateData) (socket socket2 userId reason : string)
         (now now2 : Z) (fcmSent : bool) (d : Z) (t : RingTimeout),
    val (initiate_call data socket now fcmSent s) = Some (ringTimeout d t) ->
    JsMap.get (rt_callId t) (activeCalls s) = None ->
    let s1 := st (initiate_call data socket now fcmSent s) in
    let callData :=
      mkCallData (rt_callId t) (i_callerId data) (i_recipientId data) in
    let cancelData :=
      mkCancelData (rt_callId t) (i_callerId data) (i_recipientId data)
        userId reason in
    let restored := madeAvailable (i_recipientId data) now2 s in
    exec (ring_timeout t now2) s1 = restored
    /\ exec (decline_call callData socket2 now2) s1 = restored
    /\ exec (cancel_call cancelData now2) s1 = restored
    /\ Forall noDeduct (trace (ring_timeout t now2) s1)
    /\ Forall noDeduct (trace (decline_call callData socket2 now2) s1)
    /\ Forall noDeduct (trace (cancel_call cancelData now2) s1).
Proof.
  intros s data socket socket2 userId reason now now2 fcmSent d t V F
    s1 callData cancelData restored.
  destruct (initiate_call_rings_state _ _ _ _ _ _ _ V)
    as (call0 & us & E & U & C & R).
  assert (ND : forall e, emits noDeduct (handle e) ->
                 Forall noDeduct (out (handle e s1))).
  { intros e H. apply Forall_forall. intros x I. exact (H s1 x I). }
  subst s1 restored. unfold madeAvailable. rewrite E.
  split; [|split; [|split; [|split; [|split]]]].
  - unfold exec, ring_timeout. msimpl. rewrite get_set_same, C.
    cbn [CallStatus.eqb when]. msimpl. rewrite get_set_same. msimpl.
    rewrite R, !set_set, delete_set, delete_fresh by exact F.
    destruct U as [->| ->]; rewrite ?set_set; now destruct s.
  - unfold exec, decline_call, callData. cbn [d_callId d_callerId d_recipientId].
    msimpl. rewrite get_set_same. msimpl. rewrite get_set_same. msimpl.
    destruct (JsMap.get (i_callerId data) (connectedUsers s)); msimpl;
      rewrite !set_set, delete_set, delete_fresh by exact F;
      destruct U as [->| ->]; rewrite ?set_set; now destruct s.
  - unfold exec, cancel_call, cancelData.
    cbn [x_callId x_callerId x_recipientId x_userId x_reason].
    msimpl. rewrite get_set_same. msimpl. rewrite get_set_same. msimpl.
    destruct (JsMap.get (i_recipientId data) (connectedUsers s)); msimpl;
      rewrite !set_set, delete_set, delete_fresh by exact F;
      destruct U as [->| ->]; rewrite ?set_set; now destruct s.
  - rewrite <- E. apply (ND (ev_ring_timeout t now2)).
    apply other_handlers_noDeduct; discriminate.
  - rewrite <- E. apply (ND (ev_decline_call callData socket2 now2)).
    apply other_handlers_noDeduct; discriminate.
  - rewrite <- E. apply (ND (ev_cancel_call cancelData now2)).
    apply other_handlers_noDeduct; discriminate.
Qed.

Lemma unanswered_call_leaves_no_session_witness :
  exec (ring_timeout (mkRingTimeout "X" "R" sock_R sock_C) 32000)
    (st (initiate_call audioCall sock_C 2000 true lobby))
  = madeAvailable "R" 32000 lobby.
Proof.
  assert (V : val (initiate_call audioCall sock_C 2000 true lobby)
              = Some (ringTimeout 30000 (mkRingTimeout "X" "R" sock_R sock_C)))
    by (vm_compute; reflexivity).
  assert (F : JsMap.get "X" (activeCalls lobby) = None)
    by (vm_compute; reflexivity).
  pose proof (unanswered_call_leaves_no_session lobby audioCall sock_C sock_R
                "C" "" 2000 32000 true _ _ V F) as H.
  cbv zeta in H. destruct H as [H _]. exact H.
Defined.

(** ** Reconnecting *)







(** ** The key comparison of the diagnostic endpoints *)

Lemma charCode_inj x y : charCode x = charCode y -> x = y.
Proof.
  unfold charCode. intros E. apply N2Z.inj in E.
  rewrite <- (ascii_N_embedding x), <- (ascii_N_embedding y). now rewrite E.
Qed.

Lemma charCode_nonneg x : 0 <= charCode x.
Proof. unfold charCode. apply N2Z.is_nonneg. Qed.

Lemma safeCompare_loop_zero a : forall b r,
  String.length a = String.length b ->
  (safeCompare_loop a b r = 0 <-> r = 0 /\ a = b).
Proof.
  induction a as [|x a IH]; intros [|y b] r L; try discriminate L.
  - simpl. intuition.
  - simpl. injection L as L. rewrite (IH b _ L), Z.lor_eq_0_iff.
    rewrite Z.lxor_eq_0_iff. split.
    + intros [[R E] ->]. apply charCode_inj in E. subst. auto.
    + intros [R E]. injection E as -> ->. auto.
Qed.

Lemma safeCompare_strings a b :
  safeCompare (js_string a) (js_string b) = true <-> a = b.
Proof.
  simpl.
  destruct (Nat.eqb (String.length a) (String.length b)) eqn:L; simpl.
  - apply Nat.eqb_eq in L. rewrite Z.eqb_eq, (safeCompare_loop_zero a b 0 L).
    tauto.
  - apply Nat.eqb_neq in L. split; [discriminate|].
    intros ->. now elim L.
Qed.

(** X11.  [safeCompare] is string equality: it answers [true] exactly
    when both arguments are strings and are the same string. *)
Theorem safeCompare_true_iff_same_string a b :
  safeCompare a b = true <-> exists s, a = js_string s /\ b = js_string s.
Proof.
  destruct a as [a|], b as [b|];
    try (split; [discriminate | intros (s & E1 & E2); discriminate]).
  rewrite safeCompare_strings. split.
  - intros ->. now exists b.
  - intros (s & [= ->] & [= ->]). reflexivity.
Qed.

(** X12.  [requireDiagnosticAuth] lets a request through in exactly two
    cases: outside production when no key is configured, or when a key is
    configured and the [x-api-key] header is that key.  With a key
    configured the header is required in development too, and production
    without a configured key refuses every request. *)
Theorem requireDiagnosticAuth_passes_iff isProduction expectedKey apiKey :
  requireDiagnosticAuth isProduction expectedKey apiKey = next
  <-> (isProduction = false /\ expectedKey = "")
      \/ (expectedKey <> "" /\ apiKey = Some expectedKey).
Proof.
  unfold requireDiagnosticAuth, falsy.
  destruct (String.eqb_spec expectedKey "") as [->|NE].
  - destruct isProduction; simpl.
    + split; [discriminate|]. intros [[D _]|[N _]]; [discriminate | now elim N].
    + split; [now left | reflexivity].
  - rewrite andb_false_r.
    destruct apiKey as [k|].
    + destruct (String.eqb_spec k "") as [->|NK].
      * split; [discriminate|].
        intros [[_ E]|[_ E]]; [now elim NE | injection E as <-; now elim NE].
      * destruct (safeCompare (js_string k) (js_string expectedKey)) eqn:C;
          simpl.
        -- apply safeCompare_strings in C. subst k.
           split; [right; auto | reflexivity].
        -- split; [discriminate|].
           intros [[_ E]|[_ E]]; [now elim NE|]. injection E as ->.
           assert (T : safeCompare (js_string expectedKey)
                         (js_string expectedKey) = true)
             by now apply safeCompare_strings.
           congruence.
    + split; [discriminate|].
      intros [[_ E]|[_ E]]; [now elim NE | discriminate].
Qed.









Lemma toLowerCaseChar_is (x : ascii) (lo up : ascii) :
  (forall y, toLowerCaseChar y = lo -> y = lo \/ y = up) ->
  toLowerCaseChar lo = lo -> toLowerCaseChar up = lo ->
  (toLowerCaseChar x = lo <-> x = lo \/ x = up).
Proof.
  intros H L U. split; [apply H|]. intros [->| ->]; assumption.
Qed.

Lemma lower_t x : toLowerCaseChar x = "t"%char <-> (x = "t" \/ x = "T")%char.
Proof.
  apply toLowerCaseChar_is; [|reflexivity|reflexivity].
  intros y. destruct y as [[|] [|] [|] [|] [|] [|] [|] [|]];
    vm_compute; intros E; try discriminate E; auto.
Qed.

Lemma lower_r x : toLowerCaseChar x = "r"%char <-> (x = "r" \/ x = "R")%char.
Proof.
  apply toLowerCaseChar_is; [|reflexivity|reflexivity].
  intros y. destruct y as [[|] [|] [|] [|] [|] [|] [|] [|]];
    vm_compute; intros E; try discriminate E; auto.
Qed.

Lemma lower_u x : toLowerCaseChar x = "u"%char <-> (x = "u" \/ x = "U")%char.
Proof.
  apply toLowerCaseChar_is; [|reflexivity|reflexivity].
  intros y. destruct y as [[|] [|] [|] [|] [|] [|] [|] [|]];
    vm_compute; intros E; try discriminate E; auto.
Qed.

Lemma lower_e x : toLowerCaseChar x = "e"%char <-> (x = "e" \/ x = "E")%char.
Proof.
  apply toLowerCaseChar_is; [|reflexivity|reflexivity].
  intros y. destruct y as [[|] [|] [|] [|] [|] [|] [|] [|]];
    vm_compute; intros E; try discriminate E; auto.
Qed.

Lemma toLowerCase_true v : toLowerCase v = "true" <-> spellsTrue v.
Proof.
  unfold spellsTrue. split.
  - destruct v as [|a [|b [|c [|e [|z v]]]]]; simpl; try discriminate.
    intros [= A B C E].
    exists a, b, c, e. split; [reflexivity|].
    rewrite <- lower_t, <- lower_r, <- lower_u, <- lower_e. auto.
  - intros (a & b & c & e & -> & A & B & C & E). simpl.
    apply lower_t in A. apply lower_r in B. apply lower_u in C.
    apply lower_e in E. now rewrite A, B, C, E.
Qed.

(** X14.  [parseBoolEnv] falls back to the default only for an unset or
    empty variable.  Any other value decides the setting by itself: it is
    [true] exactly when the value spells [true] in some mix of upper and
    lower case, so [1], [yes] or [on] switch a setting off even when its
    default is [true]. *)
Theorem parseBoolEnv_only_true_enables env key d :
  match env key with
  | None => parseBoolEnv env key d = d
  | Some v =>
      (v = "" -> parseBoolEnv env key d = d)
      /\ (v <> "" -> (parseBoolEnv env key d = true <-> spellsTrue v))
  end.
Proof.
  unfold parseBoolEnv, falsy. destruct (env key) as [v|]; [|reflexivity].
  destruct (String.eqb_spec v "") as [->|N].
  - split; [reflexivity | intros C; now elim C].
  - split; [intros C; now elim N|]. intros _.
    rewrite String.eqb_eq. apply toLowerCase_true.
Qed.

(** ** What [/api/check_call_status] reports *)

(** X15.  For a session held in memory, [/api/check_call_status] reports
    [call_active] exactly while the session is [initiated] or [ringing],
    and never reports [is_connected]: none of the statuses the server
    writes is one the endpoint counts as connected.  An accepted call is
    therefore reported as neither active, nor ringing, nor connected, nor
    ended. *)
Theorem check_call_status_active_only_while_ringing call_id callDoc s c :
  falsy call_id = false ->
  JsMap.get call_id (activeCalls s) = Some c ->
  exists body,
    check_call_status call_id callDoc s = reply_ok body
    /\ cs_call_status body = CallStatus_to_string (Call.status c)
    /\ (cs_call_active body = true <->
          Call.status c = CallStatus.initiated
          \/ Call.status c = CallStatus.ringing)
    /\ cs_is_ringing body = cs_call_active body
    /\ cs_is_connected body = false
    /\ (cs_is_ended body = true <->
          Call.status c = CallStatus.declined
          \/ Call.status c = CallStatus.ended
          \/ Call.status c = CallStatus.cancelled
          \/ Call.status c = CallStatus.timeout)
    /\ (Call.status c = CallStatus.accepted ->
          cs_call_active body = false /\ cs_is_ended body = false).
Proof.
  intros F G. unfold check_call_status. rewrite F, G. cbv zeta.
  eexists. split; [reflexivity|].
  cbn [cs_call_status cs_call_active cs_is_ringing cs_is_connected
       cs_is_ended].
  destruct (Call.status c); cbn;
    repeat split; try reflexivity; try discriminate; auto;
    try (intros [H|H]; discriminate H);
    try (intros [H|[H|[H|H]]]; discriminate H).
Qed.

Lemma check_call_status_active_only_while_ringing_witness :
  exists body,
    check_call_status "X" None inCall = reply_ok body
    /\ cs_call_status body = "accepted"
    /\ cs_call_active body = false
    /\ cs_is_connected body = false
    /\ cs_is_ended body = false.
Proof.
  assert (G : JsMap.get "X" (activeCalls inCall)
              = Some (Call.mk "X" "audio_C_R" "C" "R" "audio"
                        CallStatus.accepted 2000 ["C"; "R"] (Some 3000) None
                        None (Some true)))
    by (vm_compute; reflexivity).
  destruct (check_call_status_active_only_while_ringing "X" None inCall _
              eq_refl G) as (body & E & S & _ & _ & K & _ & A).
  exists body. cbn [Call.status CallStatus_to_string] in S.
  destruct (A eq_refl) as [A1 A2]. auto.
Defined.

(** ** Access tokens *)

Lemma stripPrefix_app p : forall s rest,
  stripPrefix p s = Some rest -> s = p ++ rest.
Proof.
  induction p as [|a p IH]; intros s rest; simpl.
  - now intros [= ->].
  - destruct s as [|b s]; [discriminate|].
    destruct (Ascii.eqb_spec a b) as [->|]; [|discriminate].
    intros H. now rewrite (IH _ _ H).
Qed.

Lemma stripPrefix_intro p rest : stripPrefix p (p ++ rest) = Some rest.
Proof.
  induction p as [|a p IH]; simpl; [reflexivity|].
  now rewrite Ascii.eqb_refl.
Qed.

Lemma length_append (a b : string) :
  String.length (a ++ b) = (String.length a + String.length b)%nat.
Proof. induction a as [|c a IH]; simpl; [reflexivity | now rewrite IH]. Qed.

Lemma allRoomChars_app a b :
  allRoomChars (a ++ b) = allRoomChars a && allRoomChars b.
Proof.
  induction a as [|c a IH]; simpl; [reflexivity|].
  now rewrite IH, andb_assoc.
Qed.

(** A room name the pattern accepts is [video_] or [audio_] followed by
    at least one word character, so it has at least seven characters. *)
Lemma roomNameMatches_shape room :
  roomNameMatches room = true <->
  exists rest,
    (room = "video_" ++ rest \/ room = "audio_" ++ rest)
    /\ rest <> "" /\ allRoomChars rest = true.
Proof.
  unfold roomNameMatches. split.
  - destruct (stripPrefix "video_" room) as [rest|] eqn:V.
    + intros H. apply andb_prop in H as [N A]. exists rest.
      split; [left; now apply stripPrefix_app|]. split; [|exact A].
      intros ->. discriminate N.
    + destruct (stripPrefix "audio_" room) as [rest|] eqn:Au; [|discriminate].
      intros H. apply andb_prop in H as [N A]. exists rest.
      split; [right; now apply stripPrefix_app|]. split; [|exact A].
      intros ->. discriminate N.
  - intros (rest & [->| ->] & N & A).
    + rewrite stripPrefix_intro, A, andb_true_r.
      destruct rest; [now elim N | reflexivity].
    + replace (stripPrefix "video_" ("audio_" ++ rest)) with (@None string)
        by reflexivity.
      rewrite stripPrefix_intro, A, andb_true_r.
      destruct rest; [now elim N | reflexivity].
Qed.

(** A well-formed room and an identity of three characters or more get
    a token. *)
Lemma generate_token_grants identity room is_video now :
  roomNameMatches room = true ->
  (3 <= String.length identity)%nat ->
  let flag := match is_video with Some b => b | None => true end in
  generate_token (mkGenerateTokenReq identity room is_video) now
  = reply_ok
      (mkGenerateTokenBody (mkAccessToken identity room 1800) room identity
         flag (if flag then COIN_RATES_video else COIN_RATES_audio)
         (now + 1800000)).
Proof.
  intros M L flag. unfold generate_token.
  cbn [gt_user_identity gt_room_name gt_is_video]. fold flag.
  assert (FI : falsy identity = false)
    by (destruct identity; [simpl in L; lia | reflexivity]).
  assert (FR : falsy room = false).
  { apply roomNameMatches_shape in M as (rest & [->| ->] & _);
      reflexivity. }
  rewrite FI, FR, M. cbn [orb negb].
  unfold generateSecureAccessToken. rewrite FI, FR. cbn [orb].
  replace (Nat.ltb (String.length identity) 3) with false
    by (symmetry; apply Nat.ltb_ge; exact L).
  replace (Nat.ltb (String.length room) 5) with false; [reflexivity|].
  symmetry. apply Nat.ltb_ge.
  apply roomNameMatches_shape in M as (rest & [->| ->] & N & _);
    rewrite length_append; destruct rest; try (now elim N); simpl; lia.
Qed.

(** X16.  [/api/generate_token] answers a request that names an identity
    and a room with a token exactly when the room name is [video_] or
    [audio_] followed by one or more word characters and the identity has
    at least three characters.  The token then carries exactly that
    identity and room with a lifetime of 1800 seconds, and the reported
    rate follows the [is_video] flag (video when the flag is absent), not
    the room name's prefix.  A malformed room name is a 400; a
    well-formed one can never fail the token generator's own room check,
    so the only 500 is an identity of one or two characters. *)
Theorem generate_token_outcomes identity room is_video now :
  identity <> "" -> room <> "" ->
  let req := mkGenerateTokenReq identity room is_video in
  let flag := match is_video with Some b => b | None => true end in
  match generate_token req now with
  | reply_ok body =>
      roomNameMatches room = true
      /\ (3 <= String.length identity)%nat
      /\ body = mkGenerateTokenBody (mkAccessToken identity room 1800) room
                  identity flag
                  (if flag then COIN_RATES_video else COIN_RATES_audio)
                  (now + 1800000)
  | reply_error code _ =>
      (code = 400 /\ roomNameMatches room = false)
      \/ (code = 500 /\ roomNameMatches room = true
          /\ (String.length identity < 3)%nat)
  end.
Proof.
  intros NI NR req flag. unfold generate_token. subst req.
  cbn [gt_user_identity gt_room_name gt_is_video]. fold flag.
  assert (FI : falsy identity = false)
    by (unfold falsy; now apply String.eqb_neq).
  assert (FR : falsy room = false)
    by (unfold falsy; now apply String.eqb_neq).
  rewrite FI, FR. cbn [orb].
  destruct (roomNameMatches room) eqn:M; cbn [negb]; [|left; auto].
  unfold generateSecureAccessToken. rewrite FI, FR. cbn [orb].
  destruct (Nat.ltb (String.length identity) 3) eqn:L.
  - apply Nat.ltb_lt in L. right. auto.
  - apply Nat.ltb_ge in L.
    assert (R5 : Nat.ltb (String.length room) 5 = false).
    { apply Nat.ltb_ge.
      apply roomNameMatches_shape in M as (rest & [->| ->] & N & _);
        rewrite length_append; destruct rest; try (now elim N);
        simpl; lia. }
    rewrite R5. auto.
Qed.

Lemma generate_token_outcomes_witness :
  match generate_token (mkGenerateTokenReq "C" "audio_C_R" None) 5000 with
  | reply_ok body => False
  | reply_error code _ =>
      (code = 400 /\ roomNameMatches "audio_C_R" = false)
      \/ (code = 500 /\ roomNameMatches "audio_C_R" = true
          /\ (String.length "C" < 3)%nat)
  end.
Proof.
  pose proof (generate_token_outcomes "C" "audio_C_R" None 5000
                ltac:(discriminate) ltac:(discriminate)) as H.
  cbv zeta in H. exact H.
Defined.

(** The session a ringing initiation stores. *)
Lemma initiate_call_rings_session data socket now fcmSent s d t :
  val (initiate_call data socket now fcmSent s) = Some (ringTimeout d t) ->
  exists call0,
    JsMap.get (rt_callId t)
      (activeCalls (st (initiate_call data socket now fcmSent s)))
    = Some call0
    /\ Call.roomName call0
       = orStr (i_roomName data)
           (callTypeOf data ++ "_" ++ i_callerId data ++ "_"
            ++ i_recipientId data)
    /\ Call.callerId call0 = i_callerId data
    /\ Call.callType call0 = callTypeOf data.
Proof.
  unfold initiate_call, bind. cbn [val st].
  destruct (val (initiate_guard data socket now s)) as [l|] eqn:G;
    [|discriminate].
  set (s0 := st (initiate_guard data socket now s)). clearbody s0.
  unfold initiate_resume, initiate_push. msimpl.
  destruct (negb (StatusName.eqb (resolveOffline (i_recipientId data) l s0)
                    StatusName.available)
            && negb (StatusName.eqb
                       (resolveOffline (i_recipientId data) l s0)
                       StatusName.fcm_reachable)); msimpl; [discriminate|].
  destruct (JsMap.get (i_recipientId data) (connectedUsers s0)) as [c|];
    msimpl.
  - destruct (Conn.isOnline c); msimpl.
    + intros [= <- <-]. cbn [rt_callId].
      rewrite get_set_same. msimpl. rewrite get_set_same.
      eexists. split; [reflexivity|]. repeat split.
    + destruct (StatusName.eqb _ StatusName.fcm_reachable); msimpl;
        [destruct fcmSent; msimpl|]; discriminate.
  - destruct (StatusName.eqb _ StatusName.fcm_reachable); msimpl;
      [destruct fcmSent; msimpl|]; discriminate.
Qed.

Lemma built_room_matches callType callerId recipientId :
  callType = "video" \/ callType = "audio" ->
  allRoomChars callerId = true -> allRoomChars recipientId = true ->
  roomNameMatches (callType ++ "_" ++ callerId ++ "_" ++ recipientId) = true.
Proof.
  intros T A B. apply roomNameMatches_shape.
  exists (callerId ++ "_" ++ recipientId).
  split; [destruct T as [->| ->]; [left|right]; reflexivity|].
  split.
  - destruct callerId; discriminate.
  - rewrite allRoomChars_app, A. cbn [append allRoomChars].
    now rewrite B.
Qed.

(** X17.  The room of a rung call can be entered: when [initiate_call]
    has rung a recipient with the room name it builds itself
    ([<callType>_<callerId>_<recipientId>]), the call type is [video] or
    [audio] and both ids consist of word characters, then
    [/api/generate_token] grants the caller (whose id has at least three
    characters) a token for exactly the session's room, and with the
    flag set from the call type reports the session's coin rate. *)
Theorem rung_call_room_gets_token :
  forall (s : State) (data : InitiateData) (socket : string) (now now' : Z)
         (fcmSent : bool) (d : Z) (t : RingTimeout),
    val (initiate_call data socket now fcmSent s) = Some (ringTimeout d t) ->
    i_roomName data = "" ->
    callTypeOf data = "video" \/ callTypeOf data = "audio" ->
    allRoomChars (i_callerId data) = true ->
    allRoomChars (i_recipientId data) = true ->
    (3 <= String.length (i_callerId data))%nat ->
    exists call0 body,
      JsMap.get (rt_callId t)
        (activeCalls (st (initiate_call data socket now fcmSent s)))
      = Some call0
      /\ generate_token
           (mkGenerateTokenReq (Call.callerId call0) (Call.roomName call0)
              (Some (String.eqb (Call.callType call0) "video"))) now'
         = reply_ok body
      /\ gb_accessToken body
         = mkAccessToken (i_callerId data) (Call.roomName call0) 1800
      /\ gb_coin_rate_per_second body = coinRateOf (Call.callType call0).
Proof.
  intros s data socket now now' fcmSent d t V RN T A B L.
  destruct (initiate_call_rings_session _ _ _ _ _ _ _ V)
    as (call0 & G & R & C & K).
  exists call0.
  rewrite RN in R. cbn [orStr falsy String.eqb] in R.
  pose proof (built_room_matches _ _ _ T A B) as M. rewrite <- R in M.
  rewrite C.
  rewrite (generate_token_grants (i_callerId data) (Call.roomName call0)
             (Some (String.eqb (Call.callType call0) "video")) now' M L).
  eexists. split; [exact G|]. split; [reflexivity|]. split; [reflexivity|].
  cbn [gb_coin_rate_per_second]. unfold coinRateOf.
  now destruct (String.eqb (Call.callType call0) "video").
Qed.

Lemma rung_call_room_gets_token_witness :
  exists call0 body,
    JsMap.get "X"
      (activeCalls (st (initiate_call
                          (mkInitiateData "Cal" "R" (Some "audio") "X" "" None)
                          sock_C 2000 true lobby)))
    = Some call0
    /\ generate_token
         (mkGenerateTokenReq (Call.callerId call0) (Call.roomName call0)
            (Some (String.eqb (Call.callType call0) "video"))) 2500
       = reply_ok body
    /\ gb_accessToken body
       = mkAccessToken "Cal" (Call.roomName call0) 1800
    /\ gb_coin_rate_per_second body = coinRateOf (Call.callType call0).
Proof.
  assert (V : val (initiate_call
                     (mkInitiateData "Cal" "R" (Some "audio") "X" "" None)
                     sock_C 2000 true lobby)
              = Some (ringTimeout 30000 (mkRingTimeout "X" "R" sock_R sock_C)))
    by (vm_compute; reflexivity).
  apply (rung_call_room_gets_token lobby _ sock_C 2000 2500 true _ _ V);
    [reflexivity | right; reflexivity | reflexivity | reflexivity
    | simpl; lia].
Defined.

(** ** Availability: the pre-call check *)

Lemma hasLiveSocket_online r s :
  hasLiveSocket r s = true ->
  exists c, JsMap.get r (connectedUsers s) = Some c /\ Conn.isOnline c = true.
Proof.
  unfold hasLiveSocket. destruct (JsMap.get r (connectedUsers s)) as [c|];
    [|discriminate].
  intros H. apply andb_prop in H as [O _]. now exists c.
Qed.

(** A recipient with a live socket whose cached status is [available] is
    rung. *)
Lemma initiate_call_rings_available data socket now fcmSent s x :
  falsy (i_callerId data) = false ->
  falsy (i_recipientId data) = false ->
  hasLiveSocket (i_recipientId data) s = true ->
  JsMap.get (i_recipientId data) (userStatus s) = Some x ->
  UserStatus.status x = StatusName.available ->
  exists t,
    val (initiate_call data socket now fcmSent s)
    = Some (ringTimeout 30000 t).
Proof.
  intros FC FR L G A.
  assert (F : falsy (i_callerId data) || falsy (i_recipientId data) = false)
    by now rewrite FC, FR.
  assert (B : StatusName.eqb (UserStatus.status x) StatusName.busy
              || StatusName.eqb (UserStatus.status x) StatusName.ringing
              = false) by now rewrite A.
  unfold initiate_call, bind.
  rewrite (initiate_guard_cached s data socket now x F G B).
  cbn [val st out]. rewrite L, A.
  destruct (hasLiveSocket_online _ _ L) as (c & C & O).
  unfold initiate_resume. msimpl.
  unfold resolveOffline. cbn [l_hasConnection l_actualStatus StatusName.eqb].
  msimpl. rewrite C, O. msimpl. eexists. reflexivity.
Qed.

Lemma check_availability_connected r now s :
  falsy r = false -> hasLiveSocket r s = true ->
  check_availability r now s
  = match JsMap.get r (userStatus s) with
    | Some x =>
        mkRes
          (reply_ok
             (mkAvailabilityBody
                (StatusName.eqb (UserStatus.status x) StatusName.available)
                (UserStatus.status x) (UserStatus.currentCallId x)
                (if StatusName.eqb (UserStatus.status x) StatusName.available
                 then "User is available"
                 else "User is currently "
                      ++ StatusName.to_string (UserStatus.status x))))
          s []
    | None =>
        let p := savedPreference r s in
        let a := if p then StatusName.available else StatusName.unavailable in
        mkRes
          (reply_ok
             (mkAvailabilityBody (StatusName.eqb a StatusName.available) a
                None
                (if StatusName.eqb a StatusName.available
                 then "User is available"
                 else "User is currently " ++ StatusName.to_string a)))
          (with_userStatus
             (JsMap.set r (UserStatus.mk a None now (Some p))
                (userStatus s)) s)
          []
    end.
Proof.
  intros F L. unfold check_availability. rewrite F.
  unfold bind, gets, ret, setUserStatusSync, modify. cbn [val st out].
  rewrite L. destruct (JsMap.get r (userStatus s)) as [x|]; reflexivity.
Qed.

Lemma check_availability_offline r now s :
  falsy r = false -> hasLiveSocket r s = false ->
  check_availability r now s
  = mkRes
      (reply_ok
         (mkAvailabilityBody false StatusName.unavailable None
            "User is currently unavailable"))
      s [].
Proof.
  intros F L. unfold check_availability. rewrite F.
  unfold bind, gets, ret. cbn [val st out]. rewrite L. reflexivity.
Qed.

Lemma hasLiveSocket_with_userStatus r m s :
  hasLiveSocket r (with_userStatus m s) = hasLiveSocket r s.
Proof. reflexivity. Qed.

(** X18.  [/api/check_availability] answers [is_available] only for a
    user with a live socket; without one the answer is [unavailable] and
    nothing changes.  Asked again at once, it gives the same answer and
    changes nothing.  And the check agrees with the call path: whenever
    it answers [is_available], an [initiate_call] to that user that
    follows it rings the user. *)
Theorem check_availability_agrees_with_initiate :
  forall (s : State) (r : string) (now now2 : Z) (data : InitiateData)
         (socket : string) (fcmSent : bool),
    falsy r = false ->
    let res := check_availability r now s in
    exists body,
      val res = reply_ok body
      /\ out res = []
      /\ (av_is_available body = true -> hasLiveSocket r s = true)
      /\ (hasLiveSocket r s = false ->
            av_user_status body = StatusName.unavailable /\ st res = s)
      /\ check_availability r now2 (st res)
         = mkRes (reply_ok body) (st res) []
      /\ (av_is_available body = true ->
          i_recipientId data = r -> falsy (i_callerId data) = false ->
          exists t,
            val (initiate_call data socket now2 fcmSent (st res))
            = Some (ringTimeout 30000 t)).
Proof.
  intros s r now now2 data socket fcmSent F res. subst res.
  destruct (hasLiveSocket r s) eqn:L.
  - rewrite (check_availability_connected r now s F L).
    destruct (JsMap.get r (userStatus s)) as [x|] eqn:G.
    + eexists. cbn [val st out]. split; [reflexivity|].
      split; [reflexivity|]. split; [auto|]. split; [discriminate|].
      split.
      * rewrite (check_availability_connected r now2 s F L), G. reflexivity.
      * cbn [av_is_available]. intros A E FC. subst r.
        apply (initiate_call_rings_available data socket now2 fcmSent s x);
          try assumption.
        destruct (UserStatus.status x); try discriminate A; reflexivity.
    + cbv zeta. eexists. cbn [val st out]. split; [reflexivity|].
      split; [reflexivity|]. split; [auto|]. split; [discriminate|].
      split.
      * match goal with
        | |- check_availability _ _ ?s1 = _ =>
            rewrite (check_availability_connected r now2 s1 F L)
        end.
        msimpl. rewrite get_set_same. reflexivity.
      * cbn [av_is_available]. intros A E FC. subst r.
        eapply (initiate_call_rings_available data socket now2 fcmSent).
        -- exact FC.
        -- exact F.
        -- exact L.
        -- msimpl. apply get_set_same.
        -- cbn [UserStatus.status].
           destruct (savedPreference (i_recipientId data) s);
             [reflexivity | discriminate A].
  - rewrite (check_availability_offline r now s F L).
    eexists. cbn [val st out]. split; [reflexivity|].
    split; [reflexivity|]. split; [discriminate|]. split; [auto|].
    split; [now rewrite (check_availability_offline r now2 s F L)|].
    discriminate.
Qed.

Lemma check_availability_agrees_with_initiate_witness :
  exists body,
    val (check_availability "R" 1500 lobby) = reply_ok body
    /\ out (check_availability "R" 1500 lobby) = []
    /\ av_is_available body = true.
Proof.
  destruct (check_availability_agrees_with_initiate lobby "R" 1500 1600
              audioCall sock_C true eq_refl)
    as (body & V & O & _).
  exists body. split; [exact V|]. split; [exact O|].
  assert (E : val (check_availability "R" 1500 lobby)
              = reply_ok (mkAvailabilityBody true StatusName.available None
                            "User is available"))
    by (vm_compute; reflexivity).
  rewrite V in E. injection E as ->. reflexivity.
Defined.

(** ** Availability: the toggle *)

Lemma savedPreference_saveAvailability u flag s :
  savedPreference u (st (saveAvailability u flag s)) = flag.
Proof.
  unfold savedPreference, saveAvailability. msimpl. rewrite get_set_same.
  destruct (JsMap.get u (users s)); cbn [UserDoc.isAvailable];
    now destruct flag.
Qed.

(** X19.  [/api/update_availability] refuses exactly one change: a user
    whose status is [busy] asking to become unavailable; nothing changes
    then.  Every other request is carried out whatever the user's
    status: the status becomes [available] or [unavailable] as asked
    while [currentCallId] is kept, the choice is saved as the Firestore
    preference, and nobody else's status, no session and no timer is
    touched.  So a user who is busy on a call and switches to available
    is, with a live socket, rung by the next [initiate_call]. *)
Theorem update_availability_overrides_call_status :
  forall (s : State) (u : string) (flag isFemale : bool) (now now2 : Z)
         (data : InitiateData) (socket : string) (fcmSent : bool),
    falsy u = false ->
    let res := update_availability u (Some flag) isFemale now s in
    let busy :=
      match JsMap.get u (userStatus s) with
      | Some x => StatusName.eqb (UserStatus.status x) StatusName.busy
      | None => false
      end in
    if busy && negb flag
    then
      val res
      = (reply_error 400 "Cannot set unavailable while on a call", [])
      /\ st res = s
    else
      exists cid,
        JsMap.get u (userStatus (st res))
        = Some (UserStatus.mk
                  (if flag then StatusName.available
                   else StatusName.unavailable)
                  cid now (Some flag))
        /\ (forall x id,
              JsMap.get u (userStatus s) = Some x ->
              UserStatus.currentCallId x = Some id -> falsy id = false ->
              cid = Some id)
        /\ savedPreference u (st res) = flag
        /\ (forall u', u' <> u ->
              JsMap.get u' (userStatus (st res))
              = JsMap.get u' (userStatus s))
        /\ activeCalls (st res) = activeCalls s
        /\ callTimers (st res) = callTimers s
        /\ (flag = true -> hasLiveSocket u s = true ->
            i_recipientId data = u -> falsy (i_callerId data) = false ->
            exists t,
              val (initiate_call data socket now2 fcmSent (st res))
              = Some (ringTimeout 30000 t)).
Proof.
  intros s u flag isFemale now now2 data socket fcmSent F res busy.
  subst res. unfold update_availability. rewrite F.
  unfold bind, gets, ret. cbn [val st out]. fold busy.
  destruct (busy && negb flag) eqn:B; cbn [val st out];
    [split; reflexivity|].
  set (cid := match JsMap.get u (userStatus s) with
              | Some x =>
                  match UserStatus.currentCallId x with
                  | Some id => if falsy id then None else Some id
                  | None => None
                  end
              | None => None
              end).
  exists cid.
  unfold saveAvailability. msimpl.
  split; [apply get_set_same|].
  split.
  { intros x id G C N. subst cid. now rewrite G, C, N. }
  split.
  { apply (savedPreference_saveAvailability u flag
             (with_userStatus
                (JsMap.set u
                   (UserStatus.mk
                      (if flag then StatusName.available
                       else StatusName.unavailable) cid now (Some flag))
                   (userStatus s)) s)). }
  split; [intros u' N; now apply get_set_other|].
  split; [reflexivity|]. split; [reflexivity|].
  intros -> L E FC. subst u.
  eapply (initiate_call_rings_available data socket now2 fcmSent).
  - exact FC.
  - exact F.
  - exact L.
  - msimpl. apply get_set_same.
  - reflexivity.
Qed.

Lemma update_availability_overrides_call_status_witness :
  exists cid,
    JsMap.get "R"
      (userStatus (st (update_availability "R" (Some true) true 9000 inCall)))
    = Some (UserStatus.mk StatusName.available cid 9000 (Some true))
    /\ cid = Some "X".
Proof.
  pose proof (update_availability_overrides_call_status inCall "R" true true
                9000 9500 audioCall sock_C true eq_refl) as H.
  cbv zeta in H.
  replace (match JsMap.get "R" (userStatus inCall) with
           | Some x => StatusName.eqb (UserStatus.status x) StatusName.busy
           | None => false
           end && negb true) with false in H by (vm_compute; reflexivity).
  destruct H as (cid & G & C & _). exists cid. split; [exact G|].
  apply (C (statusObj StatusName.busy (Some "X") 3000) "X");
    [vm_compute; reflexivity | reflexivity | reflexivity].
Defined.

(** ** Disconnect timeouts: one per user, cancelled by a reconnect *)

Lemma cancel_pending u p h c :
  In (h, c) (Presence.pending (cancelDisconnectTimeout u p)) ->
  In (h, c) (Presence.pending p).
Proof.
  unfold cancelDisconnectTimeout.
  destruct (JsMap.get u (Presence.disconnectTimeouts p)) as [e|]; [|auto].
  cbn. intros I. apply filter_In in I. tauto.
Qed.

Lemma cancel_no_pending u p :
  presenceWf p ->
  forall h c, In (h, c) (Presence.pending (cancelDisconnectTimeout u p)) ->
              Presence.c_userId c <> u.
Proof.
  intros [W _] h c I E. unfold cancelDisconnectTimeout in I.
  destruct (JsMap.get u (Presence.disconnectTimeouts p)) as [e|] eqn:G.
  - cbn in I. apply filter_In in I as [I N].
    destruct (W h c I) as (e' & G' & T). rewrite E, G in G'.
    injection G' as <-. cbn in N. rewrite T, Nat.eqb_refl in N.
    discriminate N.
  - destruct (W h c I) as (e' & G' & _). rewrite E, G in G'. discriminate.
Qed.

Lemma cancel_wf u p : presenceWf p -> presenceWf (cancelDisconnectTimeout u p).
Proof.
  intros W. pose proof (cancel_no_pending u p W) as NP.
  destruct W as [W1 W2]. split.
  - intros h c I. pose proof (NP h c I) as N.
    apply cancel_pending in I. destruct (W1 h c I) as (e & G & T).
    exists e. split; [|exact T].
    unfold cancelDisconnectTimeout.
    destruct (JsMap.get u (Presence.disconnectTimeouts p)); [|exact G].
    cbn. now rewrite get_delete_other.
  - intros h c I. apply cancel_pending in I.
    unfold cancelDisconnectTimeout.
    destruct (JsMap.get u (Presence.disconnectTimeouts p)); cbn;
      now apply (W2 h c).
Qed.

Lemma cancel_frame u p :
  Presence.docs (cancelDisconnectTimeout u p) = Presence.docs p
  /\ Presence.connectedUsers (cancelDisconnectTimeout u p)
     = Presence.connectedUsers p
  /\ JsMap.get u (Presence.disconnectTimeouts (cancelDisconnectTimeout u p))
     = None.
Proof.
  unfold cancelDisconnectTimeout.
  destruct (JsMap.get u (Presence.disconnectTimeouts p)) eqn:G; cbn;
    [rewrite get_delete_same|]; auto.
Qed.

Lemma start_wf u ty now p :
  presenceWf p -> presenceWf (startDisconnectTimeout u ty now p).
Proof.
  intros W. pose proof (cancel_no_pending u p W) as NP.
  apply (cancel_wf u) in W. destruct W as [W1 W2].
  unfold startDisconnectTimeout. cbv zeta. split; cbn.
  - intros h c I. apply in_app_or in I as [I|[[= <- <-]|[]]].
    + destruct (W1 h c I) as (e & G & T). exists e. split; [|exact T].
      rewrite get_set_other; [exact G|]. now apply (NP h c).
    + cbn. rewrite get_set_same. eexists. split; reflexivity.
  - intros h c I. apply in_app_or in I as [I|[[= <- <-]|[]]].
    + specialize (W2 h c I). lia.
    + lia.
Qed.

Lemma find_fresh (l : list (nat * Presence.Closure)) h c :
  (forall h' c', In (h', c') l -> (h' < h)%nat) ->
  List.find (fun e => Nat.eqb (fst e) h) (l ++ [(h, c)]) = Some (h, c).
Proof.
  induction l as [|[h' c'] l IH]; intros F; cbn.
  - now rewrite Nat.eqb_refl.
  - assert (L : (h' < h)%nat) by (apply (F h' c'); now left).
    replace (Nat.eqb h' h) with false
      by (symmetry; apply Nat.eqb_neq; lia).
    apply IH. intros h2 c2 I. apply (F h2 c2). now right.
Qed.

Lemma filter_fresh (l : list (nat * Presence.Closure)) h c :
  (forall h' c', In (h', c') l -> (h' < h)%nat) ->
  List.filter (fun e => negb (Nat.eqb (fst e) h)) (l ++ [(h, c)]) = l.
Proof.
  induction l as [|[h' c'] l IH]; intros F; cbn.
  - now rewrite Nat.eqb_refl.
  - assert (L : (h' < h)%nat) by (apply (F h' c'); now left).
    replace (Nat.eqb h' h) with false
      by (symmetry; apply Nat.eqb_neq; lia).
    cbn. f_equal. apply IH. intros h2 c2 I. apply (F h2 c2). now right.
Qed.

Lemma find_absent (l : list (nat * Presence.Closure)) h :
  (forall h' c', In (h', c') l -> h' <> h) ->
  List.find (fun e => Nat.eqb (fst e) h) l = None.
Proof.
  induction l as [|[h' c'] l IH]; intros F; cbn; [reflexivity|].
  replace (Nat.eqb h' h) with false
    by (symmetry; apply Nat.eqb_neq; apply (F h' c'); now left).
  apply IH. intros h2 c2 I. apply (F h2 c2). now right.
Qed.

Lemma due_wf h p : presenceWf p -> presenceWf (fst (timeoutDue h p)).
Proof.
  intros [W1 W2]. unfold timeoutDue.
  destruct (List.find _ (Presence.pending p)) as [[h0 c]|] eqn:F;
    [|split; assumption].
  apply find_some in F as [I E]. cbn in E. apply Nat.eqb_eq in E. subst h0.
  assert (Q : forall q,
            Presence.pending q
            = List.filter (fun e => negb (Nat.eqb (fst e) h))
                (Presence.pending p) ->
            Presence.disconnectTimeouts q
            = JsMap.delete (Presence.c_userId c)
                (Presence.disconnectTimeouts p) ->
            Presence.nextTimeout q = Presence.nextTimeout p ->
            presenceWf q).
  { intros q Pq Dq Nq. split.
    - intros h' c' I'. rewrite Pq in I'. apply filter_In in I' as [I' N].
      cbn in N. apply negb_true_iff, Nat.eqb_neq in N.
      destruct (W1 h' c' I') as (e & G & T). exists e. split; [|exact T].
      rewrite Dq, get_delete_other; [exact G|].
      intros E. destruct (W1 h c I) as (e2 & G2 & T2).
      rewrite E, G2 in G. injection G as <-. congruence.
    - intros h' c' I'. rewrite Pq in I'. apply filter_In in I' as [I' _].
      rewrite Nq. now apply (W2 h' c'). }
  unfold disconnectTimeoutExpired, updateDoc.
  destruct (match JsMap.get (Presence.c_userId c)
                    (Presence.connectedUsers (clearTimeout h p)) with
            | Some uc => Conn.isOnline uc
            | None => false
            end); [apply Q; reflexivity|].
  destruct (String.eqb (Presence.c_userType c) "female");
    destruct (JsMap.get (Presence.c_userId c)
                (Presence.docs (clearTimeout h p)));
    apply Q; reflexivity.
Qed.

Lemma presenceStep_wf e p : presenceWf p -> presenceWf (presenceStep e p).
Proof.
  destruct e; cbn [presenceStep].
  - apply start_wf.
  - apply cancel_wf.
  - apply due_wf.
  - intros W. exact W.
  - intros W. exact W.
Qed.

(** Every state reached from the empty start is well formed. *)
Lemma presenceRun_wf es : presenceWf (presenceRun es presenceInit).
Proof.
  unfold presenceRun.
  assert (G : forall p, presenceWf p ->
                presenceWf (fold_left (fun q e => presenceStep e q) es p)).
  { induction es as [|e es IH]; intros p W; [exact W|].
    cbn. apply IH. now apply presenceStep_wf. }
  apply G. split; intros h c [].
Qed.

(** X20.  Each user has at most one disconnect timeout pending, and a
    reconnect cancels it.  After [startDisconnectTimeout] the only
    pending timeout of the user is the new one.  If
    [cancelDisconnectTimeout] runs before it is due (the user joined
    again), nothing of the user is pending any more: the due date passes
    without any effect and the Firestore flags stay as they were.  If it
    comes due while the user is still offline and has a document, a
    female user is marked both offline and unavailable and
    [availability_changed] is broadcast, any other user is marked
    offline only and [user_status_changed] is broadcast; the timeout's
    entry is removed. *)
Theorem reconnect_cancels_disconnect_timeout :
  forall (p : Presence.t) (u ty : string) (now : Z) (d : Presence.Doc),
    presenceWf p ->
    let p1 := startDisconnectTimeout u ty now p in
    let h := Presence.nextTimeout (cancelDisconnectTimeout u p) in
    let p2 := cancelDisconnectTimeout u p1 in
    (forall h' c,
       In (h', c) (Presence.pending p1) -> Presence.c_userId c = u ->
       h' = h /\ c = Presence.mkClosure u ty)
    /\ In (h, Presence.mkClosure u ty) (Presence.pending p1)
    /\ (forall h' c,
          In (h', c) (Presence.pending p2) -> Presence.c_userId c <> u)
    /\ timeoutDue h p2 = (p2, [])
    /\ Presence.docs p2 = Presence.docs p
    /\ (match JsMap.get u (Presence.connectedUsers p) with
        | Some c => Conn.isOnline c = false
        | None => True
        end ->
        JsMap.get u (Presence.docs p) = Some d ->
        let female := String.eqb ty "female" in
        JsMap.get u (Presence.docs (fst (timeoutDue h p1)))
        = Some (if female
                then Presence.mkDoc (Some false) (Some false) true
                else Presence.mkDoc (Presence.isAvailable d) (Some false)
                       (Presence.forceClosed d))
        /\ snd (timeoutDue h p1)
           = [if female
              then Presence.availability_changed u false false
                     "force_close_detected"
              else Presence.user_status_changed u false
                     "disconnect_timeout"]
        /\ JsMap.get u
             (Presence.disconnectTimeouts (fst (timeoutDue h p1)))
           = None).
Proof.
  intros p u ty now d W p1 h p2.
  pose proof (cancel_no_pending u p W) as NP.
  pose proof (cancel_wf u p W) as [W1 W2].
  pose proof (cancel_frame u p) as (CD & CC & CG).
  pose proof (start_wf u ty now p W) as WS.
  assert (P1 : Presence.pending p1
               = (Presence.pending (cancelDisconnectTimeout u p)
                  ++ [(h, Presence.mkClosure u ty)])%list) by reflexivity.
  assert (G1 : JsMap.get u (Presence.disconnectTimeouts p1)
               = Some (Presence.mkEntry h now (orStr ty "unknown")))
    by (cbn; apply get_set_same).
  split; [|split; [|split; [|split; [|split]]]].
  - intros h' c I E. rewrite P1 in I.
    apply in_app_or in I as [I|[[= <- <-]|[]]]; [|auto].
    now elim (NP h' c I).
  - rewrite P1. apply in_or_app. right. now left.
  - apply (cancel_no_pending u p1 WS).
  - unfold timeoutDue. rewrite find_absent; [reflexivity|].
    intros h' c I E. subst h'.
    pose proof (cancel_no_pending u p1 WS h c I) as N.
    apply cancel_pending in I. rewrite P1 in I.
    apply in_app_or in I as [I|[[= <-]|[]]].
    + specialize (W2 h c I). subst h. lia.
    + now elim N.
  - subst p2. destruct (cancel_frame u p1) as (-> & _). exact CD.
  - intros OFF GD female.
    assert (F : List.find (fun e => Nat.eqb (fst e) h) (Presence.pending p1)
                = Some (h, Presence.mkClosure u ty)).
    { rewrite P1. apply find_fresh. exact W2. }
    unfold timeoutDue. rewrite F.
    unfold disconnectTimeoutExpired, updateDoc.
    cbn [Presence.c_userId Presence.c_userType clearTimeout
         Presence.connectedUsers Presence.docs].
    replace (Presence.connectedUsers p1) with (Presence.connectedUsers p)
      by (symmetry; exact CC).
    replace (Presence.docs p1) with (Presence.docs p)
      by (symmetry; exact CD).
    rewrite GD.
    destruct (JsMap.get u (Presence.connectedUsers p)) as [c|].
    + rewrite OFF. fold female.
      destruct female; cbn; rewrite get_set_same, get_delete_same; auto.
    + fold female.
      destruct female; cbn; rewrite get_set_same, get_delete_same; auto.
Qed.

Lemma reconnect_cancels_disconnect_timeout_witness :
  let p := presenceRun
             [pe_connection "R" (Conn.mk "sR" "female" 1000 false);
              pe_document "R" (Presence.mkDoc (Some true) (Some true) false)]
             presenceInit in
  let p1 := startDisconnectTimeout "R" "female" 8000 p in
  timeoutDue 0 (cancelDisconnectTimeout "R" p1)
  = (cancelDisconnectTimeout "R" p1, [])
  /\ snd (timeoutDue 0 p1)
     = [Presence.availability_changed "R" false false
          "force_close_detected"].
Proof.
  intros p p1.
  pose proof (reconnect_cancels_disconnect_timeout p "R" "female" 8000
                (Presence.mkDoc (Some true) (Some true) false)
                (presenceRun_wf _)) as H.
  cbv zeta in H. destruct H as (_ & _ & _ & H1 & _ & H2).
  split; [exact H1|].
  destruct (H2 eq_refl eq_refl) as (_ & N & _). exact N.
Defined.

(** ** Statistics: counts, ratings and the consistency check *)

Lemma SFcompare_refl_finite s m e :
  SFcompare (S754_finite s m e) (S754_finite s m e) = Some Eq.
Proof.
  cbn. rewrite Z.compare_refl.
  change (PosDef.Pos.compare_cont Eq m m) with (Pos.compare m m).
  rewrite Pos.compare_refl. now destruct s.
Qed.

(** A rating read back from the main document is close to itself exactly
    when it is a finite number. *)
Lemma ratingsClose_self x :
  ratingsClose (orZeroF (Some x)) x = isFiniteDouble x.
Proof.
  unfold ratingsClose, orZeroF, isFiniteDouble, PrimFloat.is_nan,
    PrimFloat.is_zero.
  rewrite !FloatAxioms.eqb_spec.
  replace (Prim2SF zero) with (S754_zero false) by (vm_compute; reflexivity).
  destruct (Prim2SF x) as [s|s| |s m e] eqn:E.
  - cbn [SFeqb SFcompare negb orb].
    rewrite FloatAxioms.ltb_spec, FloatAxioms.abs_spec,
      FloatAxioms.sub_spec, E.
    replace (Prim2SF 0) with (S754_zero false) by (vm_compute; reflexivity).
    replace (Prim2SF 0.5) with (S754_finite false 4503599627370496 (-53))
      by (vm_compute; reflexivity).
    now destruct s.
  - replace (SFeqb (S754_infinity s) (S754_infinity s)) with true
      by now destruct s.
    cbn [SFeqb SFcompare negb orb].
    replace (match (if s then Lt else Gt) with Eq => true | _ => false end)
      with false by now destruct s.
    rewrite FloatAxioms.ltb_spec, FloatAxioms.abs_spec,
      FloatAxioms.sub_spec, E. now destruct s.
  - cbn [SFeqb SFcompare negb orb].
    rewrite FloatAxioms.ltb_spec, FloatAxioms.abs_spec,
      FloatAxioms.sub_spec, E.
    replace (Prim2SF 0) with (S754_zero false) by (vm_compute; reflexivity).
    reflexivity.
  - unfold SFeqb at 1. rewrite SFcompare_refl_finite.
    cbn [SFeqb SFcompare negb orb].
    replace (match (if s then Lt else Gt) with Eq => true | _ => false end)
      with false by now destruct s.
    rewrite FloatAxioms.ltb_spec, FloatAxioms.abs_spec,
      FloatAxioms.sub_spec, E.
    unfold SF64sub, SFsub. cbv zeta. rewrite Z.sub_diag.
    replace (Prim2SF 0.5) with (S754_finite false 4503599627370496 (-53))
      by (vm_compute; reflexivity).
    reflexivity.
Qed.

Lemma countIf_bounds {A : Type} (f : A -> bool) (l : list A) :
  0 <= countIf f l <= Z.of_nat (List.length l).
Proof.
  unfold countIf. pose proof (filter_length_le f l). lia.
Qed.

Lemma ratingRowOk_sound n : forall likes0 likes calls,
  ratingRowOk n likes0 calls = true ->
  likes0 <= likes < likes0 + Z.of_nat n ->
  ratingOk likes calls = true.
Proof.
  induction n as [|n IH]; intros likes0 likes calls A R; [lia|].
  cbn [ratingRowOk] in A. apply andb_prop in A as [A1 A2].
  destruct (Z.eq_dec likes likes0) as [->|N]; [exact A1|].
  apply (IH (likes0 + 1)); [exact A2 | lia].
Qed.

Lemma ratingsOk_sound n : forall calls0 likes calls,
  ratingsOk n calls0 = true ->
  calls0 <= calls < calls0 + Z.of_nat n ->
  0 <= calls0 -> 0 <= likes <= calls ->
  ratingOk likes calls = true.
Proof.
  induction n as [|n IH]; intros calls0 likes calls A R P L; [lia|].
  cbn [ratingsOk] in A. apply andb_prop in A as [A1 A2].
  destruct (Z.eq_dec calls calls0) as [->|N].
  - apply (ratingRowOk_sound _ 0 likes calls0 A1).
    rewrite Z2Nat.id by lia. lia.
  - apply (IH (calls0 + 1)); [exact A2 | lia | lia | exact L].
Qed.

Lemma ratings_checked : ratingsOk 300 1 = true.
Proof. vm_compute. reflexivity. Qed.

(** X21.  The statistics computed from a user's ratings: [totalCalls]
    is the number of ratings, likes and dislikes are each between zero
    and that number, and for up to 300 ratings the rating is a finite
    number between 0.0 and 10.0 with one decimal, namely
    [100 * likes / calls] tenths rounded to the nearest integer (a tie
    may go either way, because the quotient is computed in binary). *)
Theorem statsOfPowerups_counts_and_rating u docs :
  docs <> [] ->
  (List.length docs <= 300)%nat ->
  let s := statsOfPowerups u docs in
  let calls := Z.of_nat (List.length docs) in
  let t := ratingTenths (Stats.totalLikes s) calls in
  let exact := (200 * Stats.totalLikes s + calls) / (2 * calls) in
  Stats.totalCalls s = calls
  /\ 0 <= Stats.totalLikes s <= calls
  /\ 0 <= Stats.totalDislikes s <= calls
  /\ Stats.rating s = doubleOfTenths t
  /\ isFiniteDouble (Stats.rating s) = true
  /\ 0 <= t <= 100
  /\ (t = exact
      \/ ((200 * Stats.totalLikes s + calls) mod (2 * calls) = 0
          /\ t = exact - 1)).
Proof.
  intros NE B s calls t exact.
  assert (P : 0 < calls)
    by (subst calls; destruct docs; [now elim NE | cbn; lia]).
  pose proof (countIf_bounds Stats.like docs) as L.
  pose proof (countIf_bounds Stats.dislike docs) as D.
  assert (R : Stats.rating s = doubleOfTenths t).
  { subst s t. unfold statsOfPowerups. cbn [Stats.rating Stats.totalLikes].
    fold calls. apply Z.ltb_lt in P. now rewrite P. }
  assert (O : ratingOk (Stats.totalLikes s) calls = true).
  { apply (ratingsOk_sound 300 1 _ _ ratings_checked);
      [subst calls; lia | lia | exact L]. }
  unfold ratingOk in O. fold t exact in O.
  apply andb_prop in O as [O F]. apply andb_prop in O as [O E].
  apply andb_prop in O as [O1 O2].
  apply Z.leb_le in O1, O2.
  split; [reflexivity|]. split; [exact L|]. split; [exact D|].
  split; [exact R|]. split; [now rewrite R|]. split; [lia|].
  apply orb_prop in E as [E|E].
  - left. now apply Z.eqb_eq.
  - right. apply andb_prop in E as [E1 E2].
    split; [now apply Z.eqb_eq | now apply Z.eqb_eq].
Qed.

Lemma statsOfPowerups_counts_and_rating_witness :
  let docs := [Stats.mkPowerUp true false; Stats.mkPowerUp false true;
               Stats.mkPowerUp true false] in
  let s := statsOfPowerups "R" docs in
  Stats.totalCalls s = 3 /\ 0 <= Stats.totalLikes s <= 3.
Proof.
  intros docs s.
  destruct (statsOfPowerups_counts_and_rating "R" docs)
    as (C & L & _); [discriminate | cbn; lia |].
  split; [exact C | exact L].
Defined.

Lemma getStatsFromMainDocument_updated u stats store store' :
  updateMainDocumentStats u stats store = Some store' ->
  getStatsFromMainDocument u store'
  = Some (Stats.mk u (orZeroF (Some (Stats.rating stats)))
            (Stats.totalCalls stats) (Stats.totalLikes stats)
            (Stats.totalDislikes stats) "main_document")
  /\ Stats.powerups store' = Stats.powerups store.
Proof.
  unfold updateMainDocumentStats, getStatsFromMainDocument.
  destruct (JsMap.get u (Stats.mainDocs store)); [|discriminate].
  intros [= <-]. cbn. rewrite get_set_same. cbn. auto.
Qed.

(** X22.  What a refresh does to the consistency check.  For a user
    with a document and at least one rating, [getUserStatsWithFallback]
    returns the statistics of the ratings and writes them to the main
    document, and [validateStatsConsistency] then succeeds (exactly when
    the rating is a finite number).  For a user without ratings it
    returns the main document's figures, writes nothing, and the
    consistency check fails whatever the document says; for a user
    without a document it returns the default statistics and the check
    fails as well. *)
Theorem refresh_then_consistency_check u store :
  let r := getUserStatsWithFallback u store in
  match JsMap.get u (Stats.mainDocs store), powerupsOf u store with
  | Some _, (_ :: _) as docs =>
      fst r = statsOfPowerups u docs
      /\ getStatsFromMainDocument u (snd r)
         = Some (Stats.mk u (orZeroF (Some (Stats.rating (fst r))))
                   (Stats.totalCalls (fst r)) (Stats.totalLikes (fst r))
                   (Stats.totalDislikes (fst r)) "main_document")
      /\ validateStatsConsistency u (snd r)
         = isFiniteDouble (Stats.rating (fst r))
  | Some _, [] =>
      getStatsFromMainDocument u store = Some (fst r)
      /\ snd r = store
      /\ validateStatsConsistency u (snd r) = false
  | None, _ =>
      r = (getDefaultStats u, store)
      /\ validateStatsConsistency u (snd r) = false
  end.
Proof.
  cbv zeta. unfold getUserStatsWithFallback.
  destruct (JsMap.get u (Stats.mainDocs store)) as [d|] eqn:G.
  - assert (M0 : exists f, getStatsFromMainDocument u store = Some f)
      by (unfold getStatsFromMainDocument; rewrite G; eauto).
    destruct M0 as [f M0]. rewrite M0.
    destruct (powerupsOf u store) as [|p docs] eqn:P.
    + cbn [fst snd]. split; [reflexivity|]. split; [reflexivity|].
      unfold validateStatsConsistency, getStatsFromSubcollection.
      now rewrite P, M0.
    + cbn [fst snd].
      destruct (updateMainDocumentStats u (statsOfPowerups u (p :: docs))
                  store) as [store'|] eqn:U.
      * destruct (getStatsFromMainDocument_updated _ _ _ _ U) as [M Q].
        split; [reflexivity|]. split; [exact M|].
        unfold validateStatsConsistency, getStatsFromSubcollection.
        rewrite M. unfold powerupsOf in *. rewrite Q, P.
        cbn [Stats.rating Stats.totalCalls Stats.totalLikes].
        rewrite ratingsClose_self, !Z.sub_diag. cbn [Z.abs Z.leb Z.compare].
        now rewrite !andb_true_r.
      * unfold updateMainDocumentStats in U. rewrite G in U. discriminate.
  - assert (M0 : getStatsFromMainDocument u store = None)
      by (unfold getStatsFromMainDocument; now rewrite G).
    rewrite M0. cbn [fst snd].
    destruct (powerupsOf u store);
      (split; [reflexivity|]);
      unfold validateStatsConsistency; now rewrite M0.
Qed.

Lemma keys_set_present {V : Type} (k : string) (v : V) (m : JsMap.t V) :
  JsMap.has k m = true -> JsMap.keys (JsMap.set k v m) = JsMap.keys m.
Proof.
  unfold JsMap.has. induction m as [|[a b] m IH]; cbn; [discriminate|].
  destruct (String.eqb k a) eqn:E; cbn; [reflexivity|].
  intros H. f_equal. now apply IH.
Qed.

Lemma has_keys {V : Type} (k : string) (m m' : JsMap.t V) :
  JsMap.keys m = JsMap.keys m' -> JsMap.has k m = JsMap.has k m'.
Proof.
  unfold JsMap.has. revert m'.
  induction m as [|[a b] m IH]; intros [|[a' b'] m']; cbn;
    try discriminate; [reflexivity|].
  intros [= <- E]. destruct (String.eqb k a); [reflexivity | now apply IH].
Qed.

Lemma updateMainDocumentStats_keys u stats store :
  JsMap.has u (Stats.mainDocs store) = true ->
  exists store',
    updateMainDocumentStats u stats store = Some store'
    /\ JsMap.keys (Stats.mainDocs store') = JsMap.keys (Stats.mainDocs store)
    /\ Stats.powerups store' = Stats.powerups store.
Proof.
  intros H. unfold updateMainDocumentStats.
  pose proof H as H'. unfold JsMap.has in H'.
  destruct (JsMap.get u (Stats.mainDocs store)); [|discriminate].
  eexists. split; [reflexivity|]. cbn. split; [|reflexivity].
  now apply keys_set_present.
Qed.

(** One round of the batch: a user with a document is refreshed and
    counted as a success, a user without one is counted as failed; no
    document appears or disappears. *)
Lemma batchUpdateOne_step res store u :
  exists store',
    batchUpdateOne (res, store) u
    = (if JsMap.has u (Stats.mainDocs store)
       then mkBatchResults (br_success res ++ [u]) (br_failed res)
              (br_total res)
       else mkBatchResults (br_success res)
              (br_failed res ++ [(u, error_text "No valid stats found")])
              (br_total res),
       store')
    /\ JsMap.keys (Stats.mainDocs store') = JsMap.keys (Stats.mainDocs store)
    /\ Stats.powerups store' = Stats.powerups store.
Proof.
  unfold batchUpdateOne. cbn [fst snd].
  unfold getUserStatsWithFallback, getStatsFromMainDocument.
  destruct (JsMap.has u (Stats.mainDocs store)) eqn:H.
  - pose proof H as H'. unfold JsMap.has in H'.
    destruct (JsMap.get u (Stats.mainDocs store)) as [d|] eqn:G;
      [|discriminate].
    destruct (powerupsOf u store) as [|p docs] eqn:P.
    + cbn [fst snd Stats.source String.eqb Ascii.eqb Bool.eqb negb].
      destruct (updateMainDocumentStats_keys u
                  (Stats.mk u (orZeroF (Stats.d_rating d))
                     (orZero (Stats.d_totalCallsReceived d))
                     (orZero (Stats.d_totalLikes d))
                     (orZero (Stats.d_totalDislikes d)) "main_document")
                  store H) as (store' & U & K & Q).
      rewrite U. exists store'. auto.
    + destruct (updateMainDocumentStats_keys u
                  (statsOfPowerups u (p :: docs)) store H)
        as (store1 & U1 & K1 & Q1).
      rewrite U1. cbn [fst snd].
      assert (H1 : JsMap.has u (Stats.mainDocs store1) = true)
        by (rewrite (has_keys u _ _ K1); exact H).
      destruct (updateMainDocumentStats_keys u
                  (statsOfPowerups u (p :: docs)) store1 H1)
        as (store2 & U2 & K2 & Q2).
      replace (negb (String.eqb
                       (Stats.source (statsOfPowerups u (p :: docs)))
                       "default")) with true by reflexivity.
      rewrite U2. exists store2. split; [reflexivity|].
      split; congruence.
  - unfold JsMap.has in H.
    destruct (JsMap.get u (Stats.mainDocs store)); [discriminate|].
    cbn. exists store. auto.
Qed.

Lemma batch_fold ids : forall res store,
  exists store',
    List.fold_left batchUpdateOne ids (res, store)
    = (mkBatchResults
         (br_success res
          ++ List.filter (fun u => JsMap.has u (Stats.mainDocs store)) ids)
         (br_failed res
          ++ List.map (fun u => (u, error_text "No valid stats found"))
               (List.filter
                  (fun u => negb (JsMap.has u (Stats.mainDocs store))) ids))
         (br_total res),
       store')
    /\ JsMap.keys (Stats.mainDocs store') = JsMap.keys (Stats.mainDocs store)
    /\ Stats.powerups store' = Stats.powerups store.
Proof.
  induction ids as [|u ids IH]; intros res store.
  - exists store. cbn. rewrite !app_nil_r. now destruct res.
  - cbn [fold_left]. destruct (batchUpdateOne_step res store u)
      as (store1 & E & K & Q).
    rewrite E.
    destruct (IH (if JsMap.has u (Stats.mainDocs store)
                  then mkBatchResults (br_success res ++ [u]) (br_failed res)
                         (br_total res)
                  else mkBatchResults (br_success res)
                         (br_failed res ++ [(u, error_text "No valid stats found")])
                         (br_total res)) store1)
      as (store' & E' & K' & Q').
    exists store'. rewrite E'.
    split; [|split; congruence].
    assert (HK : forall v, JsMap.has v (Stats.mainDocs store1)
                           = JsMap.has v (Stats.mainDocs store))
      by (intros v; now apply has_keys).
    rewrite (filter_ext _ _ HK).
    rewrite (filter_ext (fun u0 => negb (JsMap.has u0 (Stats.mainDocs store1)))
               (fun u0 => negb (JsMap.has u0 (Stats.mainDocs store))))
      by (intros v; now rewrite HK).
    cbn [List.filter].
    destruct (JsMap.has u (Stats.mainDocs store));
      cbn [negb br_success br_failed br_total List.map];
      now rewrite <- !app_assoc.
Qed.

Lemma filter_split_length {A : Type} (f : A -> bool) (l : list A) :
  (List.length (List.filter f l)
   + List.length (List.filter (fun x => negb (f x)) l)
   = List.length l)%nat.
Proof.
  induction l as [|a l IH]; [reflexivity|].
  cbn [List.filter]. destruct (f a); cbn [negb List.length]; lia.
Qed.

(** X23.  [batchUpdateStats] sorts the requested users into two lists
    without losing or inventing anyone: the successes are the users that
    have a document, in request order, the failures are the others, each
    with ["No valid stats found"], and [total] is the number requested.
    The batch creates and deletes no document and leaves the ratings
    untouched.  [/api/batch_refresh_stats] runs it for 1 to 50 ids and
    refuses an empty or longer list without touching anything. *)
Theorem batchUpdateStats_partitions_request ids store :
  let hasDoc u := JsMap.has u (Stats.mainDocs store) in
  let r := batchUpdateStats ids store in
  br_total (fst r) = List.length ids
  /\ br_success (fst r) = List.filter hasDoc ids
  /\ br_failed (fst r)
     = List.map (fun u => (u, error_text "No valid stats found"))
         (List.filter (fun u => negb (hasDoc u)) ids)
  /\ (List.length (br_success (fst r)) + List.length (br_failed (fst r))
      = List.length ids)%nat
  /\ JsMap.keys (Stats.mainDocs (snd r)) = JsMap.keys (Stats.mainDocs store)
  /\ Stats.powerups (snd r) = Stats.powerups store
  /\ batch_refresh_stats (Some ids) true store
     = if Nat.eqb (List.length ids) 0 || Nat.ltb 50 (List.length ids)
       then (reply_error 400
               (if Nat.eqb (List.length ids) 0
                then "user_ids array is required"
                else "Maximum 50 users allowed per batch"), store)
       else (reply_ok (fst r), snd r).
Proof.
  cbv zeta. unfold batchUpdateStats.
  destruct (batch_fold ids (mkBatchResults [] [] (List.length ids)) store)
    as (store' & E & K & Q).
  unfold batch_refresh_stats, batchUpdateStats. rewrite E.
  cbn [fst snd br_total br_success br_failed app].
  split; [reflexivity|]. split; [reflexivity|]. split; [reflexivity|].
  split.
  { rewrite length_map. apply filter_split_length. }
  split; [exact K|]. split; [exact Q|].
  destruct (Nat.eqb (List.length ids) 0); [reflexivity|].
  destruct (Nat.ltb 50 (List.length ids)); reflexivity.
Qed.

(** X24.  [checkAndDeductCoins] tests the balance against [minRequired]
    and then takes [amount]: it succeeds exactly when the document exists
    and holds at least [minRequired], a success lowers the balance by
    exactly [amount] and reports it, so that the balance stays
    non-negative when [amount <= minRequired] and goes negative whenever
    [minRequired <= balance < amount]; a refusal changes nothing and is
    reported as [INSUFFICIENT_BALANCE], or as [User not found] when there
    is no document. *)
Theorem checkAndDeductCoins_checks_minimum_not_amount u a m c s :
  let r := checkAndDeductCoins u a m c s in
  (cad_success (val r) = true <->
     exists d, JsMap.get u (users s) = Some d /\ m <= currentBalance d)
  /\ (forall d, cad_success (val r) = true ->
        JsMap.get u (users s) = Some d ->
        option_map currentBalance (JsMap.get u (users (st r)))
          = Some (currentBalance d - a)
        /\ cad_newBalance (val r) = Some (currentBalance d - a)
        /\ (a <= m -> 0 <= currentBalance d - a))
  /\ (forall d, JsMap.get u (users s) = Some d ->
        m <= currentBalance d < a ->
        cad_success (val r) = true
        /\ exists b, option_map currentBalance (JsMap.get u (users (st r)))
                     = Some b /\ b < 0)
  /\ (cad_success (val r) = false ->
        st r = s
        /\ cad_error (val r)
           = Some (if JsMap.has u (users s) then "INSUFFICIENT_BALANCE"
                   else "User not found"))
  /\ (forall u', u' <> u ->
        JsMap.get u' (users (st r)) = JsMap.get u' (users s))
  /\ out r = [].
Proof.
  cbv zeta. unfold checkAndDeductCoins, checkAndDeductTransaction.
  unfold JsMap.has. msimpl.
  destruct (JsMap.get u (users s)) as [d|] eqn:E.
  - destruct (currentBalance d <? m) eqn:L; msimpl.
    + apply Z.ltb_lt in L.
      split; [|split; [|split; [|split; [|split]]]].
      * split; [discriminate|].
        intros (d' & D & Le). injection D as <-. lia.
      * discriminate.
      * intros d' D B. injection D as <-. lia.
      * intros _. split; reflexivity.
      * reflexivity.
      * reflexivity.
    + apply Z.ltb_ge in L.
      assert (C : option_map currentBalance
                    (JsMap.get u (JsMap.set u
                       (setBalance (currentBalance d - a) d) (users s)))
                  = Some (currentBalance d - a)).
      { rewrite get_set_same. cbn [option_map].
        now rewrite currentBalance_setBalance. }
      split; [|split; [|split; [|split; [|split]]]].
      * split; [intros _; exists d; auto | reflexivity].
      * intros d' _ D. injection D as <-.
        split; [exact C | split; [reflexivity | lia]].
      * intros d' D B. injection D as <-.
        split; [reflexivity|]. exists (currentBalance d - a).
        split; [exact C | lia].
      * discriminate.
      * intros u' N. apply get_set_other. congruence.
      * reflexivity.
  - msimpl. split; [|split; [|split; [|split; [|split]]]].
    + split; [discriminate|]. intros (d' & D & _). discriminate.
    + discriminate.
    + discriminate.
    + intros _. split; reflexivity.
    + reflexivity.
    + reflexivity.
Qed.


Lemma append_nil_inv (a b : string) : a ++ b = "" -> a = "" /\ b = "".
Proof. destruct a; [auto | discriminate]. Qed.

Lemma append_assoc (a b c : string) : (a ++ b) ++ c = a ++ (b ++ c).
Proof. induction a as [|x a IH]; simpl; [reflexivity | now rewrite IH]. Qed.

Lemma append_nil_r (a : string) : a ++ "" = a.
Proof. induction a as [|x a IH]; simpl; [reflexivity | now rewrite IH]. Qed.

Lemma matches_nullable r s : Matches r s -> s = "" -> nullable r = true.
Proof.
  induction 1; intros E; simpl; try reflexivity; try discriminate.
  - apply append_nil_inv in E as [-> ->]. now rewrite IHMatches1, IHMatches2.
  - now rewrite IHMatches.
  - rewrite IHMatches by exact E. apply orb_true_r.
  - apply append_nil_inv in E as [-> _]. now apply IHMatches1.
Qed.

Lemma nullable_matches r : nullable r = true -> Matches r "".
Proof.
  induction r; simpl; intros N; try discriminate.
  - constructor.
  - apply andb_true_iff in N as [N1 N2].
    change "" with ("" ++ ""). constructor; auto.
  - apply orb_true_iff in N as [N|N];
      [apply matches_alt_l | apply matches_alt_r]; auto.
  - constructor.
  - change "" with ("" ++ ""). constructor; [auto | constructor].
Qed.

Lemma deriv_complete r x :
  Matches r x -> forall c s, x = String c s -> Matches (deriv c r) s.
Proof.
  induction 1; intros a t E; simpl; try discriminate.
  - injection E as <- <-. rewrite Ascii.eqb_refl. constructor.
  - injection E as <- <-. rewrite H. constructor.
  - destruct s1 as [|b s1]; simpl in E.
    + rewrite (matches_nullable _ _ H eq_refl).
      apply matches_alt_r. now apply IHMatches2.
    + injection E as <- <-.
      assert (D : Matches (re_seq (deriv b r1) r2) (s1 ++ s2))
        by (constructor; [now apply IHMatches1 | assumption]).
      destruct (nullable r1); [now apply matches_alt_l | exact D].
  - apply matches_alt_l. now apply IHMatches.
  - apply matches_alt_r. now apply IHMatches.
  - destruct s1 as [|b s1]; simpl in E.
    + now apply IHMatches2.
    + injection E as <- <-. constructor; [now apply IHMatches1 | assumption].
  - destruct s1 as [|b s1]; simpl in E.
    + now apply (IHMatches2 a t).
    + injection E as <- <-. constructor; [now apply IHMatches1 | assumption].
Qed.

Lemma deriv_sound c r : forall s,
  Matches (deriv c r) s -> Matches r (String c s).
Proof.
  induction r; simpl; intros s D.
  - inversion D.
  - inversion D.
  - destruct (Ascii.eqb_spec c c0) as [->|]; inversion D. constructor.
  - destruct (inRange lo hi c) eqn:R; inversion D. now constructor.
  - assert (L : forall x, Matches (re_seq (deriv c r1) r2) x ->
                          Matches (re_seq r1 r2) (String c x)).
    { intros x X. inversion X; subst.
      change (String c (s1 ++ s2)) with (String c s1 ++ s2).
      constructor; auto. }
    destruct (nullable r1) eqn:N.
    + inversion D; subst; [now apply L|].
      change (String c s) with ("" ++ String c s).
      constructor; [now apply nullable_matches | auto].
    + now apply L.
  - inversion D; subst;
      [apply matches_alt_l | apply matches_alt_r]; auto.
  - inversion D; subst.
    change (String c (s1 ++ s2)) with (String c s1 ++ s2).
    constructor; auto.
  - inversion D; subst.
    change (String c (s1 ++ s2)) with (String c s1 ++ s2).
    constructor; auto.
Qed.

(** The test by derivatives decides the matching relation. *)
Lemma re_test_spec s : forall r, re_test r s = true <-> Matches r s.
Proof.
  induction s as [|c s IH]; intros r; simpl.
  - split; [apply nullable_matches | intros M; now apply (matches_nullable r "")].
  - rewrite IH. split; [apply deriv_sound|].
    intros M. now apply (deriv_complete r (String c s)).
Qed.

Lemma matches_seq_iff r1 r2 x :
  Matches (re_seq r1 r2) x <->
  exists s1 s2, x = s1 ++ s2 /\ Matches r1 s1 /\ Matches r2 s2.
Proof.
  split.
  - intros M. inversion M; subst. eauto.
  - intros (s1 & s2 & -> & M1 & M2). now constructor.
Qed.

Lemma matches_alt_iff r1 r2 x :
  Matches (re_alt r1 r2) x <-> Matches r1 x \/ Matches r2 x.
Proof.
  split.
  - intros M. inversion M; subst; auto.
  - intros [M|M]; [apply matches_alt_l | apply matches_alt_r]; auto.
Qed.

Lemma matches_char_iff c x : Matches (re_char c) x <-> x = String c "".
Proof.
  split; [intros M; now inversion M | intros ->; constructor].
Qed.

Lemma matches_range_iff lo hi x :
  Matches (re_range lo hi) x <->
  exists c, x = String c "" /\ inRange lo hi c = true.
Proof.
  split.
  - intros M. inversion M; subst. eauto.
  - intros (c & -> & C). now constructor.
Qed.

Lemma matches_plus_iff r x :
  Matches (re_plus r) x <->
  exists s1 s2, x = s1 ++ s2 /\ Matches r s1 /\ Matches (re_star r) s2.
Proof.
  split.
  - intros M. inversion M; subst. eauto.
  - intros (s1 & s2 & -> & M1 & M2). now constructor.
Qed.

Lemma matches_lit_iff s : forall x, Matches (re_lit s) x <-> x = s.
Proof.
  induction s as [|c s IH]; intros x; simpl.
  - split; [intros M; now inversion M | intros ->; constructor].
  - rewrite matches_seq_iff. split.
    + intros (s1 & s2 & -> & M1 & M2).
      apply matches_char_iff in M1 as ->. apply IH in M2 as ->. reflexivity.
    + intros ->. exists (String c ""), s.
      split; [reflexivity | split; [constructor | now apply IH]].
Qed.

Lemma allDigits_app a b : allDigits (a ++ b) = allDigits a && allDigits b.
Proof.
  induction a as [|c a IH]; simpl; [reflexivity|].
  now rewrite IH, andb_assoc.
Qed.

Lemma matches_star_digits x :
  Matches (re_star re_digit) x <-> allDigits x = true.
Proof.
  split.
  - remember (re_star re_digit) as r eqn:R. induction 1; try discriminate.
    + reflexivity.
    + injection R as ->. rewrite allDigits_app.
      rewrite IHMatches2 by reflexivity.
      apply matches_range_iff in H as (c & -> & C). simpl. now rewrite C.
  - induction x as [|c x IH]; simpl; intros A; [constructor|].
    apply andb_true_iff in A as [C A].
    change (String c x) with (String c "" ++ x).
    constructor; [now constructor | auto].
Qed.

Lemma matches_plus_digits x :
  Matches (re_plus re_digit) x <-> isNumber x = true.
Proof.
  unfold isNumber. split.
  - intros M. apply matches_plus_iff in M as (s1 & s2 & -> & M1 & M2).
    apply matches_range_iff in M1 as (c & -> & C).
    apply matches_star_digits in M2. simpl. now rewrite C, M2.
  - destruct x as [|c x]; simpl; [discriminate|]. intros A.
    apply andb_true_iff in A as [C A].
    change (String c x) with (String c "" ++ x).
    constructor; [now constructor | now apply matches_star_digits].
Qed.

Lemma string_of_uint_digits d : allDigits (NilEmpty.string_of_uint d) = true.
Proof. induction d; simpl; auto. Qed.

Lemma string_of_uint_isNumber d :
  d <> Decimal.Nil -> isNumber (NilEmpty.string_of_uint d) = true.
Proof.
  intros N. unfold isNumber.
  destruct d; [now elim N| ..]; simpl; apply string_of_uint_digits.
Qed.

Lemma showZ_isNumber n : 0 <= n -> isNumber (showZ n) = true.
Proof.
  intros P. unfold showZ.
  destruct n as [|p|p]; [reflexivity| |lia].
  cbn [Z.to_int NilZero.string_of_int].
  pose proof (DecimalPos.Unsigned.to_uint_nonnil p) as N.
  unfold NilZero.string_of_uint.
  destruct (Pos.to_uint p) eqn:E; [now elim N| ..];
    apply string_of_uint_isNumber; discriminate.
Qed.

Lemma matches_lit_seq s r x :
  Matches (re_seq (re_lit s) r) x <-> exists y, x = s ++ y /\ Matches r y.
Proof.
  rewrite matches_seq_iff. split.
  - intros (s1 & s2 & -> & M1 & M2). apply matches_lit_iff in M1 as ->. eauto.
  - intros (y & -> & M). exists s, y.
    split; [reflexivity | split; [now apply matches_lit_iff | exact M]].
Qed.

Lemma matches_number_dot r x :
  Matches (re_seq (re_plus re_digit) (re_seq (re_char ".") r)) x <->
  exists a y, isNumber a = true /\ x = a ++ "." ++ y /\ Matches r y.
Proof.
  rewrite matches_seq_iff. split.
  - intros (a & t & -> & A & T). apply matches_plus_digits in A.
    apply matches_seq_iff in T as (d & y & -> & D & Y).
    apply matches_char_iff in D as ->. exists a, y. auto.
  - intros (a & y & A & -> & Y). exists a, ("." ++ y).
    split; [reflexivity|]. split; [now apply matches_plus_digits|].
    change ("." ++ y) with (String "." "" ++ y).
    constructor; [constructor | exact Y].
Qed.

Lemma inRange_cases lo hi c :
  inRange lo hi c = true ->
  charCode lo <= charCode c <= charCode hi.
Proof.
  unfold inRange. intros R. apply andb_true_iff in R as [A B].
  apply Z.leb_le in A. apply Z.leb_le in B. lia.
Qed.

Lemma charCode_digit c v :
  charCode c = 48 + v -> 0 <= v <= 9 ->
  String c "" = showZ v.
Proof.
  intros E V.
  assert (C : v = 0 \/ v = 1 \/ v = 2 \/ v = 3 \/ v = 4 \/ v = 5 \/ v = 6
              \/ v = 7 \/ v = 8 \/ v = 9) by lia.
  destruct C as [->|[->|[->|[->|[->|[->|[->|[->|[->| ->]]]]]]]]];
    cbn; f_equal; apply charCode_inj; rewrite E; reflexivity.
Qed.

Lemma matches_second_octet x :
  Matches
    (re_alt (re_seq (re_char "1") (re_range "6" "9"))
       (re_alt (re_seq (re_char "2") (re_range "0" "9"))
          (re_seq (re_char "3") (re_range "0" "1")))) x <->
  exists n, 16 <= n <= 31 /\ x = showZ n.
Proof.
  rewrite !matches_alt_iff, !matches_seq_iff. split.
  - intros [M|[M|M]]; destruct M as (s1 & s2 & -> & M1 & M2);
      apply matches_char_iff in M1 as ->;
      apply matches_range_iff in M2 as (c & -> & C);
      apply inRange_cases in C; change (charCode "0") with 48 in C;
      change (charCode "1") with 49 in C; change (charCode "6") with 54 in C;
      change (charCode "9") with 57 in C.
    + exists (10 + (charCode c - 48)). split; [lia|].
      assert (V : charCode c - 48 = 6 \/ charCode c - 48 = 7
                  \/ charCode c - 48 = 8 \/ charCode c - 48 = 9) by lia.
      assert (E : String c "" = showZ (charCode c - 48))
        by (apply charCode_digit; lia).
      destruct V as [V|[V|[V|V]]]; rewrite V in E; injection E as ->;
        reflexivity.
    + exists (20 + (charCode c - 48)). split; [lia|].
      assert (V : charCode c - 48 = 0 \/ charCode c - 48 = 1
                  \/ charCode c - 48 = 2 \/ charCode c - 48 = 3
                  \/ charCode c - 48 = 4 \/ charCode c - 48 = 5
                  \/ charCode c - 48 = 6 \/ charCode c - 48 = 7
                  \/ charCode c - 48 = 8 \/ charCode c - 48 = 9) by lia.
      assert (E : String c "" = showZ (charCode c - 48))
        by (apply charCode_digit; lia).
      destruct V as [V|[V|[V|[V|[V|[V|[V|[V|[V|V]]]]]]]]]; rewrite V in E;
        injection E as ->; reflexivity.
    + exists (30 + (charCode c - 48)). split; [lia|].
      assert (V : charCode c - 48 = 0 \/ charCode c - 48 = 1) by lia.
      assert (E : String c "" = showZ (charCode c - 48))
        by (apply charCode_digit; lia).
      destruct V as [V|V]; rewrite V in E; injection E as ->; reflexivity.
  - intros (n & N & ->).
    assert (C : n = 16 \/ n = 17 \/ n = 18 \/ n = 19 \/ n = 20 \/ n = 21
                \/ n = 22 \/ n = 23 \/ n = 24 \/ n = 25 \/ n = 26 \/ n = 27
                \/ n = 28 \/ n = 29 \/ n = 30 \/ n = 31) by lia.
    assert (P : forall a b lo hi, inRange lo hi b = true ->
              exists s1 s2, String a (String b "") = s1 ++ s2
                /\ Matches (re_char a) s1 /\ Matches (re_range lo hi) s2).
    { intros a b lo hi R. exists (String a ""), (String b "").
      split; [reflexivity | split; constructor; exact R]. }
    destruct C as [->|[->|[->|[->|[->|[->|[->|[->|[->|[->|[->|[->|[->|[->|
                   [->| ->]]]]]]]]]]]]]]];
      first [ left; now apply P
            | right; left; now apply P
            | right; right; now apply P ].
Qed.

(** The addresses that some pattern of [allowedPatterns] accepts. *)
Lemma allowedPatterns_shapes x :
  List.existsb (fun pattern => re_test pattern x) allowedPatterns = true <->
  x = "127.0.0.1" \/ x = "::1" \/ x = "::ffff:127.0.0.1"
  \/ (exists a b c,
        isNumber a = true /\ isNumber b = true /\ isNumber c = true
        /\ x = "10." ++ a ++ "." ++ b ++ "." ++ c)
  \/ (exists a b,
        isNumber a = true /\ isNumber b = true
        /\ x = "192.168." ++ a ++ "." ++ b)
  \/ (exists n a b,
        16 <= n <= 31 /\ isNumber a = true /\ isNumber b = true
        /\ x = "172." ++ showZ n ++ "." ++ a ++ "." ++ b).
Proof.
  unfold allowedPatterns. cbn [List.existsb].
  rewrite !orb_true_iff, !re_test_spec, !matches_lit_iff.
  assert (T : Matches
            (re_seq (re_lit "10.")
               (re_seq (re_plus re_digit)
                  (re_seq (re_char ".")
                     (re_seq (re_plus re_digit)
                        (re_seq (re_char ".") (re_plus re_digit)))))) x <->
          exists a b c,
            isNumber a = true /\ isNumber b = true /\ isNumber c = true
            /\ x = "10." ++ a ++ "." ++ b ++ "." ++ c).
  { rewrite matches_lit_seq. split.
    - intros (y & -> & Y).
      apply matches_number_dot in Y as (a & z & A & -> & Z).
      apply matches_number_dot in Z as (b & c & B & -> & C).
      apply matches_plus_digits in C. exists a, b, c. auto.
    - intros (a & b & c & A & B & C & ->). eexists. split; [reflexivity|].
      apply matches_number_dot. exists a, (b ++ "." ++ c).
      split; [exact A | split; [reflexivity|]].
      apply matches_number_dot. exists b, c.
      split; [exact B | split; [reflexivity|]].
      now apply matches_plus_digits. }
  assert (U : Matches
            (re_seq (re_lit "192.168.")
               (re_seq (re_plus re_digit)
                  (re_seq (re_char ".") (re_plus re_digit)))) x <->
          exists a b,
            isNumber a = true /\ isNumber b = true
            /\ x = "192.168." ++ a ++ "." ++ b).
  { rewrite matches_lit_seq. split.
    - intros (y & -> & Y).
      apply matches_number_dot in Y as (a & b & A & -> & B).
      apply matches_plus_digits in B. exists a, b. auto.
    - intros (a & b & A & B & ->). eexists. split; [reflexivity|].
      apply matches_number_dot. exists a, b.
      split; [exact A | split; [reflexivity|]].
      now apply matches_plus_digits. }
  assert (V : Matches
            (re_seq (re_lit "172.")
               (re_seq
                  (re_alt (re_seq (re_char "1") (re_range "6" "9"))
                     (re_alt (re_seq (re_char "2") (re_range "0" "9"))
                        (re_seq (re_char "3") (re_range "0" "1"))))
                  (re_seq (re_char ".")
                     (re_seq (re_plus re_digit)
                        (re_seq (re_char ".") (re_plus re_digit)))))) x <->
          exists n a b,
            16 <= n <= 31 /\ isNumber a = true /\ isNumber b = true
            /\ x = "172." ++ showZ n ++ "." ++ a ++ "." ++ b).
  { rewrite matches_lit_seq. split.
    - intros (y & -> & Y).
      apply matches_seq_iff in Y as (o & z & -> & O & Z).
      apply matches_second_octet in O as (n & N & ->).
      apply matches_seq_iff in Z as (d & w & -> & D & W).
      apply matches_char_iff in D as ->.
      apply matches_number_dot in W as (a & b & A & -> & B).
      apply matches_plus_digits in B. exists n, a, b. auto.
    - intros (n & a & b & N & A & B & ->). eexists. split; [reflexivity|].
      apply matches_seq_iff. exists (showZ n), ("." ++ a ++ "." ++ b).
      split; [reflexivity|].
      split; [apply matches_second_octet; eauto|].
      change ("." ++ a ++ "." ++ b) with (String "." "" ++ (a ++ "." ++ b)).
      constructor; [constructor|].
      apply matches_number_dot. exists a, b.
      split; [exact A | split; [reflexivity|]].
      now apply matches_plus_digits. }
  rewrite T, U, V. intuition discriminate.
Qed.

(** X26.  [requireInternalAccess] hands a request on exactly when the
    server is not in production or the client address, as text, is
    [127.0.0.1], [::1], [::ffff:127.0.0.1], [10.a.b.c], [192.168.a.b] or
    [172.n.a.b] with [n] from 16 to 31, where [a], [b] and [c] are any
    non-empty runs of decimal digits; in particular every dotted-decimal
    address of the private ranges 10/8, 172.16/12 and 192.168/16 is
    handed on. *)
Theorem requireInternalAccess_admits_private_shapes isProduction ip
  remoteAddress :
  let clientIp := clientIpOf ip remoteAddress in
  (requireInternalAccess isProduction ip remoteAddress = next <->
     isProduction = false
     \/ clientIp = "127.0.0.1" \/ clientIp = "::1"
     \/ clientIp = "::ffff:127.0.0.1"
     \/ (exists a b c,
           isNumber a = true /\ isNumber b = true /\ isNumber c = true
           /\ clientIp = "10." ++ a ++ "." ++ b ++ "." ++ c)
     \/ (exists a b,
           isNumber a = true /\ isNumber b = true
           /\ clientIp = "192.168." ++ a ++ "." ++ b)
     \/ (exists n a b,
           16 <= n <= 31 /\ isNumber a = true /\ isNumber b = true
           /\ clientIp = "172." ++ showZ n ++ "." ++ a ++ "." ++ b))
  /\ (forall a b c d, 0 <= c -> 0 <= d ->
        (a = 10 /\ 0 <= b) \/ (a = 172 /\ 16 <= b <= 31)
        \/ (a = 192 /\ b = 168) ->
        requireInternalAccess isProduction
          (Some (showZ a ++ "." ++ showZ b ++ "." ++ showZ c ++ "."
                 ++ showZ d)) remoteAddress = next).
Proof.
  cbv zeta.
  assert (R : forall i r,
            requireInternalAccess isProduction i r = next <->
            isProduction = false
            \/ List.existsb (fun pattern => re_test pattern (clientIpOf i r))
                 allowedPatterns = true).
  { intros i r. unfold requireInternalAccess.
    destruct (List.existsb _ allowedPatterns); destruct isProduction;
      cbn [negb andb]; intuition discriminate. }
  split.
  - rewrite R, allowedPatterns_shapes. reflexivity.
  - intros a b c d C D S. apply R. right. apply allowedPatterns_shapes.
    destruct S as [[-> B]|[[-> B]|[-> ->]]].
    + right; right; right; left.
      exists (showZ b), (showZ c), (showZ d).
      split; [now apply showZ_isNumber|].
      split; [now apply showZ_isNumber|].
      split; [now apply showZ_isNumber | reflexivity].
    + right; right; right; right; right.
      exists b, (showZ c), (showZ d).
      split; [exact B|].
      split; [now apply showZ_isNumber|].
      split; [now apply showZ_isNumber|].
      unfold clientIpOf, orString.
      destruct (falsy _) eqn:F; [|reflexivity].
      apply String.eqb_eq in F. discriminate.
    + right; right; right; right; left.
      exists (showZ c), (showZ d).
      split; [now apply showZ_isNumber|].
      split; [now apply showZ_isNumber | reflexivity].
Qed.

(** ** The interval callbacks *)

Lemma with_durationSeconds_twice d d' x :
  Timer.with_durationSeconds d (Timer.with_durationSeconds d' x)
  = Timer.with_durationSeconds d x.
Proof. reflexivity. Qed.

Lemma onInterval_loop callId : forall l s x,
  JsMap.get callId (callTimers s) = Some x ->
  let s' := st (forEach l (fun e => onInterval (snd e)) s) in
  JsMap.get callId (callTimers s')
  = Some (Timer.with_durationSeconds
            (Timer.durationSeconds x + Z.of_nat (liveIntervalsOf callId l)) x)
  /\ intervals s' = intervals s
  /\ out (forEach l (fun e => onInterval (snd e)) s) = [].
Proof.
  induction l as [|[h c] l IH]; intros s x G; cbv zeta.
  - cbn. rewrite G. destruct x; cbn.
    rewrite Z.add_0_r. auto.
  - cbn [forEach]. unfold bind. cbn [st out snd].
    unfold liveIntervalsOf. cbn [List.filter snd].
    destruct (String.eqb_spec c callId) as [->|N].
    + assert (K : JsMap.get callId
                    (callTimers (st (onInterval callId s)))
                  = Some (Timer.with_durationSeconds
                            (Timer.durationSeconds x + 1) x)
                  /\ intervals (st (onInterval callId s)) = intervals s
                  /\ out (onInterval callId s) = []).
      { unfold onInterval, bind, gets, setTimer, modify. cbn [val st out].
        rewrite G. cbn [val st out callTimers with_callTimers intervals].
        rewrite get_set_same. auto. }
      destruct K as (K1 & K2 & K3).
      destruct (IH _ _ K1) as (A & B & C).
      rewrite A, B, C, K2, K3. cbn [List.length].
      fold (liveIntervalsOf callId l).
      rewrite with_durationSeconds_twice.
      cbn [Timer.durationSeconds Timer.with_durationSeconds].
      split; [|split; reflexivity]. do 2 f_equal. lia.
    + fold (liveIntervalsOf callId l).
      assert (K : JsMap.get callId
                    (callTimers (st (onInterval c s))) = Some x
                  /\ intervals (st (onInterval c s)) = intervals s
                  /\ out (onInterval c s) = []).
      { unfold onInterval, bind, gets, setTimer, modify. cbn [val st out].
        destruct (JsMap.get c (callTimers s)); cbn [val st out];
          [|auto].
        cbn [callTimers with_callTimers intervals].
        rewrite get_set_other by congruence. auto. }
      destruct K as (K1 & K2 & K3).
      destruct (IH _ _ K1) as (A & B & C).
      rewrite A, B, C, K2, K3. auto.
Qed.

Lemma second_step callId s x :
  JsMap.get callId (callTimers s) = Some x ->
  JsMap.get callId (callTimers (exec second s))
  = Some (Timer.with_durationSeconds
            (Timer.durationSeconds x
             + Z.of_nat (liveIntervalsOf callId (intervals s))) x)
  /\ intervals (exec second s) = intervals s
  /\ trace second s = [].
Proof.
  intros G. unfold exec, trace, second, bind, gets. cbn [val st out].
  destruct (onInterval_loop callId (intervals s) s x G) as (A & B & C).
  auto.
Qed.

(** X27.  Every elapsed second advances a stored timer by the number of
    live intervals that were set for its call id, and changes nothing
    else of it: after [n] seconds the duration has grown by [n] times
    that number, the intervals are the same and nothing was emitted.  So
    a timer with one live interval counts the seconds, one whose interval
    was cleared stands still, and one with two runs at double speed. *)
Theorem seconds_advance_timer_by_live_intervals n s callId x :
  JsMap.get callId (callTimers s) = Some x ->
  let k := Z.of_nat (liveIntervalsOf callId (intervals s)) in
  JsMap.get callId (callTimers (exec (run (seconds n)) s))
  = Some (Timer.with_durationSeconds
            (Timer.durationSeconds x + Z.of_nat n * k) x)
  /\ intervals (exec (run (seconds n)) s) = intervals s
  /\ trace (run (seconds n)) s = [].
Proof.
  revert s x. induction n as [|n IH]; intros s x G; cbv zeta.
  - cbn. rewrite G. destruct x; cbn. rewrite Z.add_0_r. auto.
  - unfold exec, trace, run, seconds. cbn [List.repeat forEach handle].
    unfold bind. cbn [st out].
    destruct (second_step callId s x G) as (A & B & C).
    unfold exec, trace in A, B, C.
    specialize (IH (st (second s)) _ A). cbv zeta in IH.
    unfold exec, trace, run, seconds in IH.
    destruct IH as (A' & B' & C').
    rewrite A', B', C', B, C. rewrite with_durationSeconds_twice.
    cbn [Timer.durationSeconds Timer.with_durationSeconds].
    split; [|split; reflexivity]. do 2 f_equal. lia.
Qed.

Lemma seconds_advance_timer_by_live_intervals_witness :
  let x := Timer.mk 0 3000 10 "C" "R" "audio" COIN_RATES_audio 3000 true in
  let s := with_intervals [(0%nat, "X"); (1%nat, "X")] 2
             (with_callTimers [("X", x)] initialState) in
  JsMap.get "X" (callTimers (exec (run (seconds 5)) s))
  = Some (Timer.with_durationSeconds 20 x).
Proof.
  intros x s.
  pose proof (seconds_advance_timer_by_live_intervals 5 s "X" x eq_refl)
    as H.
  cbv zeta in H. destruct H as [H _]. exact H.
Defined.
